(** * WhyML: manifest processing and HTML conversion

  A shallow embedding of [whyml/manifest_processor.py] and
  [whyml/converters/html_converter.py].

  Manifests are parsed YAML documents, i.e. Python values.  The embedding
  covers [None], booleans, integers, strings, lists and dictionaries with
  string keys (floating point scalars and non-string keys are outside the
  model).  A dictionary keeps its insertion order, which the converter
  observes, so it is an association list.  A string is a sequence of code
  points below 256.  Operations that raise in Python return [Err]. *)

From Stdlib Require Import String Ascii List ZArith Bool Arith Lia.
From Stdlib Require Import DecimalString.
Set Warnings "-register-all".
Import ListNotations.
Open Scope list_scope.
Open Scope string_scope.

(* ================================================================== *)
(** * Python values, exceptions and primitives *)
(* ================================================================== *)

Module Py.

Inductive value : Type :=
| VNone
| VBool (b : bool)
| VInt (z : Z)
| VStr (s : string)
| VList (l : list value)
| VDict (d : list (string * value)).

Definition dict : Type := list (string * value).

(** The exceptions the modelled code raises or lets through.  The last
    one is not an exception of Python: [NonTextKey] ends an operation that
    would give a dictionary a key that is not a string, since such a
    dictionary is not a value of the model. *)
Inductive exn : Type :=
| AttributeError
| TypeError
| KeyError (key : value)
| IndexError
| StopIteration
| RecursionError
| RuntimeError
| ValueError
| LoaderError (msg : string)
| JinjaError (msg : string)
| ValidationError (errors warnings : list string)
| TemplateError (message : string) (template_name : option value)
                (original_error : option exn)
                (details : list (string * value))
| ConversionError (context : string) (original_error : exn)
| NonTextKey (key : value).

Inductive result (A : Type) : Type :=
| Ok (a : A)
| Err (e : exn).
Arguments Ok {A} a.
Arguments Err {A} e.

Definition bind {A B} (m : result A) (k : A -> result B) : result B :=
  match m with
  | Ok a => k a
  | Err e => Err e
  end.

(** [try: body except Exception as e: raise handler(e)] *)
Definition try_except {A} (body : result A) (handler : exn -> exn) : result A :=
  match body with
  | Ok a => Ok a
  | Err e => Err (handler e)
  end.

(** ** Characters and strings *)

Definition dquote : string := String (ascii_of_nat 34) "".
Definition newline : string := String (ascii_of_nat 10) "".

Definition code (c : ascii) : nat := nat_of_ascii c.

Definition in_range (lo hi : nat) (c : ascii) : bool :=
  ((lo <=? code c) && (code c <=? hi))%nat.

(** [str.isspace] on one character, which is also what [\s] matches. *)
Definition isspace (c : ascii) : bool :=
  in_range 9 13 c || in_range 28 32 c
  || (code c =? 133)%nat || (code c =? 160)%nat.

Definition is_ascii_lower (c : ascii) : bool := in_range 97 122 c.
Definition is_ascii_upper (c : ascii) : bool := in_range 65 90 c.
Definition is_ascii_digit (c : ascii) : bool := in_range 48 57 c.
Definition is_ascii_alpha (c : ascii) : bool :=
  is_ascii_lower c || is_ascii_upper c.

(** [str.lower] on one character. *)
Definition lower_char (c : ascii) : ascii :=
  if is_ascii_upper c
     || (in_range 192 222 c && negb (code c =? 215)%nat)
  then ascii_of_nat (code c + 32)
  else c.

Fixpoint lower (s : string) : string :=
  match s with
  | EmptyString => EmptyString
  | String c r => String (lower_char c) (lower r)
  end.

Definition nonempty (s : string) : bool :=
  match s with EmptyString => false | String _ _ => true end.

Fixpoint lstrip (s : string) : string :=
  match s with
  | EmptyString => EmptyString
  | String c r => if isspace c then lstrip r else s
  end.

Fixpoint rstrip (s : string) : string :=
  match s with
  | EmptyString => EmptyString
  | String c r =>
      match rstrip r with
      | EmptyString => if isspace c then EmptyString else String c EmptyString
      | r' => String c r'
      end
  end.

(** [s.strip()] *)
Definition strip (s : string) : string := rstrip (lstrip s).

(** [s.lstrip(ch)] for a one-character argument. *)
Fixpoint lstrip_char (ch : ascii) (s : string) : string :=
  match s with
  | EmptyString => EmptyString
  | String c r => if Ascii.eqb c ch then lstrip_char ch r else s
  end.

(** [s.endswith(ch)] for a one-character argument. *)
Fixpoint endswith_char (ch : ascii) (s : string) : bool :=
  match s with
  | EmptyString => false
  | String c EmptyString => Ascii.eqb c ch
  | String _ r => endswith_char ch r
  end.

(** [s.startswith(ch)] for a one-character argument. *)
Definition startswith_char (ch : ascii) (s : string) : bool :=
  match s with
  | EmptyString => false
  | String c _ => Ascii.eqb c ch
  end.

(** [sub in s] on strings. *)
Fixpoint contains (sub s : string) : bool :=
  prefix sub s ||
  match s with
  | EmptyString => false
  | String _ r => contains sub r
  end.

(** [s.split(sep)] for a one-character separator; [cur] is the piece
    read so far. *)
Fixpoint split_acc (sep : ascii) (cur : string) (s : string) : list string :=
  match s with
  | EmptyString => [cur]
  | String c r =>
      if Ascii.eqb c sep then cur :: split_acc sep "" r
      else split_acc sep (cur ++ String c "") r
  end.

Definition split (sep : ascii) (s : string) : list string :=
  split_acc sep "" s.

(** [sep.join(parts)] *)
Fixpoint join (sep : string) (parts : list string) : string :=
  match parts with
  | [] => ""
  | [p] => p
  | p :: rest => p ++ sep ++ join sep rest
  end.

(** [re.sub(r'\s+', ' ', s)]: every maximal run of whitespace becomes one
    space; [in_run] tells that the previous character was whitespace. *)
Fixpoint sub_ws_runs (in_run : bool) (s : string) : string :=
  match s with
  | EmptyString => EmptyString
  | String c r =>
      if isspace c
      then if in_run then sub_ws_runs true r
           else String " " (sub_ws_runs true r)
      else String c (sub_ws_runs false r)
  end.

(** [html.escape(s)] with its default [quote=True]. *)
Definition escape_char (c : ascii) : string :=
  match code c with
  | 38 => "&amp;"
  | 60 => "&lt;"
  | 62 => "&gt;"
  | 34 => "&quot;"
  | 39 => "&#x27;"
  | _ => String c ""
  end.

Fixpoint escape (s : string) : string :=
  match s with
  | EmptyString => EmptyString
  | String c r => escape_char c ++ escape r
  end.

Definition str_of_Z (z : Z) : string := NilZero.string_of_int (Z.to_int z).
Definition str_of_nat (n : nat) : string := str_of_Z (Z.of_nat n).

(** [str(z)] for an integer: the conversion raises [ValueError] when the
    integer has more than [sys.int_max_str_digits] digits, which is 4300
    unless the interpreter is told otherwise (CPython 3.11 and the security
    releases before it). *)
Definition int_max_str_digits : nat := 4300.

Definition str_of_int (z : Z) : result string :=
  if (String.length (str_of_Z (Z.abs z)) <=? int_max_str_digits)%nat
  then Ok (str_of_Z z)
  else Err ValueError.

(** ** Values *)

(** [bool(v)] *)
Definition truthy (v : value) : bool :=
  match v with
  | VNone => false
  | VBool b => b
  | VInt z => negb (z =? 0)%Z
  | VStr s => nonempty s
  | VList l => match l with [] => false | _ => true end
  | VDict d => match d with [] => false | _ => true end
  end.

Definition is_str (v : value) : bool :=
  match v with VStr _ => true | _ => false end.
Definition is_dict (v : value) : bool :=
  match v with VDict _ => true | _ => false end.
Definition is_list (v : value) : bool :=
  match v with VList _ => true | _ => false end.

(** ** Dictionaries *)

Fixpoint lookup (d : dict) (k : string) : option value :=
  match d with
  | [] => None
  | (k', v) :: r => if String.eqb k' k then Some v else lookup r k
  end.

(** [k in d] *)
Definition has_key (d : dict) (k : string) : bool :=
  match lookup d k with Some _ => true | None => false end.

(** [d.get(k, default)] *)
Definition get (d : dict) (k : string) (default : value) : value :=
  match lookup d k with Some v => v | None => default end.

(** [d[k] = v]: an existing key keeps its place, a new one goes last. *)
Fixpoint set (d : dict) (k : string) (v : value) : dict :=
  match d with
  | [] => [(k, v)]
  | (k', v') :: r =>
      if String.eqb k' k then (k', v) :: r else (k', v') :: set r k v
  end.

(** [d.update(other)] for a dictionary [other]. *)
Definition update (d other : dict) : dict :=
  fold_left (fun acc kv => set acc (fst kv) (snd kv)) other d.

(** [v.get(k, default)] on an arbitrary value: only dictionaries have
    the method. *)
Definition method_get (v : value) (k : string) (default : value) : result value :=
  match v with
  | VDict d => Ok (get d k default)
  | _ => Err AttributeError
  end.

(** [x in d] for a dictionary [d]: the key has to be hashable. *)
Definition in_dict (x : value) (d : dict) : result bool :=
  match x with
  | VStr k => Ok (has_key d k)
  | VList _ | VDict _ => Err TypeError
  | _ => Ok false
  end.

(** The characters of a string, each a string of length one. *)
Fixpoint chars (s : string) : list value :=
  match s with
  | EmptyString => []
  | String c r => VStr (String c "") :: chars r
  end.

(** Python's [==] on values: booleans compare as the integers 0 and 1, and
    dictionaries compare as maps, whatever the order of their keys. *)
Fixpoint py_eq (a b : value) {struct a} : bool :=
  match a, b with
  | VNone, VNone => true
  | VBool x, VBool y => Bool.eqb x y
  | VBool x, VInt y => (y =? (if x then 1 else 0))%Z
  | VInt x, VBool y => (x =? (if y then 1 else 0))%Z
  | VInt x, VInt y => (x =? y)%Z
  | VStr x, VStr y => String.eqb x y
  | VList x, VList y =>
      (fix each (l1 l2 : list value) : bool :=
         match l1, l2 with
         | [], [] => true
         | a1 :: r1, b1 :: r2 => py_eq a1 b1 && each r1 r2
         | _, _ => false
         end) x y
  | VDict x, VDict y =>
      (length x =? length y)%nat &&
      (fix each (d : dict) : bool :=
         match d with
         | [] => true
         | (k, v) :: r =>
             match lookup y k with
             | Some w => py_eq v w
             | None => false
             end && each r
         end) x
  | _, _ => false
  end.

(** [x in c] for an arbitrary container [c]. *)
Definition contains_value (x c : value) : result bool :=
  match c with
  | VDict d => in_dict x d
  | VList l => Ok (existsb (py_eq x) l)
  | VStr s =>
      match x with
      | VStr sub => Ok (contains sub s)
      | _ => Err TypeError
      end
  | _ => Err TypeError
  end.

(** [seq[i]] for a list of items seen as a Python sequence. *)
Definition index {A} (items : list A) (i : Z) : result A :=
  let n := Z.of_nat (length items) in
  let j := (if i <? 0 then i + n else i)%Z in
  if ((0 <=? j) && (j <? n))%Z
  then match nth_error items (Z.to_nat j) with
       | Some a => Ok a
       | None => Err IndexError
       end
  else Err IndexError.

(** [c[x]] *)
Definition subscript (c x : value) : result value :=
  match c with
  | VDict d =>
      match x with
      | VStr k =>
          match lookup d k with
          | Some v => Ok v
          | None => Err (KeyError x)
          end
      | VList _ | VDict _ => Err TypeError
      | _ => Err (KeyError x)
      end
  | VList l =>
      match x with
      | VInt i => index l i
      | VBool b => index l (if b then 1 else 0)%Z
      | _ => Err TypeError
      end
  | VStr s =>
      match x with
      | VInt i => index (chars s) i
      | VBool b => index (chars s) (if b then 1 else 0)%Z
      | _ => Err TypeError
      end
  | _ => Err TypeError
  end.

(** [for x in v]: the items a [for] loop sees. *)
Definition iterate (v : value) : result (list value) :=
  match v with
  | VList l => Ok l
  | VStr s => Ok (chars s)
  | VDict d => Ok (map (fun kv => VStr (fst kv)) d)
  | _ => Err TypeError
  end.

(** A loop whose body may raise: the state is threaded through the items
    in order and the first exception ends the loop. *)
Fixpoint foldM {A S} (f : S -> A -> result S) (l : list A) (s : S) : result S :=
  match l with
  | [] => Ok s
  | a :: r => bind (f s a) (foldM f r)
  end.

(** One element of the sequence handed to [d.update]: it has to be
    iterable and of length two, the key and the value, and the key has to
    be hashable.  A dictionary of two keys gives its keys, a string of two
    characters its characters. *)
Definition update_pair (element : value) : result (string * value) :=
  bind (iterate element)
    (fun items =>
       match items with
       | [key; v] =>
           match key with
           | VStr k => Ok (k, v)
           | VList _ | VDict _ => Err TypeError
           | _ => Err (NonTextKey key)
           end
       | _ => Err ValueError
       end).

(** [d.update(other)] for an arbitrary value [other]: a dictionary gives
    its items, any other iterable has to give pairs (so an empty list and
    an empty string change nothing, and a string with characters raises
    [ValueError]), and a value that cannot be iterated raises
    [TypeError]. *)
Definition update_from (d : dict) (other : value) : result dict :=
  match other with
  | VDict items => Ok (update d items)
  | _ =>
      bind (iterate other)
        (fun elements =>
           foldM (fun acc element =>
                    bind (update_pair element)
                      (fun kv => Ok (set acc (fst kv) (snd kv))))
                 elements d)
  end.

Fixpoint mapM {A B} (f : A -> result B) (l : list A) : result (list B) :=
  match l with
  | [] => Ok []
  | a :: r => bind (f a) (fun b => bind (mapM f r) (fun bs => Ok (b :: bs)))
  end.

End Py.

Import Py.

Notation "x <- m ;; k" := (Py.bind m (fun x => k))
  (at level 61, m at next level, right associativity).

(** [++] is the append of strings; lists are appended with [+++]. *)
Infix "+++" := app (at level 60, right associativity).

(* ================================================================== *)
(** * manifest_processor.py *)
(* ================================================================== *)

(** ** class StyleProcessor *)

Module StyleProcessor.

(** [_validate_css_properties]: the messages it hands to the logger; it
    never raises and does not change [css]. *)
Definition _validate_css_properties (css : string) : list string :=
  flat_map
    (fun prop =>
       let prop := strip prop in
       if nonempty prop && negb (contains ":" prop)
       then ["Potentially invalid CSS property: " ++ prop]
       else [])
    (split ";" css).

(** The three rewriting steps of [_process_single_style] on a string. *)
Definition normalize_css (css : string) : string :=
  let css := strip css in
  let css := sub_ws_runs false css in
  if nonempty css && negb (endswith_char ";" css) then css ++ ";" else css.

(** [_process_single_style]: [css.strip()] exists on strings only. *)
Definition _process_single_style (css : value) : result string :=
  match css with
  | VStr s => Ok (normalize_css s)
  | _ => Err AttributeError
  end.

(** The loop of [process_styles] over [styles.items()]: the keys of a
    dictionary are distinct, so each assignment adds one entry. *)
Fixpoint process_items (styles : dict) : result dict :=
  match styles with
  | [] => Ok []
  | (name, css) :: rest =>
      css' <- _process_single_style css ;;
      rest' <- process_items rest ;;
      Ok ((name, VStr css') :: rest')
  end.

Definition process_styles (manifest : value) : result value :=
  styles <- method_get manifest "styles" (VDict []) ;;
  if negb (truthy styles) then Ok manifest
  else
    match styles, manifest with
    | VDict items, VDict m =>
        processed_styles <- process_items items ;;
        Ok (VDict (set m "styles" (VDict processed_styles)))
    | _, _ => Err AttributeError
    end.

End StyleProcessor.

(** ** class TemplateProcessor *)

Module TemplateProcessor.

(** The nested [replace_slots] of [_process_template_slots];
    [child_structure] is [child.get('structure', {})].  A list value is
    rewritten item by item whether or not its key is ['children']: both
    branches of the source do the same to it. *)
Fixpoint replace_slots (child_structure : value) (element : value)
  {struct element} : result value :=
  match element with
  | VDict d =>
      found <-
        (if has_key d "slot"
         then
           let slot_name := get d "slot" VNone in
           present <- contains_value slot_name child_structure ;;
           if present
           then v <- subscript child_structure slot_name ;; Ok (Some v)
           else Ok None
         else Ok None) ;;
      match found with
      | Some v => Ok v
      | None =>
          items <-
            (fix each (d : dict) : result dict :=
               match d with
               | [] => Ok []
               | (key, value) :: rest =>
                   value' <-
                     match value with
                     | VDict _ | VList _ => replace_slots child_structure value
                     | _ => Ok value
                     end ;;
                   rest' <- each rest ;;
                   Ok ((key, value') :: rest')
               end) d ;;
          Ok (VDict items)
      end
  | VList l =>
      items <-
        (fix each (l : list value) : result (list value) :=
           match l with
           | [] => Ok []
           | item :: rest =>
               item' <- replace_slots child_structure item ;;
               rest' <- each rest ;;
               Ok (item' :: rest')
           end) l ;;
      Ok (VList items)
  | _ => Ok element
  end.

(** [_process_template_slots] updates [parent] in place; the model returns
    the updated dictionary. *)
Definition _process_template_slots (parent child : dict) : result dict :=
  let parent_slots := get parent "template_slots" (VDict []) in
  let child_structure := get child "structure" (VDict []) in
  if negb (truthy parent_slots) then Ok parent
  else
    match lookup parent "structure" with
    | None => Err (KeyError (VStr "structure"))
    | Some structure =>
        structure' <- replace_slots child_structure structure ;;
        Ok (set parent "structure" structure')
    end.

(** The nested [merge_element] of [_merge_structures]. *)
Fixpoint merge_element (parent_elem child_elem : value) {struct child_elem}
  : value :=
  match child_elem, parent_elem with
  | VDict c, VDict p =>
      VDict
        ((fix each (items : dict) (merged : dict) : dict :=
            match items with
            | [] => merged
            | (key, value) :: rest =>
                each rest
                  (match lookup merged key, value with
                   | Some (VDict _ as mine), VDict _ =>
                       set merged key (merge_element mine value)
                   | _, _ => set merged key value
                   end)
            end) c p)
  | _, _ => child_elem
  end.

Definition _merge_structures (parent child : value) : result value :=
  if negb (truthy parent) then Ok child
  else if negb (truthy child) then Ok parent
  else
    override <- method_get child "_override" (VBool false) ;;
    if truthy override then Ok child
    else Ok (merge_element parent child).

(** [result.setdefault(section, {}).update(child[section])]: only a
    dictionary has the method [update], and its argument is the section of
    the child, whatever that is. *)
Definition merge_section (result child : dict) (section : string)
  : Py.result dict :=
  match lookup child section with
  | None => Ok result
  | Some theirs =>
      match get result section (VDict []) with
      | VDict mine =>
          merged <- update_from mine theirs ;;
          Ok (set result section (VDict merged))
      | _ => Err AttributeError
      end
  end.

Definition process_template_inheritance (child_manifest parent_manifest : dict)
  : Py.result dict :=
  let result := parent_manifest in
  result <- merge_section result child_manifest "metadata" ;;
  result <- merge_section result child_manifest "styles" ;;
  result <- _process_template_slots result child_manifest ;;
  result <- merge_section result child_manifest "imports" ;;
  result <- merge_section result child_manifest "interactions" ;;
  structure <- _merge_structures (get result "structure" (VDict []))
                                 (get child_manifest "structure" (VDict [])) ;;
  Ok (set result "structure" structure).

Section Substitution.

(** Jinja2: the template made from the string, rendered with the context
    as its variables. *)
Variable render : string -> dict -> result string.

(** The handler [except TemplateError] names the class imported last, the
    one of [whyml.exceptions]; any other exception passes through. *)
Definition substitution_handler (e : exn) : exn :=
  match e with
  | TemplateError _ _ _ _ =>
      TemplateError "Template substitution failed" None (Some e) []
  | _ => e
  end.

Fixpoint substitute_in_value (context : dict) (value : value)
  {struct value} : result Py.value :=
  match value with
  | VStr s =>
      if contains "{{" s && contains "}}" s
      then
        rendered <- try_except (render s context) substitution_handler ;;
        Ok (VStr rendered)
      else Ok value
  | VDict d =>
      items <-
        (fix each (d : dict) : result dict :=
           match d with
           | [] => Ok []
           | (k, v) :: rest =>
               v' <- substitute_in_value context v ;;
               rest' <- each rest ;;
               Ok ((k, v') :: rest')
           end) d ;;
      Ok (VDict items)
  | VList l =>
      items <-
        (fix each (l : list Py.value) : result (list Py.value) :=
           match l with
           | [] => Ok []
           | item :: rest =>
               item' <- substitute_in_value context item ;;
               rest' <- each rest ;;
               Ok (item' :: rest')
           end) l ;;
      Ok (VList items)
  | _ => Ok value
  end.

(** [context = context or {}] is the caller's dictionary, empty for [None]. *)
Definition substitute_variables (manifest : value) (context : dict)
  : result value :=
  metadata <- method_get manifest "metadata" (VDict []) ;;
  let context := update context [("metadata", metadata); ("manifest", manifest)] in
  substitute_in_value context manifest.

End Substitution.

End TemplateProcessor.

(** ** Regular expressions of the validator

    Each pattern is matched with [re.match]; [$] matches at the end of the
    string and just before a newline that ends it. *)

Module Regex.

Definition is_newline (c : ascii) : bool := (code c =? 10)%nat.

(** [$] *)
Definition at_end (s : string) : bool :=
  match s with
  | EmptyString => true
  | String c EmptyString => is_newline c
  | _ => false
  end.

(** [cls*$] *)
Fixpoint star_then_end (cls : ascii -> bool) (s : string) : bool :=
  at_end s ||
  match s with
  | EmptyString => false
  | String c r => cls c && star_then_end cls r
  end.

Definition is_char (ch : string) (c : ascii) : bool :=
  match ch with
  | String x _ => Ascii.eqb c x
  | EmptyString => false
  end.

Definition element_name_rest (c : ascii) : bool :=
  is_ascii_alpha c || is_ascii_digit c || is_char "-" c.

(** [^[a-zA-Z][a-zA-Z0-9-]*$] *)
Definition element_name_match (s : string) : bool :=
  match s with
  | EmptyString => false
  | String c r => is_ascii_alpha c && star_then_end element_name_rest r
  end.

Definition slot_name_rest (c : ascii) : bool :=
  is_ascii_alpha c || is_ascii_digit c || is_char "_" c || is_char "-" c.

(** [^[a-zA-Z_][a-zA-Z0-9_-]*$] *)
Definition slot_name_match (s : string) : bool :=
  match s with
  | EmptyString => false
  | String c r =>
      (is_ascii_alpha c || is_char "_" c) && star_then_end slot_name_rest r
  end.

Fixpoint skip_while (p : ascii -> bool) (s : string) : string :=
  match s with
  | EmptyString => EmptyString
  | String c r => if p c then skip_while p r else s
  end.

(** [.+$]: the dot does not match a newline. *)
Definition dot_plus_end (s : string) : bool :=
  match s with
  | EmptyString => false
  | String c r =>
      negb (is_newline c) && star_then_end (fun c => negb (is_newline c)) r
  end.

(** [\s*.+$] *)
Fixpoint ws_dot_plus_end (s : string) : bool :=
  dot_plus_end s ||
  match s with
  | EmptyString => false
  | String c r => isspace c && ws_dot_plus_end r
  end.

Definition css_name_char (c : ascii) : bool :=
  is_ascii_alpha c || is_char "-" c.

(** [^[a-zA-Z-]+\s*:\s*.+$]: neither a colon nor whitespace is a name
    character, so the name and the whitespace after it are read greedily. *)
Definition css_property_match (s : string) : bool :=
  let after_name := skip_while css_name_char s in
  (String.length after_name <? String.length s)%nat &&
  match skip_while isspace after_name with
  | String c rest => is_char ":" c && ws_dot_plus_end rest
  | EmptyString => false
  end.

End Regex.

(** ** class ManifestValidator *)

Module ManifestValidator.

(** The two lists [validate] fills: errors and warnings. *)
Definition report : Type := (list string * list string)%type.

Definition add_error (r : report) (msg : string) : report :=
  ((fst r ++ [msg])%list, snd r).

Definition add_warning (r : report) (msg : string) : report :=
  (fst r, (snd r ++ [msg])%list).

Definition add_warnings (r : report) (msgs : list string) : report :=
  (fst r, (snd r ++ msgs)%list).

Definition _validate_metadata (manifest : value) (r : report) : result report :=
  metadata <- method_get manifest "metadata" (VDict []) ;;
  title <- method_get metadata "title" VNone ;;
  let r := if negb (truthy title)
           then add_error r "Metadata must include a title" else r in
  description <- method_get metadata "description" VNone ;;
  let r := if negb (truthy description)
           then add_warning r "Consider adding a description to metadata"
           else r in
  has_extends <- contains_value (VStr "extends") metadata ;;
  if has_extends
  then
    extends <- subscript metadata (VStr "extends") ;;
    let blank := match extends with
                 | VStr s => negb (nonempty (strip s))
                 | _ => true
                 end in
    Ok (if blank
        then add_error r "Template 'extends' must be a non-empty string"
        else r)
  else Ok r.

(** The warnings of [_validate_styles] for one string value. *)
Definition style_warnings (style_name style_value : string) : list string :=
  if contains ";" style_value
  then
    flat_map
      (fun prop =>
         let prop := strip prop in
         if nonempty prop && negb (Regex.css_property_match prop)
         then ["Style '" ++ style_name ++ "' may have invalid CSS: '"
               ++ prop ++ "'"]
         else [])
      (split ";" style_value)
  else
    if nonempty (strip style_value)
       && negb (Regex.css_property_match (strip style_value))
    then ["Style '" ++ style_name ++ "' may have invalid CSS: '"
          ++ style_value ++ "'"]
    else [].

Definition _validate_styles (manifest : value) (r : report) : result report :=
  styles <- method_get manifest "styles" (VDict []) ;;
  match styles with
  | VDict items =>
      Ok (fold_left
            (fun r item =>
               match snd item with
               | VStr style_value =>
                   add_warnings r (style_warnings (fst item) style_value)
               | _ =>
                   add_error r ("Style '" ++ fst item ++ "' must be a string")
               end)
            items r)
  | _ => Ok (add_error r "Styles must be an object/dictionary")
  end.

Definition reserved_key (key : string) : bool :=
  existsb (String.eqb key) ["children"; "text"; "style"; "class"; "id"].

Definition unusual_name (path key : string) : list string :=
  if Regex.element_name_match key then []
  else ["Unusual element name at " ++ path ++ "." ++ key ++ ": '" ++ key ++ "'"].

(** The nested [validate_element] of [_validate_structure]: the warnings it
    appends, in order. *)
Fixpoint validate_element (element : value) (path : string)
  {struct element} : list string :=
  match element with
  | VDict d =>
      (fix each (d : dict) : list string :=
         match d with
         | [] => []
         | (key, value) :: rest =>
             app
               (if reserved_key key then []
                else
                  app (unusual_name path key)
                    match value with
                    | VDict _ => validate_element value (path ++ "." ++ key)
                    | VList l =>
                        (fix items (l : list Py.value) (i : nat) : list string :=
                           match l with
                           | [] => []
                           | item :: more =>
                               app
                                 (validate_element item
                                    (path ++ "." ++ key ++ "["
                                     ++ str_of_nat i ++ "]"))
                                 (items more (S i))
                           end) l 0
                    | _ => []
                    end)
               (each rest)
         end) d
  | VList l =>
      (fix items (l : list Py.value) (i : nat) : list string :=
         match l with
         | [] => []
         | item :: more =>
             app (validate_element item (path ++ "[" ++ str_of_nat i ++ "]"))
                 (items more (S i))
         end) l 0
  | _ => []
  end.

Definition _validate_structure (manifest : value) (r : report) : result report :=
  structure <- method_get manifest "structure" VNone ;;
  if negb (truthy structure)
  then Ok (add_error r "Structure is required")
  else Ok (add_warnings r (validate_element structure "structure")).

Definition _validate_template_inheritance (manifest : value) (r : report)
  : result report :=
  metadata <- method_get manifest "metadata" (VDict []) ;;
  template_slots <- method_get manifest "template_slots" (VDict []) ;;
  has_extends <- contains_value (VStr "extends") metadata ;;
  let r := if has_extends && truthy template_slots
           then add_warning r
                  "Template inheritance and template_slots both present - ensure compatibility"
           else r in
  match template_slots with
  | VDict slots =>
      Ok (fold_left
            (fun r slot =>
               if Regex.slot_name_match (fst slot) then r
               else add_error r ("Invalid template slot name: '"
                                 ++ fst slot ++ "'"))
            slots r)
  | _ => Err AttributeError
  end.

Section Validate.

(** [jsonschema.validate(instance=manifest, schema=self.schema)]: the
    message of the error it raises, [None] when the manifest conforms. *)
Variable schema_violation : value -> option string.

Definition validate (manifest : value) : result report :=
  let r : report := ([], []) in
  let r := match schema_violation manifest with
           | Some message => add_error r ("Schema validation failed: " ++ message)
           | None => r
           end in
  r <- _validate_metadata manifest r ;;
  r <- _validate_styles manifest r ;;
  r <- _validate_structure manifest r ;;
  r <- _validate_template_inheritance manifest r ;;
  Ok r.

End Validate.

End ManifestValidator.

(** ** class ManifestProcessor *)

Module ManifestProcessor.

(** Modelled from the spec: [handle_validation_errors] of
    [whyml/exceptions.py] is not part of the sources at hand; the spec has
    validation failures surface as a [ValidationError], which here carries
    the two lists it is built from. *)
Definition handle_validation_errors (errors warnings : list string) : exn :=
  ValidationError errors warnings.

Section Processor.

(** [self.loader.load_manifest(extends)] followed by [.content]: the loader
    is a collaborator of the processor, a function from a reference to the
    manifest it names, which may raise. *)
Variable load_manifest : value -> result value.

(** [str(e)] of a caught exception.  The exceptions of the processor are
    the classes of [whyml/exceptions.py], which is not part of the sources
    at hand, so the text of an error is a parameter.  Building it may
    itself raise, and for an error that wraps other errors it has to print
    every one of them. *)
Variable describe : exn -> result string.

Variable schema_violation : value -> option string.

Variable render : string -> dict -> result string.

Variable strict_validation : bool.

Definition _validate_manifest (manifest : value) : result unit :=
  r <- ManifestValidator.validate schema_violation manifest ;;
  let '(errors, warnings) := r in
  let '(errors, warnings) :=
    match strict_validation, warnings with
    | true, _ :: _ => ((errors ++ warnings)%list, [])
    | _, _ => (errors, warnings)
    end in
  match errors with
  | _ :: _ => Err (handle_validation_errors errors warnings)
  | [] => Ok tt
  end.

(** The handler of [_process_inheritance]: it prints the caught exception
    into the details of the [TemplateError] it raises; an exception raised
    while printing takes the place of that [TemplateError]. *)
Definition inheritance_error (extends : value) (e : exn) : exn :=
  match describe e with
  | Ok original_error =>
      TemplateError "Failed to process template inheritance"
                    (Some extends) None
                    [("original_error", VStr original_error)]
  | Err raised => raised
  end.

(** [_process_inheritance] calls itself for the parent, so its stack grows
    with the chain; [depth] is the number of calls the interpreter still
    allows, and entering a call when none is left raises [RecursionError].
    Next to the outcome the model returns the references handed to the
    loader, in the order of the calls. *)
Fixpoint _process_inheritance (depth : nat) (manifest : value)
  {struct depth} : list value * result value :=
  match depth with
  | O => ([], Err RecursionError)
  | S depth' =>
      match method_get manifest "metadata" (VDict []) with
      | Err e => ([], Err e)
      | Ok metadata =>
          match method_get metadata "extends" VNone with
          | Err e => ([], Err e)
          | Ok extends =>
              if negb (truthy extends) then ([], Ok manifest)
              else
                match load_manifest extends with
                | Err e => ([extends], Err (inheritance_error extends e))
                | Ok parent_manifest =>
                    let '(loads, parent_processed) :=
                      _process_inheritance depth' parent_manifest in
                    (extends :: loads,
                     try_except
                       (parent <- parent_processed ;;
                        match manifest, parent with
                        | VDict c, VDict p =>
                            merged <-
                              TemplateProcessor.process_template_inheritance c p ;;
                            Ok (VDict merged)
                        | _, _ => Err AttributeError
                        end)
                       (inheritance_error extends))
                end
          end
      end
  end.

(** [process_manifest] for a manifest given as a dictionary. *)
Definition process_manifest (depth : nat) (manifest : value) (context : dict)
  (validate : bool) : result value :=
  _ <- (if validate then _validate_manifest manifest else Ok tt) ;;
  processed <- snd (_process_inheritance depth manifest) ;;
  processed <-
    (if truthy (VDict context)
     then TemplateProcessor.substitute_variables render processed context
     else Ok processed) ;;
  processed <- StyleProcessor.process_styles processed ;;
  _ <- (if validate then _validate_manifest processed else Ok tt) ;;
  Ok processed.

End Processor.

End ManifestProcessor.

(* ================================================================== *)
(** * converters/html_converter.py *)
(* ================================================================== *)

Module HTMLConverter.

(** The options of a converter: the three of [HTMLConverter.__init__] and
    the two attributes of the base class that [optimize_code] reads. *)
Record options : Type := {
  doctype : string;
  include_meta_tags : bool;
  responsive_design : bool;
  optimize_output : bool;
  minify : bool
}.

(** [HTMLConverter()] with the defaults of its signature. *)
Definition default_options (optimize_output minify : bool) : options :=
  {| doctype := "html5"; include_meta_tags := true;
     responsive_design := true;
     optimize_output := optimize_output; minify := minify |}.

(** Modelled from the spec: [ConversionResult] of [base_converter.py] is
    not part of the sources at hand; the spec gives it the generated
    text, the target file name, the format and a map of metadata. *)
Record ConversionResult : Type := {
  content : string;
  filename : string;
  format_type : string;
  metadata : dict
}.

(** Modelled from the spec: [handle_conversion_error] of
    [base_converter.py] is not part of the sources at hand; the spec makes
    [ConversionError] the single error kind every exception inside a
    converter collapses into. *)
Definition handle_conversion_error (e : exn) (context : string) : exn :=
  ConversionError context e.

(** [name="value"] *)
Definition attr (name value : string) : string :=
  name ++ "=" ++ dquote ++ value ++ dquote.

Definition format_name : string := "HTML".
Definition file_extension : string := "html".

(** [html.escape] reads its argument with [str.replace]. *)
Definition escape_value (v : value) : result string :=
  match v with
  | VStr s => Ok (escape s)
  | _ => Err AttributeError
  end.

(** [', '.join(items)]: every item has to be a string. *)
Definition join_values (sep : string) (items : list value) : result string :=
  parts <- mapM (fun v => match v with
                          | VStr s => Ok s
                          | _ => Err TypeError
                          end) items ;;
  Ok (join sep parts).

Definition html_elements : list string :=
  ["html"; "head"; "body"; "title"; "meta"; "link"; "style"; "script";
   "div"; "span"; "p"; "br"; "hr";
   "h1"; "h2"; "h3"; "h4"; "h5"; "h6";
   "ul"; "ol"; "li"; "dl"; "dt"; "dd";
   "table"; "thead"; "tbody"; "tr"; "td"; "th";
   "form"; "input"; "textarea"; "select"; "option"; "button"; "label";
   "a"; "img"; "video"; "audio"; "source";
   "header"; "nav"; "main"; "section"; "article"; "aside"; "footer";
   "figure"; "figcaption"; "details"; "summary"].

Definition member (s : string) (l : list string) : bool :=
  existsb (String.eqb s) l.

Definition _is_html_element (name : string) : bool :=
  member (lower name) html_elements.

(** [re.sub(r'([a-z0-9])([A-Z])', r'\1-\2', s)]: a hyphen goes between a
    lower-case letter or digit and the capital after it. *)
Fixpoint camel_to_kebab (s : string) : string :=
  match s with
  | EmptyString => EmptyString
  | String c r =>
      match r with
      | String d _ =>
          if (is_ascii_lower c || is_ascii_digit c) && is_ascii_upper d
          then String c (String "-" (camel_to_kebab r))
          else String c (camel_to_kebab r)
      | EmptyString => String c EmptyString
      end
  end.

Definition _format_css_selector (selector : string) : string :=
  let kebab_case := lower (camel_to_kebab selector) in
  if negb (startswith_char "." kebab_case)
     && negb (startswith_char "#" kebab_case)
  then "." ++ kebab_case
  else kebab_case.

(** [_format_css_rules]: [rules.split] exists on strings only; a piece of
    a split at [;] never ends with one. *)
Definition _format_css_rules (rules : value) : result (list string) :=
  if negb (truthy rules) then Ok []
  else
    match rules with
    | VStr s =>
        Ok (flat_map
              (fun rule =>
                 let rule := strip rule in
                 if nonempty rule
                 then [if negb (endswith_char ";" rule)
                       then rule ++ ";" else rule]
                 else [])
              (split ";" s))
    | _ => Err AttributeError
    end.

Fixpoint _generate_css (styles : dict) : result (list string) :=
  match styles with
  | [] => Ok []
  | (selector, rules) :: rest =>
      let css_selector := _format_css_selector selector in
      formatted_rules <- _format_css_rules rules ;;
      more <- _generate_css rest ;;
      Ok (("    " ++ css_selector ++ " {")
            :: map (fun rule => "      " ++ rule) formatted_rules
            +++ "    }" :: "" :: more)
  end.

Definition _generate_meta_tags (metadata : dict) : result (list string) :=
  let meta (kind name : string) (v : value) : result (list string) :=
    text <- escape_value v ;;
    Ok ["  <meta " ++ attr kind name ++ " " ++ attr "content" text ++ ">"] in
  let description := get metadata "description" VNone in
  tags1 <- (if truthy description
            then meta "name" "description" description else Ok []) ;;
  let author := get metadata "author" VNone in
  tags2 <- (if truthy author then meta "name" "author" author else Ok []) ;;
  let keywords := get metadata "keywords" VNone in
  tags3 <- (if truthy keywords
            then
              keywords <- match keywords with
                          | VList l => s <- join_values ", " l ;; Ok (VStr s)
                          | _ => Ok keywords
                          end ;;
              meta "name" "keywords" keywords
            else Ok []) ;;
  let title := get metadata "title" VNone in
  tags4 <- (if truthy title then meta "property" "og:title" title else Ok []) ;;
  tags5 <- (if truthy description
            then meta "property" "og:description" description else Ok []) ;;
  Ok (tags1 +++ tags2 +++ tags3 +++ tags4 +++ tags5
      +++ ["  <meta " ++ attr "property" "og:type" ++ " "
           ++ attr "content" "website" ++ ">"]).

Definition stylesheet_link (url : string) : string :=
  "  <link " ++ attr "rel" "stylesheet" ++ " " ++ attr "href" url ++ ">".

Section Head.

Variable self : options.

Definition _generate_head (metadata styles imports : dict)
  : result string :=
  let charset :=
    if String.eqb (doctype self) "html5"
    then "  <meta " ++ attr "charset" "UTF-8" ++ ">"
    else "  <meta " ++ attr "http-equiv" "Content-Type" ++ " "
         ++ attr "content" "text/html; charset=UTF-8" ++ ">" in
  let viewport :=
    if responsive_design self
    then ["  <meta " ++ attr "name" "viewport" ++ " "
          ++ attr "content" "width=device-width, initial-scale=1.0" ++ ">"]
    else [] in
  meta_tags <- (if include_meta_tags self
                then _generate_meta_tags metadata else Ok []) ;;
  title <- escape_value (get metadata "title" (VStr "Untitled")) ;;
  style_urls <- iterate (get imports "styles" (VList [])) ;;
  style_links <- mapM (fun url => href <- escape_value url ;;
                                  Ok (stylesheet_link href)) style_urls ;;
  font_urls <- iterate (get imports "fonts" (VList [])) ;;
  font_links <-
    mapM (fun url =>
            href <- escape_value url ;;
            Ok ["  <link " ++ attr "rel" "preconnect" ++ " "
                ++ attr "href" "https://fonts.googleapis.com" ++ ">";
                "  <link " ++ attr "rel" "preconnect" ++ " "
                ++ attr "href" "https://fonts.gstatic.com" ++ " crossorigin>";
                stylesheet_link href]) font_urls ;;
  css <- (if truthy (VDict styles)
          then lines <- _generate_css styles ;;
               Ok ("  <style>" :: lines +++ ["  </style>"])
          else Ok []) ;;
  Ok (join newline
        ("<head>" :: charset :: viewport +++ meta_tags
         +++ ("  <title>" ++ title ++ "</title>") :: style_links
         +++ concat font_links +++ css +++ ["</head>"])).

Definition _generate_document (head_html body_html : string) : string :=
  let doctype_line :=
    if String.eqb (doctype self) "html4"
    then "<!DOCTYPE HTML PUBLIC " ++ dquote
         ++ "-//W3C//DTD HTML 4.01 Transitional//EN" ++ dquote ++ " " ++ dquote
         ++ "http://www.w3.org/TR/html4/loose.dtd" ++ dquote ++ ">"
    else if String.eqb (doctype self) "xhtml"
    then "<!DOCTYPE html PUBLIC " ++ dquote
         ++ "-//W3C//DTD XHTML 1.0 Transitional//EN" ++ dquote ++ " " ++ dquote
         ++ "http://www.w3.org/TR/xhtml1/DTD/xhtml1-transitional.dtd"
         ++ dquote ++ ">"
    else "<!DOCTYPE html>" in
  let lang_attr :=
    if String.eqb (doctype self) "html5"
    then attr "lang" "en"
    else attr "lang" "en" ++ " " ++ attr "xml:lang" "en" in
  doctype_line ++ newline
  ++ "<html " ++ lang_attr ++ ">" ++ newline
  ++ head_html ++ newline
  ++ body_html ++ newline
  ++ "</html>".

End Head.

(** [re.sub(r'>\s+<', '><', code)]: [pending] holds the whitespace read
    since the last [>], when nothing else came in between. *)
Fixpoint squeeze_tags (pending : option string) (s : string) : string :=
  match s with
  | EmptyString => match pending with Some ws => ws | None => "" end
  | String c r =>
      let plain :=
        if Regex.is_char ">" c then String c (squeeze_tags (Some "") r)
        else String c (squeeze_tags None r) in
      match pending with
      | None => plain
      | Some ws =>
          if isspace c then squeeze_tags (Some (ws ++ String c "")) r
          else if Regex.is_char "<" c && nonempty ws
               then String c (squeeze_tags None r)
               else ws ++ plain
      end
  end.

Fixpoint skip (n : nat) (s : string) : string :=
  match n, s with
  | S n', String _ r => skip n' r
  | _, _ => s
  end.

(** The text after the first [-->] of [s], if there is one. *)
Fixpoint after_close (s : string) : option string :=
  if prefix "-->" s then Some (skip 3 s)
  else match s with
       | EmptyString => None
       | String _ r => after_close r
       end.

(** [re.sub(r'<!--(?!\[if).*?-->', '', code, flags=re.DOTALL)]; the fuel
    is the number of characters still to read. *)
Fixpoint strip_comments (fuel : nat) (s : string) : string :=
  match fuel with
  | O => s
  | S fuel' =>
      match s with
      | EmptyString => EmptyString
      | String c r =>
          if prefix "<!--" s && negb (prefix "[if" (skip 4 s))
          then match after_close (skip 4 s) with
               | Some rest => strip_comments fuel' rest
               | None => s
               end
          else String c (strip_comments fuel' r)
      end
  end.

Definition void_elements : list string :=
  ["img"; "br"; "hr"; "input"; "meta"; "link"].

Definition attribute_keys : list string :=
  ["class"; "id"; "src"; "href"; "alt"; "title"].

(** ['  ' * indent] *)
Fixpoint indent_str (indent : nat) : string :=
  match indent with
  | O => ""
  | S n => "  " ++ indent_str n
  end.

(** The last step of [_convert_element_to_html]: the text of an element
    from its tag, its formatted attributes and its content. *)
Definition render_element (indent : nat) (tag_name attr_str : string)
  (content : list string) : string :=
  let open_tag := indent_str indent ++ "<" ++ tag_name ++ attr_str ++ ">" in
  let close_tag := "</" ++ tag_name ++ ">" in
  let multi_line :=
    join newline
      (open_tag
         :: flat_map (fun item => if nonempty (strip item)
                                  then ["  " ++ indent_str indent ++ item]
                                  else []) content
         +++ [indent_str indent ++ close_tag]) in
  match content with
  | [] =>
      if member tag_name void_elements then open_tag
      else open_tag ++ close_tag
  | [single] =>
      if negb (contains newline single)
      then open_tag ++ single ++ close_tag
      else multi_line
  | _ => multi_line
  end.

(** What the loop of [_convert_element_to_html] collects. *)
Record element_state : Type := {
  tag_name : option string;
  attributes : dict;
  collected : list string
}.

Definition empty_state : element_state :=
  {| tag_name := None; attributes := []; collected := [] |}.

Definition add_content (st : element_state) (html : string) : element_state :=
  {| tag_name := tag_name st; attributes := attributes st;
     collected := collected st +++ [html] |}.

Definition set_attribute (st : element_state) (key : string) (v : value)
  : element_state :=
  {| tag_name := tag_name st; attributes := set (attributes st) key v;
     collected := collected st |}.

Definition set_tag (st : element_state) (key : string) : element_state :=
  {| tag_name := Some key; attributes := attributes st;
     collected := collected st |}.

(** The tag of an element once its keys are read: the key that named one,
    else the first key when it is an element name, else [div];
    [next(iter(element.keys()))] raises on an empty dictionary. *)
Definition resolve_tag (element : dict) (found : option string) : result string :=
  match found with
  | Some tag => Ok tag
  | None =>
      match element with
      | [] => Err StopIteration
      | (first_key, _) :: _ =>
          Ok (if _is_html_element first_key then first_key else "div")
      end
  end.

(** The branch for the key [style]: [value in styles] needs a hashable
    value, and only a string can be a key of [styles]. *)
Definition style_item (styles : dict) (st : element_state) (v : value)
  : result element_state :=
  known <- in_dict v styles ;;
  match known, v with
  | true, VStr name =>
      let css_class := lstrip_char "." (_format_css_selector name) in
      Ok (set_attribute st "class" (VStr css_class))
  | _, _ => Ok (set_attribute st "style" v)
  end.

Section Body.

(** [str(v)] of a list or of a dictionary, which Python prints with the
    [repr] of the items; it raises when an integer among them is too long
    to be printed. *)
Variable py_repr : value -> result string.

(** [str(v)], which is also how an f-string formats [v]. *)
Definition py_str (v : value) : result string :=
  match v with
  | VStr s => Ok s
  | VNone => Ok "None"
  | VBool true => Ok "True"
  | VBool false => Ok "False"
  | VInt z => str_of_int z
  | VList _ | VDict _ => py_repr v
  end.

Definition _format_attributes (attributes : dict) : result string :=
  match attributes with
  | [] => Ok ""
  | _ =>
      attr_parts <- mapM (fun kv => value <- py_str (snd kv) ;;
                                    Ok (attr (fst kv) value)) attributes ;;
      Ok (" " ++ join " " attr_parts)
  end.

(** [escape(value)] for a string and [str(value)] for anything else. *)
Definition text_content (v : value) : result string :=
  match v with
  | VStr s => Ok (escape s)
  | _ => py_str v
  end.

(** An exception that leaves a generator expression as [StopIteration]
    reaches the caller as [RuntimeError]. *)
Definition from_generator (e : exn) : exn :=
  match e with
  | StopIteration => RuntimeError
  | _ => e
  end.

(** The loop of [_convert_element_to_html] over [element.items()];
    [convert] stands for the conversion of a nested value, which is
    [_convert_structure_to_html] itself. *)
Section Items.

Variable convert : value -> nat -> result string.
Variable styles : dict.
Variable indent : nat.

(** The inner loop over a list under the key [children]. *)
Fixpoint convert_children (l : list value) (st : element_state)
  : result element_state :=
  match l with
  | [] => Ok st
  | child :: more =>
      child_html <- convert child (S indent) ;;
      convert_children more (add_content st child_html)
  end.

(** One turn of the loop. *)
Definition convert_item (st : element_state) (key : string) (v : value)
  : result element_state :=
  if member key ["text"; "content"]
  then
    text <- text_content v ;;
    Ok (add_content st text)
  else if String.eqb key "children"
  then
    match v with
    | VList l => convert_children l st
    | _ =>
        child_html <- convert v (S indent) ;;
        Ok (add_content st child_html)
    end
  else if String.eqb key "style"
  then style_item styles st v
  else if member key attribute_keys
  then
    text <- py_str v ;;
    Ok (set_attribute st key (VStr (escape text)))
  else if _is_html_element key
  then
    match v with
    | VDict _ =>
        child_html <- convert v (S indent) ;;
        Ok (add_content (set_tag st key) child_html)
    | _ =>
        text <- py_str v ;;
        Ok (add_content (set_tag st key) (escape text))
    end
  else Ok st.

Fixpoint collect_items (d : dict) (st : element_state)
  : result element_state :=
  match d with
  | [] => Ok st
  | (key, v) :: rest =>
      st' <- convert_item st key v ;;
      collect_items rest st'
  end.

(** The items of a list, converted in order. *)
Fixpoint convert_each (l : list value) : result (list string) :=
  match l with
  | [] => Ok []
  | item :: rest =>
      html <- convert item indent ;;
      more <- convert_each rest ;;
      Ok (html :: more)
  end.

(** The body of [_convert_element_to_html]. *)
Definition convert_element (element : dict) : result string :=
  st <- collect_items element empty_state ;;
  tag <- resolve_tag element (tag_name st) ;;
  attr_str <- _format_attributes (attributes st) ;;
  Ok (render_element indent tag attr_str (collected st)).

End Items.

Fixpoint _convert_structure_to_html (styles : dict) (structure : value)
  (indent : nat) {struct structure} : result string :=
  match structure with
  | VDict element =>
      convert_element (_convert_structure_to_html styles) styles indent element
  | VList l =>
      parts <- try_except
                 (convert_each (_convert_structure_to_html styles) indent l)
                 from_generator ;;
      Ok (join newline parts)
  | VStr s => Ok (escape s)
  | _ => py_str structure
  end.

Definition _convert_element_to_html (element : dict) (styles : dict)
  (indent : nat) : result string :=
  convert_element (_convert_structure_to_html styles) styles indent element.

Definition _generate_body (structure : value) (styles : dict) : result string :=
  body_content <- (if truthy structure
                   then html <- _convert_structure_to_html styles structure 1 ;;
                        Ok [html]
                   else Ok []) ;;
  Ok (join newline ("<body>" :: body_content +++ ["</body>"])).

(** ** [convert] and the methods of the base class it calls *)

Variable self : options.

(** Modelled from the spec: the methods below belong to [BaseConverter]
    and [StructureWalker] of [base_converter.py], which is not part of the
    sources at hand.  The spec has a converter extract the metadata, the
    styles and the imports of the manifest, post-process the document,
    compute a file name, and walk the structure with a visitor per node;
    each may raise. *)
Variable extract_metadata : value -> result dict.
Variable extract_styles : value -> result dict.
Variable extract_imports : value -> result dict.
Variable base_optimize_code : string -> result string.
Variable add_header_comment : string -> value -> result string.
Variable generate_filename : value -> value -> result string.
Variable walk : value -> result (list value).

Definition optimize_code (code : string) : result string :=
  if negb (optimize_output self) then Ok code
  else
    code <- base_optimize_code code ;;
    if minify self
    then
      let code := squeeze_tags None code in
      Ok (strip_comments (S (String.length code)) code)
    else Ok code.

(** [_count_elements]: the callback counts the nodes that are dictionaries
    with an element name among their keys. *)
Definition _count_elements (structure : value) : result nat :=
  nodes <- walk structure ;;
  Ok (List.length
        (filter (fun element =>
                   match element with
                   | VDict d => existsb (fun kv => _is_html_element (fst kv)) d
                   | _ => false
                   end) nodes)).

(** The body of the [try] block of [convert]; [filename_option] is
    [kwargs.get('filename')]. *)
Definition convert_body (manifest : value) (filename_option : value)
  : result ConversionResult :=
  metadata <- extract_metadata manifest ;;
  styles <- extract_styles manifest ;;
  imports <- extract_imports manifest ;;
  structure <- method_get manifest "structure" (VDict []) ;;
  head_html <- _generate_head self metadata styles imports ;;
  body_html <- _generate_body structure styles ;;
  let html_content := _generate_document self head_html body_html in
  html_content <- (if optimize_output self
                   then optimize_code html_content else Ok html_content) ;;
  html_content <- add_header_comment html_content manifest ;;
  filename <- generate_filename manifest filename_option ;;
  element_count <- _count_elements structure ;;
  Ok {| content := html_content;
        filename := filename;
        format_type := lower format_name;
        metadata :=
          [("title", get metadata "title" (VStr "Untitled"));
           ("has_styles", VBool (truthy (VDict styles)));
           ("has_imports", VBool (existsb (fun kv => truthy (snd kv)) imports));
           ("element_count", VInt (Z.of_nat element_count))] |}.

Definition convert (manifest : value) (filename_option : value)
  : result ConversionResult :=
  try_except (convert_body manifest filename_option)
             (fun e => handle_conversion_error e "HTML conversion").

End Body.

End HTMLConverter.

(* ================================================================== *)
(** * Predicates of the statements *)
(* ================================================================== *)

(** A string is its own [lstrip] exactly when it does not start with
    whitespace. *)
Definition starts_ws (s : string) : bool :=
  match s with
  | EmptyString => false
  | String c _ => isspace c
  end.

(** It is its own [rstrip] exactly when it does not end with whitespace. *)
Fixpoint ends_ws (s : string) : bool :=
  match s with
  | EmptyString => false
  | String c EmptyString => isspace c
  | String _ r => ends_ws r
  end.

(** [_process_single_style] before its final semicolon. *)
Definition collapsed (s : string) : string := sub_ws_runs false (strip s).

(** A style map: every value of the dictionary is a string. *)
Definition string_values (d : dict) : bool :=
  forallb (fun kv => is_str (snd kv)) d.

(** A manifest whose [styles] section, when present, is a style map. *)
Definition has_style_map (manifest : dict) : bool :=
  match get manifest "styles" (VDict []) with
  | VDict styles => string_values styles
  | _ => false
  end.

(** ** Template variables *)

Definition has_delimiters (s : string) : bool :=
  contains "{{" s && contains "}}" s.

(** No string of the value holds both delimiters of a template. *)
Fixpoint plain (v : value) : bool :=
  match v with
  | VStr s => negb (has_delimiters s)
  | VDict d =>
      (fix each (d : dict) : bool :=
         match d with
         | [] => true
         | (_, v) :: rest => plain v && each rest
         end) d
  | VList l =>
      (fix each (l : list value) : bool :=
         match l with
         | [] => true
         | item :: rest => plain item && each rest
         end) l
  | _ => true
  end.

(** A step into a value: to the value under a key of a dictionary, or to
    the item at a place of a list. *)
Inductive step : Type :=
| Key (k : string)
| Item (i : nat).

(** The value a path of steps leads to, if it leads anywhere. *)
Fixpoint at_path (path : list step) (v : value) : option value :=
  match path with
  | [] => Some v
  | Key k :: rest =>
      match v with
      | VDict d =>
          match lookup d k with
          | Some x => at_path rest x
          | None => None
          end
      | _ => None
      end
  | Item i :: rest =>
      match v with
      | VList l =>
          match nth_error l i with
          | Some x => at_path rest x
          | None => None
          end
      | _ => None
      end
  end.

(** A manifest with a template in its title, and what substitution makes
    of it when the engine renders [Hello World]. *)
Definition manifest_with_template : value :=
  VDict [("metadata", VDict [("title", VStr "Hello {{ name }}")]);
         ("structure", VList [VStr "{{ open"; VInt 3])].

Definition manifest_rendered : value :=
  VDict [("metadata", VDict [("title", VStr "Hello World")]);
         ("structure", VList [VStr "{{ open"; VInt 3])].

(** ** Slots *)

(** The value is a key of the child's structure mapping. *)
Definition is_key (child_structure : value) (v : value) : bool :=
  match child_structure, v with
  | VDict d, VStr k => has_key d k
  | _, _ => false
  end.

(** The node carries no [slot] key whose value is a key of the child's
    structure. *)
Definition slot_unmatched (child_structure : value) (node : dict) : bool :=
  if has_key node "slot"
  then negb (is_key child_structure (get node "slot" VNone))
  else true.

(** A value that can be looked up in a dictionary: anything but a list or
    a dictionary. *)
Definition hashable (v : value) : bool :=
  match v with
  | VList _ | VDict _ => false
  | _ => true
  end.

(** Every [slot] value of the structure is hashable. *)
Fixpoint slots_hashable (element : value) : bool :=
  match element with
  | VDict d =>
      (if has_key d "slot" then hashable (get d "slot" VNone) else true) &&
      (fix each (d : dict) : bool :=
         match d with
         | [] => true
         | (_, v) :: rest => slots_hashable v && each rest
         end) d
  | VList l =>
      (fix each (l : list value) : bool :=
         match l with
         | [] => true
         | item :: rest => slots_hashable item && each rest
         end) l
  | _ => true
  end.

(** An ancestor whose only slot has a list for its name, and a child that
    fills no slot. *)
Definition parent_list_slot : dict :=
  [("template_slots", VDict [("sidebar", VStr "aside")]);
   ("structure", VDict [("div", VDict [("slot", VList [VStr "sidebar"])])])].

Definition child_without_slots : dict :=
  [("structure", VDict [("content", VDict [("p", VStr "child")])])].

(** No node of the structure carries a [slot] key whose value is a key of
    the child's structure. *)
Fixpoint unmatched (child_structure : value) (element : value) : bool :=
  match element with
  | VDict d =>
      slot_unmatched child_structure d &&
      (fix each (d : dict) : bool :=
         match d with
         | [] => true
         | (_, v) :: rest => unmatched child_structure v && each rest
         end) d
  | VList l =>
      (fix each (l : list value) : bool :=
         match l with
         | [] => true
         | item :: rest => unmatched child_structure item && each rest
         end) l
  | _ => true
  end.

(** ** Induction on values *)

Section ValueInduction.

Variable P : value -> Prop.
Hypothesis P_none : P VNone.
Hypothesis P_bool : forall b, P (VBool b).
Hypothesis P_int : forall z, P (VInt z).
Hypothesis P_str : forall s, P (VStr s).
Hypothesis P_list : forall l, Forall P l -> P (VList l).
Hypothesis P_dict : forall d, Forall (fun kv => P (snd kv)) d -> P (VDict d).

Fixpoint value_induction (v : value) : P v :=
  match v with
  | VNone => P_none
  | VBool b => P_bool b
  | VInt z => P_int z
  | VStr s => P_str s
  | VList l =>
      P_list l
        ((fix each (l : list value) : Forall P l :=
            match l with
            | [] => Forall_nil P
            | item :: rest => Forall_cons item (value_induction item) (each rest)
            end) l)
  | VDict d =>
      P_dict d
        ((fix each (d : dict) : Forall (fun kv => P (snd kv)) d :=
            match d with
            | [] => Forall_nil _
            | kv :: rest =>
                Forall_cons kv (value_induction (snd kv)) (each rest)
            end) d)
  end.

End ValueInduction.

(** ** Chains of [extends] references *)

Section Chains.

Variable load_manifest : value -> result value.

(** The reference [_process_inheritance] follows from a manifest. *)
Definition extends_of (manifest : value) : option value :=
  match method_get manifest "metadata" (VDict []) with
  | Ok metadata =>
      match method_get metadata "extends" VNone with
      | Ok extends => if truthy extends then Some extends else None
      | Err _ => None
      end
  | Err _ => None
  end.

(** The manifest that reference loads. *)
Definition parent_of (manifest : value) : option value :=
  match extends_of manifest with
  | Some extends =>
      match load_manifest extends with
      | Ok parent => Some parent
      | Err _ => None
      end
  | None => None
  end.

(** The manifest [n] steps up the chain. *)
Fixpoint ancestor (n : nat) (manifest : value) : option value :=
  match n with
  | O => Some manifest
  | S n' =>
      match parent_of manifest with
      | Some parent => ancestor n' parent
      | None => None
      end
  end.

(** The chain is cyclic with period [period]: some manifest of the chain
    extends the reference that the manifest [period] steps below it
    extends, so that the same ancestors come again. *)
Definition cyclic_with (period : nat) (manifest : value) : Prop :=
  0 < period /\
  exists i below above reference,
    ancestor i manifest = Some below
    /\ ancestor (i + period) manifest = Some above
    /\ extends_of below = Some reference
    /\ extends_of above = Some reference.

Definition cyclic (manifest : value) : Prop :=
  exists period, cyclic_with period manifest.

End Chains.

(** [A extends B] and [B extends A]. *)
Definition manifest_A : value :=
  VDict [("metadata", VDict [("title", VStr "A"); ("extends", VStr "B")]);
         ("structure", VDict [("div", VStr "a")])].

Definition manifest_B : value :=
  VDict [("metadata", VDict [("title", VStr "B"); ("extends", VStr "A")]);
         ("structure", VDict [("div", VStr "b")])].

Definition load_A_B (reference : value) : result value :=
  match reference with
  | VStr "A" => Ok manifest_A
  | VStr "B" => Ok manifest_B
  | _ => Err (LoaderError "manifest not found")
  end.

(** ** Manifests and the validator *)

(** The schema of [ManifestValidator._load_schema], read as JSON Schema:
    [type] constrains a value, [properties] and [patternProperties] the
    values under the keys that are present, [required] the keys. *)
Definition string_if_present (d : dict) (k : string) : bool :=
  match lookup d k with
  | None | Some (VStr _) => true
  | _ => false
  end.

Definition strings_if_present (d : dict) (k : string) : bool :=
  match lookup d k with
  | None => true
  | Some (VList l) => forallb is_str l
  | _ => false
  end.

Definition named_strings (d : dict) : bool :=
  forallb (fun kv => negb (Regex.slot_name_match (fst kv)) || is_str (snd kv)) d.

Definition object_if_present (m : dict) (k : string) (check : dict -> bool)
  : bool :=
  match lookup m k with
  | None => true
  | Some (VDict d) => check d
  | _ => false
  end.

Definition default_schema_conforms (manifest : value) : bool :=
  match manifest with
  | VDict m =>
      has_key m "metadata" && has_key m "structure"
      && object_if_present m "metadata"
           (fun md =>
              has_key md "title"
              && forallb (string_if_present md)
                   ["title"; "description"; "version"; "extends";
                    "template_type"])
      && object_if_present m "styles" named_strings
      && object_if_present m "structure" (fun _ => true)
      && object_if_present m "imports"
           (fun imports =>
              forallb (strings_if_present imports)
                ["manifests"; "modules"; "templates"; "scripts"; "styles";
                 "fonts"])
      && object_if_present m "interactions" (fun _ => true)
      && object_if_present m "template_slots" named_strings
  | _ => false
  end.

(** The sections [validate] reads with [.get] and [.keys] are mappings. *)
Definition well_shaped (manifest : value) : bool :=
  match manifest with
  | VDict m =>
      is_dict (get m "metadata" (VDict []))
      && is_dict (get m "template_slots" (VDict []))
  | _ => false
  end.

Definition section (manifest : value) (k : string) (default : value) : value :=
  match manifest with
  | VDict m => get m k default
  | _ => default
  end.

(** [M.metadata.title] is non-empty. *)
Definition title_nonempty (manifest : value) : bool :=
  truthy (section (section manifest "metadata" (VDict [])) "title" VNone).

(** [M.structure] is present and non-empty. *)
Definition structure_nonempty (manifest : value) : bool :=
  truthy (section manifest "structure" VNone).

(** [extends], when present, is a string with more than whitespace. *)
Definition extends_ok (manifest : value) : bool :=
  match section manifest "metadata" (VDict []) with
  | VDict md =>
      match lookup md "extends" with
      | None => true
      | Some (VStr s) => nonempty (strip s)
      | Some _ => false
      end
  | _ => true
  end.

(** [styles], when present, is a mapping whose values are strings. *)
Definition styles_ok (manifest : value) : bool :=
  match section manifest "styles" (VDict []) with
  | VDict styles => string_values styles
  | _ => false
  end.

(** Every name in [template_slots] matches the pattern of slot names. *)
Definition slots_ok (manifest : value) : bool :=
  match section manifest "template_slots" (VDict []) with
  | VDict slots => forallb (fun kv => Regex.slot_name_match (fst kv)) slots
  | _ => true
  end.

(** A manifest with a title, a structure and an empty [extends]. *)
Definition manifest_empty_extends : value :=
  VDict [("metadata", VDict [("title", VStr "T");
                             ("description", VStr "a page");
                             ("extends", VStr "")]);
         ("structure", VDict [("div", VStr "x")])].

(** ** The converter *)

(** How the loop of [_convert_element_to_html] may change its state: the
    content never shrinks to nothing, a tag once found stays, and a tag is
    only found together with content. *)
Definition grows (st st' : HTMLConverter.element_state) : Prop :=
  (HTMLConverter.collected st <> [] -> HTMLConverter.collected st' <> [])
  /\ (HTMLConverter.tag_name st <> None -> HTMLConverter.tag_name st' <> None)
  /\ (HTMLConverter.tag_name st' <> None ->
      HTMLConverter.tag_name st <> None \/ HTMLConverter.collected st' <> []).

(** Modelled from the spec: the [extract_*] methods of [BaseConverter] are
    not part of the sources at hand; the spec has a converter extract the
    metadata, the styles and the imports from the resolved manifest, so a
    section is read from the manifest and is empty when it is absent. *)
Definition extract_section (name : string) (manifest : value) : result dict :=
  found <- method_get manifest name (VDict []) ;;
  match found with
  | VDict d => Ok d
  | _ => Err TypeError
  end.

(** The manifest of the scenario, and what [process_manifest] makes of
    it. *)
Definition scenario_metadata : dict := [("title", VStr "T")].

Definition scenario_structure : value :=
  VDict [("div", VDict [("text", VStr "Hi"); ("style", VStr "box")])].

Definition scenario_manifest : value :=
  VDict [("metadata", VDict scenario_metadata);
         ("styles", VDict [("box", VStr "color: red")]);
         ("structure", scenario_structure)].

Definition scenario_styles : dict := [("box", VStr "color: red;")].

Definition scenario_processed : value :=
  VDict [("metadata", VDict scenario_metadata);
         ("styles", VDict scenario_styles);
         ("structure", scenario_structure)].

(** The external stylesheets of a page, left as a list. *)
Definition manifest_list_style : value :=
  VDict [("metadata", VDict [("title", VStr "T")]);
         ("styles", VDict [("external", VList [VStr "a.css"; VStr "b.css"])]);
         ("structure", VDict [("div", VStr "x")])].

(** An image that was given text. *)
Definition image_with_text : dict :=
  [("img", VDict [("src", VStr "a.png"); ("text", VStr "oops")])].

(** An inline style with a quoted font name. *)
Definition quoted_font : string :=
  "font-family: " ++ dquote ++ "Arial" ++ dquote.


(* ================================================================== *)
(** * Further methods *)
(* ================================================================== *)

(** ** class ManifestProcessor: merging, styles and structure checks *)

Module ManifestTools.

(** [merge_manifests]: the three mapping sections are merged key by key,
    the structure of the child replaces that of the base, and every other
    key of the child is copied. *)
Definition merged_sections : list string :=
  ["metadata"; "template_vars"; "styles"; "structure"].

Definition copy_other_keys (child merged : dict) : dict :=
  fold_left
    (fun merged kv =>
       if HTMLConverter.member (fst kv) merged_sections then merged
       else set merged (fst kv) (snd kv))
    child merged.

Definition merge_manifests (base child : dict) : result dict :=
  merged <- TemplateProcessor.merge_section base child "metadata" ;;
  merged <- TemplateProcessor.merge_section merged child "template_vars" ;;
  merged <- TemplateProcessor.merge_section merged child "styles" ;;
  let merged := match lookup child "structure" with
                | Some structure => set merged "structure" structure
                | None => merged
                end in
  Ok (copy_other_keys child merged).

(** [raise ValueError(...)] of [merge_styles]. *)
Inductive ValueError : Type :=
| UnknownStrategy (strategy : string).

Section MergeStyles.

(** The maps are [Dict[str, str]]: a style is a text, which an f-string
    copies as it is; [py_repr] stands for what it prints for a value that
    is not a text. *)
Variable py_repr : value -> string.

Definition style_text (v : value) : string :=
  match v with
  | VStr s => s
  | _ => py_repr v
  end.

(** The loop of the strategy ['extend']. *)
Definition extend_style (merged : dict) (name : string) (style : value) : dict :=
  match lookup merged name with
  | Some mine =>
      set merged name (VStr (style_text mine ++ "; " ++ style_text style))
  | None => set merged name style
  end.

Definition merge_styles (base_styles child_styles : dict) (strategy : string)
  : ValueError + dict :=
  if String.eqb strategy "override"
  then inr (update base_styles child_styles)
  else if String.eqb strategy "extend"
  then inr (fold_left (fun merged kv => extend_style merged (fst kv) (snd kv))
                      child_styles base_styles)
  else inl (UnknownStrategy strategy).

End MergeStyles.

Definition valid_tags : list string :=
  ["div"; "span"; "p"; "h1"; "h2"; "h3"; "h4"; "h5"; "h6";
   "ul"; "ol"; "li"; "table"; "tr"; "td"; "th"; "thead"; "tbody";
   "form"; "input"; "textarea"; "select"; "option"; "button"; "label";
   "a"; "img"; "video"; "audio"; "br"; "hr";
   "header"; "nav"; "main"; "section"; "article"; "aside"; "footer"].

Definition _is_valid_html_tag (tag_name : string) : bool :=
  HTMLConverter.member (lower tag_name) valid_tags.

(** The nested [validate_element] of [validate_structure]: every key of a
    mapping is taken for a tag; below a tag only its [children] and the
    items of a list are visited. *)
Fixpoint validate_tags (element : value) (path : string) {struct element}
  : list string :=
  match element with
  | VDict d =>
      (fix each (d : dict) : list string :=
         match d with
         | [] => []
         | (tag_name, tag_content) :: rest =>
             app
               (app
                  (if _is_valid_html_tag tag_name then []
                   else ["Invalid HTML tag '" ++ tag_name ++ "' at " ++ path])
                  match tag_content with
                  | VDict content =>
                      (fix children (c : dict) : list string :=
                         match c with
                         | [] => []
                         | (k, v) :: more =>
                             if String.eqb k "children"
                             then validate_tags v (path ++ "." ++ tag_name)
                             else children more
                         end) content
                  | VList l =>
                      (fix items (l : list value) (i : nat) : list string :=
                         match l with
                         | [] => []
                         | child :: more =>
                             app
                               (validate_tags child
                                  (path ++ "." ++ tag_name ++ "["
                                   ++ str_of_nat i ++ "]"))
                               (items more (S i))
                         end) l 0
                  | _ => []
                  end)
               (each rest)
         end) d
  | VList l =>
      (fix items (l : list value) (i : nat) : list string :=
         match l with
         | [] => []
         | item :: more =>
             app (validate_tags item (path ++ "[" ++ str_of_nat i ++ "]"))
                 (items more (S i))
         end) l 0
  | _ => []
  end.

Definition validate_structure (structure : value) : list string :=
  validate_tags structure "root".

(** [s.split()]: the words between runs of whitespace; [cur] is the word
    read so far. *)
Fixpoint words_acc (cur : string) (s : string) : list string :=
  match s with
  | EmptyString => if nonempty cur then [cur] else []
  | String c r =>
      if isspace c
      then if nonempty cur then cur :: words_acc "" r else words_acc "" r
      else words_acc (cur ++ String c "") r
  end.

Definition words (s : string) : list string := words_acc "" s.

(** [prop.split(':')[0].strip()] *)
Definition property_name (prop : string) : string :=
  strip (hd "" (split ":" prop)).

(** [p.strip().startswith(prop_name + ':')] *)
Definition declares (prop_name p : string) : bool :=
  prefix (prop_name ++ ":") (strip p).

(** The loop of [_normalize_css] over the pieces of the split at [;]. *)
Definition add_property (properties : list string) (prop : string)
  : list string :=
  let prop := strip prop in
  if nonempty prop
  then filter (fun p => negb (declares (property_name prop) p)) properties
       +++ [prop]
  else properties.

Definition normalized_properties (css : string) : list string :=
  fold_left add_property (split ";" (join " " (words css))) [].

Definition _normalize_css (css : string) : string :=
  join "; " (normalized_properties css).

(** [optimize_styles]: [css.split] exists on strings only. *)
Fixpoint optimize_styles (styles : dict) : result dict :=
  match styles with
  | [] => Ok []
  | (name, css) :: rest =>
      normalized <- match css with
                    | VStr s => Ok (_normalize_css s)
                    | _ => Err AttributeError
                    end ;;
      rest' <- optimize_styles rest ;;
      Ok ((name, VStr normalized) :: rest')
  end.

End ManifestTools.

(** ** processor.py: the complexity of a structure *)

Module WhyMLProcessor.

(** The nested [count_elements] of [_analyze_structure_complexity]: the
    number of mappings and the greatest depth reached. *)
Fixpoint count_elements (obj : value) (depth : nat) {struct obj} : nat * nat :=
  match obj with
  | VDict d =>
      (fix each (d : dict) (count max_depth : nat) : nat * nat :=
         match d with
         | [] => (count, max_depth)
         | (_, v) :: rest =>
             match v with
             | VDict _ | VList _ =>
                 let '(element_count, element_depth) :=
                   count_elements v (S depth) in
                 each rest (count + element_count)
                      (Nat.max max_depth element_depth)
             | _ => each rest count max_depth
             end
         end) d 1 depth
  | VList l =>
      (fix each (l : list value) (count max_depth : nat) : nat * nat :=
         match l with
         | [] => (count, max_depth)
         | item :: rest =>
             match item with
             | VDict _ | VList _ =>
                 let '(element_count, element_depth) :=
                   count_elements item depth in
                 each rest (count + element_count)
                      (Nat.max max_depth element_depth)
             | _ => each rest count max_depth
             end
         end) l 0 depth
  | _ => (0, depth)
  end.

(** The three figures of [_analyze_structure_complexity]: the count, the
    depth and the score. *)
Definition _analyze_structure_complexity (manifest : dict) : nat * nat * nat :=
  let structure := get manifest "structure" (VDict []) in
  let '(element_count, max_depth) := count_elements structure 0 in
  (element_count, max_depth, element_count * (max_depth + 1)).

End WhyMLProcessor.

(** ** scripts/simple_manifest_generator.py *)

Module SimpleManifestGenerator.

(** The entry [external] of [_extract_styles]: the addresses of the
    stylesheets, joined into one string. *)
Definition external_styles (external_urls : list string) : string :=
  join "; " external_urls.

(** The dictionaries [_parse_basic_elements] appends: one for a heading
    of a level from 1 to 6, one for a paragraph, one for an image and one
    for a link; the texts are cleaned and the addresses joined to the
    address of the page before they get here. *)
Definition heading (level : Z) (text : string) : dict :=
  [("type", VStr "heading"); ("tag", VStr ("h" ++ str_of_Z level));
   ("text", VStr text); ("level", VInt level)].

Definition paragraph (text : string) : dict :=
  [("type", VStr "paragraph"); ("tag", VStr "p"); ("text", VStr text)].

Definition image (src alt : string) : dict :=
  [("type", VStr "image"); ("tag", VStr "img"); ("src", VStr src);
   ("alt", VStr alt)].

Definition link (href text : string) : dict :=
  [("type", VStr "link"); ("tag", VStr "a"); ("href", VStr href);
   ("text", VStr text)].

End SimpleManifestGenerator.

(** ** Further predicates of the statements *)

(** The keys of a dictionary are distinct, as they are in Python. *)
Definition distinct_keys (d : dict) : Prop := NoDup (map fst d).

(** No character of the string opens or closes a tag or a quoted
    attribute. *)
Definition markup_char (c : ascii) : bool :=
  Regex.is_char "<" c || Regex.is_char ">" c
  || (code c =? 34)%nat || (code c =? 39)%nat.

Fixpoint no_markup (s : string) : bool :=
  match s with
  | EmptyString => true
  | String c r => negb (markup_char c) && no_markup r
  end.

(** The characters of a string that are not whitespace. *)
Fixpoint visible (s : string) : string :=
  match s with
  | EmptyString => EmptyString
  | String c r => if isspace c then visible r else String c (visible r)
  end.

(** Two values have the same shape: the same kind at every place, the
    same keys in the same order, the same scalars but for the strings. *)
Fixpoint same_shape (v w : value) {struct v} : bool :=
  match v, w with
  | VNone, VNone => true
  | VBool a, VBool b => Bool.eqb a b
  | VInt a, VInt b => (a =? b)%Z
  | VStr _, VStr _ => true
  | VList l, VList m =>
      (fix each (l m : list value) : bool :=
         match l, m with
         | [], [] => true
         | a :: l', b :: m' => same_shape a b && each l' m'
         | _, _ => false
         end) l m
  | VDict d, VDict e =>
      (fix each (d e : dict) : bool :=
         match d, e with
         | [], [] => true
         | (k, a) :: d', (k', b) :: e' =>
             String.eqb k k' && same_shape a b && each d' e'
         | _, _ => false
         end) d e
  | _, _ => false
  end.

(** The references of the first [n] manifests of a chain. *)
Fixpoint references (load_manifest : value -> result value) (n : nat)
  (manifest : value) : list value :=
  match n with
  | O => []
  | S n' =>
      match extends_of manifest, parent_of load_manifest manifest with
      | Some reference, Some parent =>
          reference :: references load_manifest n' parent
      | _, _ => []
      end
  end.

(** No character of the string is an ASCII capital. *)
Fixpoint no_capital (s : string) : bool :=
  match s with
  | EmptyString => true
  | String c r => negb (is_ascii_upper c) && no_capital r
  end.

(** No character of the string is a semicolon. *)
Fixpoint no_semicolon (s : string) : bool :=
  match s with
  | EmptyString => true
  | String c r => negb (Regex.is_char ";" c) && no_semicolon r
  end.

(** An address as [_extract_styles] joins them: not empty, without a
    semicolon and without whitespace at either end. *)
Definition plain_address (u : string) : bool :=
  nonempty u && no_semicolon u && negb (starts_ws u) && negb (ends_ws u).

(** A value [_format_css_rules] can read: a string, or a value that
    counts as false. *)
Definition readable_rules (v : value) : bool :=
  is_str v || negb (truthy v).

(** The value a key gets when a child structure is merged over what the
    parent has under the key: two mappings are merged, anything else is
    replaced. *)
Definition merged_value (mine : option value) (theirs : value) : value :=
  match mine, theirs with
  | Some (VDict m), VDict _ => TemplateProcessor.merge_element (VDict m) theirs
  | _, _ => theirs
  end.

(** The mapping under a key, empty when the key is absent. *)
Definition mapping_at (d : dict) (k : string) : option dict :=
  match get d k (VDict []) with
  | VDict m => Some m
  | _ => None
  end.

(** The lookup in a dictionary updated with another: the other's value
    where it has one. *)
Definition overridden (mine theirs : dict) (k : string) : option value :=
  match lookup theirs k with
  | Some v => Some v
  | None => lookup mine k
  end.

(** A child that extends a base with a slot, for the examples. *)
Definition child_of_base : dict :=
  [("metadata", VDict [("title", VStr "Child"); ("extends", VStr "base")]);
   ("structure", VDict [("content", VDict [("p", VStr "hi")])])].

Definition base_with_slot : dict :=
  [("metadata", VDict [("title", VStr "Base"); ("author", VStr "A")]);
   ("template_slots", VDict [("content", VStr "main")]);
   ("structure", VDict [("main", VDict [("slot", VStr "content")])])].

Definition child_merged_into_base : dict :=
  [("metadata",
    VDict [("title", VStr "Child"); ("author", VStr "A");
           ("extends", VStr "base")]);
   ("template_slots", VDict [("content", VStr "main")]);
   ("structure",
    VDict [("main", VDict [("p", VStr "hi")]);
           ("content", VDict [("p", VStr "hi")])])].

Definition load_base (reference : value) : result value :=
  match reference with
  | VStr "base" => Ok (VDict base_with_slot)
  | _ => Err (LoaderError "manifest not found")
  end.

(** The formatted value of a style that both maps of [merge_styles] have,
    under the strategy ['extend']. *)
Definition extended_value (py_repr : value -> string) (mine : option value)
  (theirs : value) : value :=
  match mine with
  | Some v =>
      VStr (ManifestTools.style_text py_repr v ++ "; "
            ++ ManifestTools.style_text py_repr theirs)
  | None => theirs
  end.

(** The warnings of a report are only added to. *)
Definition extends_warnings (r r' : ManifestValidator.report) : Prop :=
  exists more, snd r' = snd r +++ more.

(** No property of the list is named again by a property after it. *)
Fixpoint settled (properties : list string) : bool :=
  match properties with
  | [] => true
  | p :: rest =>
      forallb (fun q => negb (ManifestTools.declares
                                (ManifestTools.property_name q) p)) rest
      && settled rest
  end.

(** No key of the element is the name of an HTML element. *)
Definition names_no_element (element : dict) : bool :=
  forallb (fun kv => negb (HTMLConverter._is_html_element (fst kv))) element.

(** The text of a [div] element at a level of indentation. *)
Definition div_element (indent : nat) (html : string) : Prop :=
  exists attr_str inner,
    html = (HTMLConverter.indent_str indent ++ "<div" ++ attr_str ++ ">")
           ++ inner ++ "</div>".


(** The string has no whitespace. *)
Fixpoint spaceless (s : string) : bool :=
  match s with
  | EmptyString => true
  | String c r => negb (isspace c) && spaceless r
  end.

(** The whitespace of the string is single spaces. *)
Fixpoint single_spaced (s : string) : bool :=
  match s with
  | EmptyString => true
  | String c r =>
      (negb (isspace c) || (Ascii.eqb c " " && negb (starts_ws r)))
      && single_spaced r
  end.

(** A property as [_normalize_css] keeps it. *)
Definition kept_property (p : string) : bool :=
  plain_address p && single_spaced p.

(* ================================================================== *)
(** * Properties *)
(* ================================================================== *)

(** ** Whitespace handling *)

Section Whitespace.

Lemma isspace_semicolon : isspace ";" = false.
Proof. reflexivity. Qed.

Lemma isspace_space : isspace " " = true.
Proof. reflexivity. Qed.

Lemma lstrip_length (s : string) :
  String.length (lstrip s) <= String.length s.
Proof.
  induction s as [|c r IH]; simpl; [lia|].
  destruct (isspace c); simpl; lia.
Qed.

Lemma lstrip_fixed (s : string) : starts_ws s = false -> lstrip s = s.
Proof.
  destruct s as [|c r]; simpl; [reflexivity|].
  intros ->. reflexivity.
Qed.

Lemma starts_ws_lstrip (s : string) : starts_ws (lstrip s) = false.
Proof.
  induction s as [|c r IH]; simpl; [reflexivity|].
  destruct (isspace c) eqn:E; [exact IH|].
  simpl. exact E.
Qed.

Lemma rstrip_fixed (s : string) : ends_ws s = false -> rstrip s = s.
Proof.
  induction s as [|c r IH]; simpl; [reflexivity|].
  destruct r as [|d r'].
  - intros ->. reflexivity.
  - intros H. rewrite (IH H). reflexivity.
Qed.

Lemma ends_ws_rstrip (s : string) : ends_ws (rstrip s) = false.
Proof.
  induction s as [|c r IH]; simpl; [reflexivity|].
  destruct (rstrip r) as [|d r'] eqn:E.
  - destruct (isspace c) eqn:Ec; simpl; [reflexivity|exact Ec].
  - exact IH.
Qed.

Lemma starts_ws_rstrip (s : string) :
  starts_ws s = false -> starts_ws (rstrip s) = false.
Proof.
  destruct s as [|c r]; simpl; [reflexivity|].
  intros Hc. destruct (rstrip r); [rewrite Hc|]; simpl; auto.
Qed.

Lemma starts_ws_sub (b : bool) (s : string) :
  starts_ws s = false -> starts_ws (sub_ws_runs b s) = false.
Proof.
  destruct s as [|c r]; simpl; [reflexivity|].
  intros Hc. rewrite Hc. simpl. exact Hc.
Qed.

Lemma sub_nonempty (b : bool) (s : string) :
  ends_ws s = false -> s <> "" -> sub_ws_runs b s <> "".
Proof.
  revert b. induction s as [|c r IH]; intros b Hend Hne; [congruence|].
  simpl. destruct (isspace c) eqn:Ec.
  - destruct r as [|d r'].
    + simpl in Hend. congruence.
    + destruct b; [|discriminate].
      apply IH; [exact Hend|discriminate].
  - discriminate.
Qed.

Lemma ends_ws_cons (c : ascii) (s : string) :
  s <> "" -> ends_ws (String c s) = ends_ws s.
Proof. destruct s; [congruence|reflexivity]. Qed.

Lemma ends_ws_sub (b : bool) (s : string) :
  ends_ws s = false -> ends_ws (sub_ws_runs b s) = false.
Proof.
  revert b. induction s as [|c r IH]; intros b Hend; [reflexivity|].
  destruct r as [|d r'].
  - simpl in Hend. simpl. rewrite Hend. simpl. exact Hend.
  - assert (Hr : ends_ws (String d r') = false) by exact Hend.
    assert (Hne : forall b', sub_ws_runs b' (String d r') <> "")
      by (intros b'; apply sub_nonempty; [exact Hr|discriminate]).
    change (sub_ws_runs b (String c (String d r')))
      with (if isspace c
            then if b then sub_ws_runs true (String d r')
                 else String " " (sub_ws_runs true (String d r'))
            else String c (sub_ws_runs false (String d r'))).
    destruct (isspace c); [destruct b|];
      rewrite ?ends_ws_cons by apply Hne; apply IH; exact Hr.
Qed.

(** Collapsing whitespace twice is collapsing it once. *)
Lemma sub_ws_runs_idem (b b' : bool) (s : string) :
  (b = false -> b' = false) ->
  sub_ws_runs b' (sub_ws_runs b s) = sub_ws_runs b s.
Proof.
  revert b b'. induction s as [|c r IH]; intros b b' Hb; [reflexivity|].
  simpl. destruct (isspace c) eqn:Ec.
  - destruct b.
    + apply IH. auto.
    + rewrite (Hb eq_refl).
      change (sub_ws_runs false (String " " (sub_ws_runs true r)))
        with (String " " (sub_ws_runs true (sub_ws_runs true r))).
      f_equal. apply IH. auto.
  - simpl. rewrite Ec. f_equal. apply IH. auto.
Qed.

Lemma sub_ws_runs_semicolon (b : bool) (s : string) :
  sub_ws_runs b (s ++ ";") = sub_ws_runs b s ++ ";".
Proof.
  revert b. induction s as [|c r IH]; intros b; [reflexivity|].
  simpl. destruct (isspace c); [destruct b|]; simpl; rewrite IH; reflexivity.
Qed.

Lemma starts_ws_semicolon (s : string) :
  starts_ws s = false -> starts_ws (s ++ ";") = false.
Proof. destruct s; simpl; auto. Qed.

Lemma ends_ws_semicolon (s : string) : ends_ws (s ++ ";") = false.
Proof.
  induction s as [|c r IH]; [reflexivity|].
  simpl. destruct (r ++ ";") eqn:E; [destruct r; discriminate|exact IH].
Qed.

Lemma endswith_semicolon_app (s : string) : endswith_char ";" (s ++ ";") = true.
Proof.
  induction s as [|c r IH]; [reflexivity|].
  simpl. destruct (r ++ ";") eqn:E; [destruct r; discriminate|exact IH].
Qed.

Lemma strip_fixed (s : string) :
  starts_ws s = false -> ends_ws s = false -> strip s = s.
Proof.
  intros H1 H2. unfold strip. rewrite (lstrip_fixed s H1).
  apply rstrip_fixed, H2.
Qed.

End Whitespace.

(** ** Style normalisation *)

Section StyleNormalisation.

Import StyleProcessor.

Lemma collapsed_starts (s : string) : starts_ws (collapsed s) = false.
Proof.
  apply starts_ws_sub, starts_ws_rstrip, starts_ws_lstrip.
Qed.

Lemma collapsed_ends (s : string) : ends_ws (collapsed s) = false.
Proof. apply ends_ws_sub, ends_ws_rstrip. Qed.

Lemma collapsed_sub (s : string) :
  sub_ws_runs false (collapsed s) = collapsed s.
Proof. apply sub_ws_runs_idem. auto. Qed.

Lemma normalize_css_idempotent (s : string) :
  normalize_css (normalize_css s) = normalize_css s.
Proof.
  pose proof (collapsed_starts s) as Hs.
  pose proof (collapsed_ends s) as He.
  pose proof (collapsed_sub s) as Hc.
  assert (Hn : normalize_css s =
               if nonempty (collapsed s)
                  && negb (endswith_char ";" (collapsed s))
               then collapsed s ++ ";" else collapsed s) by reflexivity.
  rewrite Hn.
  destruct (nonempty (collapsed s) && negb (endswith_char ";" (collapsed s)))
    eqn:E.
  - unfold normalize_css.
    rewrite strip_fixed
      by (auto using starts_ws_semicolon, ends_ws_semicolon).
    rewrite sub_ws_runs_semicolon, Hc, endswith_semicolon_app.
    rewrite andb_false_r. reflexivity.
  - unfold normalize_css.
    rewrite (strip_fixed _ Hs He), Hc, E. reflexivity.
Qed.

End StyleNormalisation.

(** ** Dictionaries *)

Section Dictionaries.

Lemma lookup_set_same (d : dict) (k : string) (v : value) :
  lookup (set d k v) k = Some v.
Proof.
  induction d as [|[k' v'] r IH]; simpl.
  - rewrite String.eqb_refl. reflexivity.
  - destruct (String.eqb k' k) eqn:E; simpl; rewrite E; auto.
Qed.

Lemma set_set_same (d : dict) (k : string) (v v' : value) :
  set (set d k v) k v' = set d k v'.
Proof.
  induction d as [|[k0 v0] r IH]; simpl.
  - rewrite String.eqb_refl. reflexivity.
  - destruct (String.eqb k0 k) eqn:E; simpl; rewrite E; [reflexivity|].
    f_equal. exact IH.
Qed.

Lemma get_set_same (d : dict) (k : string) (v default : value) :
  get (set d k v) k default = v.
Proof. unfold get. rewrite lookup_set_same. reflexivity. Qed.

End Dictionaries.

Section StyleMaps.

Import StyleProcessor.

(** On a style map the loop of [process_styles] succeeds, and its result
    is a style map the loop leaves as it is. *)
Lemma process_items_idempotent (styles : dict) :
  string_values styles = true ->
  exists processed,
    process_items styles = Ok processed
    /\ process_items processed = Ok processed
    /\ (styles <> [] -> processed <> []).
Proof.
  induction styles as [|[name css] rest IH]; intros H.
  - exists []. repeat split; auto.
  - simpl in H. apply andb_true_iff in H as [Hcss Hrest].
    destruct css; try discriminate.
    destruct (IH Hrest) as (ps & H1 & H2 & _).
    exists ((name, VStr (normalize_css s)) :: ps).
    simpl. rewrite H1. simpl. rewrite H2. simpl.
    rewrite normalize_css_idempotent. repeat split; auto; discriminate.
Qed.

(** C9: style normalisation is idempotent: on a manifest whose styles are
    a map from names to strings, [process_styles] returns a manifest that a
    second [process_styles] returns unchanged. *)
Theorem C9_process_styles_idempotent (manifest : dict) :
  has_style_map manifest = true ->
  exists normalized,
    process_styles (VDict manifest) = Ok normalized
    /\ process_styles normalized = Ok normalized.
Proof.
  unfold has_style_map, process_styles. simpl.
  destruct (get manifest "styles" (VDict [])) as [| | | |l|styles] eqn:G;
    try discriminate.
  intros Hs.
  destruct styles as [|item rest].
  - exists (VDict manifest). simpl. rewrite G. simpl. auto.
  - destruct (process_items_idempotent (item :: rest) Hs) as (ps & H1 & H2 & Hne).
    exists (VDict (set manifest "styles" (VDict ps))).
    cbn [truthy negb]. rewrite H1. simpl. split; [reflexivity|].
    rewrite get_set_same.
    destruct ps as [|p ps']; [exfalso; apply Hne; [discriminate|reflexivity]|].
    cbn [truthy negb]. rewrite H2. simpl.
    rewrite set_set_same. reflexivity.
Qed.

Lemma C9_process_styles_idempotent_witness :
  exists normalized,
    process_styles
      (VDict [("styles", VDict [("box", VStr "  color:   red ;  margin: 0 ")])])
    = Ok normalized
    /\ process_styles normalized = Ok normalized.
Proof.
  apply (C9_process_styles_idempotent
           [("styles", VDict [("box", VStr "  color:   red ;  margin: 0 ")])]).
  reflexivity.
Defined.

End StyleMaps.

(** ** Variable substitution *)

Section SubstitutionFacts.

Import TemplateProcessor.

Variable render : string -> dict -> result string.
Variable context : dict.

Lemma substitute_plain (v : value) :
  plain v = true -> substitute_in_value render context v = Ok v.
Proof.
  induction v as [| | |s|l IH|d IH] using value_induction; intros H;
    try reflexivity.
  - simpl in *. unfold has_delimiters in H.
    destruct (contains "{{" s && contains "}}" s); [discriminate|reflexivity].
  - simpl.
    assert (E : (fix each (l : list value) : result (list value) :=
                   match l with
                   | [] => Ok []
                   | item :: rest =>
                       item' <- substitute_in_value render context item ;;
                       rest' <- each rest ;;
                       Ok (item' :: rest')
                   end) l = Ok l).
    { simpl in H. induction IH as [|item rest Hi _ IHrest]; [reflexivity|].
      apply andb_true_iff in H as [H1 H2].
      rewrite (Hi H1). simpl. rewrite (IHrest H2). reflexivity. }
    rewrite E. reflexivity.
  - simpl.
    assert (E : (fix each (d : dict) : result dict :=
                   match d with
                   | [] => Ok []
                   | (k, v) :: rest =>
                       v' <- substitute_in_value render context v ;;
                       rest' <- each rest ;;
                       Ok ((k, v') :: rest')
                   end) d = Ok d).
    { simpl in H. induction IH as [|[k v] rest Hi _ IHrest]; [reflexivity|].
      apply andb_true_iff in H as [H1 H2].
      simpl in Hi. rewrite (Hi H1). simpl. rewrite (IHrest H2). reflexivity. }
    rewrite E. reflexivity.
Qed.

(** Substitution goes down every path: what stands at the end of a path
    of the result is what substitution makes of what stands there in the
    argument. *)
Lemma substitute_items_lookup (d items : dict) (k : string) (x : value) :
  (fix each (d : dict) : result dict :=
     match d with
     | [] => Ok []
     | (k, v) :: rest =>
         v' <- substitute_in_value render context v ;;
         rest' <- each rest ;;
         Ok ((k, v') :: rest')
     end) d = Ok items ->
  lookup d k = Some x ->
  exists x',
    lookup items k = Some x'
    /\ substitute_in_value render context x = Ok x'.
Proof.
  revert items. induction d as [|[key v] rest IH]; intros items;
    [discriminate|].
  destruct (substitute_in_value render context v) as [v'|] eqn:Ev;
    [|discriminate].
  cbn [bind].
  match goal with
  | |- bind ?e _ = _ -> _ => destruct e as [rest'|] eqn:Er; [|discriminate]
  end.
  cbn [bind]. intros [= <-]. simpl.
  destruct (String.eqb key k).
  - intros [= <-]. eauto.
  - apply IH. reflexivity.
Qed.

Lemma substitute_each_nth (l items : list value) (i : nat) (x : value) :
  (fix each (l : list value) : result (list value) :=
     match l with
     | [] => Ok []
     | item :: rest =>
         item' <- substitute_in_value render context item ;;
         rest' <- each rest ;;
         Ok (item' :: rest')
     end) l = Ok items ->
  nth_error l i = Some x ->
  exists x',
    nth_error items i = Some x'
    /\ substitute_in_value render context x = Ok x'.
Proof.
  revert items i. induction l as [|item rest IH]; intros items i.
  - destruct i; discriminate.
  - destruct (substitute_in_value render context item) as [item'|] eqn:Ev;
      [|discriminate].
    cbn [bind].
    match goal with
    | |- bind ?e _ = _ -> _ => destruct e as [rest'|] eqn:Er; [|discriminate]
    end.
    cbn [bind]. intros [= <-]. destruct i as [|i]; simpl.
    + intros [= <-]. eauto.
    + apply IH. reflexivity.
Qed.

Lemma substitute_at_path (path : list step) (v v' leaf : value) :
  substitute_in_value render context v = Ok v' ->
  at_path path v = Some leaf ->
  exists leaf',
    at_path path v' = Some leaf'
    /\ substitute_in_value render context leaf = Ok leaf'.
Proof.
  revert v v'. induction path as [|[k|i] rest IH]; intros v v' Hv.
  - intros [= <-]. exists v'. split; [reflexivity|exact Hv].
  - destruct v as [| | | | |d]; try discriminate.
    cbn [substitute_in_value] in Hv.
    match type of Hv with
    | bind ?e _ = _ => destruct e as [items|] eqn:Ei; [|discriminate]
    end.
    cbn [bind] in Hv. injection Hv as <-. cbn [at_path].
    destruct (lookup d k) as [x|] eqn:Ex; [|discriminate].
    destruct (substitute_items_lookup _ _ _ _ Ei Ex) as (x' & Hl & Hx).
    rewrite Hl. apply (IH _ _ Hx).
  - destruct v as [| | | |l|]; try discriminate.
    cbn [substitute_in_value] in Hv.
    match type of Hv with
    | bind ?e _ = _ => destruct e as [items|] eqn:Ei; [|discriminate]
    end.
    cbn [bind] in Hv. injection Hv as <-. cbn [at_path].
    destruct (nth_error l i) as [x|] eqn:Ex; [|discriminate].
    destruct (substitute_each_nth _ _ _ _ Ei Ex) as (x' & Hl & Hx).
    rewrite Hl. apply (IH _ _ Hx).
Qed.

End SubstitutionFacts.

(** C10: what [substitute_variables] returns, read along the paths of the
    manifest.  A string that holds both [{{] and [}}] has become what the
    template engine renders from it against the context (the caller's
    variables, then [metadata] and [manifest]); a string that does not
    hold both stands there unchanged, and so does every scalar that is
    not a string.  A manifest without any string that holds both is
    returned as it is, whatever the engine would do: it is not asked. *)
Theorem C10_substitution_only_templates
  (render : string -> dict -> result string) (manifest : value)
  (context : dict) :
  (forall result,
     TemplateProcessor.substitute_variables render manifest context
     = Ok result ->
     exists metadata,
       method_get manifest "metadata" (VDict []) = Ok metadata
       /\ forall (path : list step) (leaf : value),
            at_path path manifest = Some leaf ->
            match leaf with
            | VStr s =>
                if has_delimiters s
                then exists rendered,
                       render s (update context [("metadata", metadata);
                                                 ("manifest", manifest)])
                       = Ok rendered
                       /\ at_path path result = Some (VStr rendered)
                else at_path path result = Some (VStr s)
            | VNone | VBool _ | VInt _ => at_path path result = Some leaf
            | VList _ | VDict _ => exists x, at_path path result = Some x
            end)
  /\ (forall d,
        manifest = VDict d -> plain manifest = true ->
        TemplateProcessor.substitute_variables render manifest context
        = Ok manifest).
Proof.
  unfold TemplateProcessor.substitute_variables. split.
  - intros result H.
    destruct (method_get manifest "metadata" (VDict [])) as [metadata|];
      [|discriminate].
    cbn [bind] in H.
    exists metadata. split; [reflexivity|]. intros path leaf Hleaf.
    destruct (substitute_at_path render _ path _ _ _ H Hleaf)
      as (leaf' & Hpath & Hsub).
    destruct leaf as [| | |s| |]; try (injection Hsub as <-; exact Hpath);
      [|eauto|eauto].
    cbn [TemplateProcessor.substitute_in_value] in Hsub.
    unfold has_delimiters.
    destruct (contains "{{" s && contains "}}" s).
    + destruct (render s _) as [rendered|]; [|discriminate].
      injection Hsub as <-. eauto.
    + injection Hsub as <-. exact Hpath.
  - intros d -> Hp. cbn [method_get bind].
    apply (substitute_plain render _ _ Hp).
Qed.

Lemma C10_substitution_only_templates_witness :
  exists metadata,
    method_get manifest_with_template "metadata" (VDict []) = Ok metadata
    /\ forall (path : list step) (leaf : value),
         at_path path manifest_with_template = Some leaf ->
         match leaf with
         | VStr s =>
             if has_delimiters s
             then exists rendered,
                    (fun (_ : string) (_ : dict) => Ok "Hello World") s
                      (update [] [("metadata", metadata);
                                  ("manifest", manifest_with_template)])
                    = Ok rendered
                    /\ at_path path manifest_rendered = Some (VStr rendered)
             else at_path path manifest_rendered = Some (VStr s)
         | VNone | VBool _ | VInt _ =>
             at_path path manifest_rendered = Some leaf
         | VList _ | VDict _ =>
             exists x, at_path path manifest_rendered = Some x
         end.
Proof.
  apply (proj1 (C10_substitution_only_templates (fun _ _ => Ok "Hello World")
                  manifest_with_template []) manifest_rendered).
  reflexivity.
Defined.

(** ** Slot substitution *)

Section SlotFacts.

Import TemplateProcessor.

(** The structure of the child, a mapping. *)
Variable child_structure : dict.

(** Without a matching slot every node is visited and rebuilt from its own
    items, unless the look-up of a slot raises. *)
Lemma replace_slots_unmatched (element : value) :
  unmatched (VDict child_structure) element = true ->
  replace_slots (VDict child_structure) element
  = if slots_hashable element then Ok element else Err TypeError.
Proof.
  induction element as [| | |s|l IH|d IH] using value_induction; intros H;
    try reflexivity.
  - cbn [replace_slots slots_hashable].
    match goal with
    | |- context [if ?f l then _ else _] => set (all_hashable := f)
    end.
    assert (E : (fix each (l : list value) : result (list value) :=
                   match l with
                   | [] => Ok []
                   | item :: rest =>
                       item' <- replace_slots (VDict child_structure) item ;;
                       rest' <- each rest ;;
                       Ok (item' :: rest')
                   end) l
                = if all_hashable l then Ok l else Err TypeError).
    { simpl in H. induction IH as [|item rest Hi _ IHrest]; [reflexivity|].
      apply andb_true_iff in H as [H1 H2].
      rewrite (Hi H1). cbn [all_hashable].
      destruct (slots_hashable item); [|reflexivity].
      cbn [bind andb]. rewrite (IHrest H2).
      destruct (all_hashable rest); reflexivity. }
    rewrite E. destruct (all_hashable l); reflexivity.
  - simpl in H. apply andb_true_iff in H as [Hslot Hrest].
    cbn [replace_slots slots_hashable].
    match goal with
    | |- context [_ && ?f d] => set (all_hashable := f)
    end.
    assert (F : (if has_key d "slot"
                 then
                   present <- contains_value (get d "slot" VNone)
                                (VDict child_structure) ;;
                   (if present
                    then v <- subscript (VDict child_structure)
                                (get d "slot" VNone) ;;
                         Ok (Some v)
                    else Ok None)
                 else Ok None)
                = if (if has_key d "slot"
                      then hashable (get d "slot" VNone) else true)
                  then Ok (@None value) else Err TypeError).
    { unfold slot_unmatched in Hslot.
      destruct (has_key d "slot"); [|reflexivity].
      destruct (get d "slot" VNone) as [| | |k| |]; try reflexivity.
      simpl in Hslot. apply negb_true_iff in Hslot. simpl.
      rewrite Hslot. reflexivity. }
    rewrite F.
    destruct (if has_key d "slot" then hashable (get d "slot" VNone)
              else true); [|reflexivity].
    cbn [bind andb].
    assert (E : (fix each (d : dict) : result dict :=
                   match d with
                   | [] => Ok []
                   | (key, value) :: rest =>
                       value' <-
                         match value with
                         | VDict _ | VList _ =>
                             replace_slots (VDict child_structure) value
                         | _ => Ok value
                         end ;;
                       rest' <- each rest ;;
                       Ok ((key, value') :: rest')
                   end) d
                = if all_hashable d then Ok d else Err TypeError).
    { clear F Hslot.
      induction IH as [|[k v] rest Hi _ IHrest]; [reflexivity|].
      apply andb_true_iff in Hrest as [H1 H2].
      simpl in Hi. specialize (Hi H1). specialize (IHrest H2).
      cbn [all_hashable].
      destruct v; try (cbn [bind slots_hashable andb]; rewrite IHrest;
                       destruct (all_hashable rest); reflexivity);
        rewrite Hi;
        match goal with
        | |- context [slots_hashable ?v] => destruct (slots_hashable v)
        end; try reflexivity;
        cbn [bind andb]; rewrite IHrest; destruct (all_hashable rest);
        reflexivity. }
    rewrite E. destruct (all_hashable d); reflexivity.
Qed.

End SlotFacts.

Lemma set_lookup_same (d : dict) (k : string) (v : value) :
  lookup d k = Some v -> set d k v = d.
Proof.
  induction d as [|[k' v'] r IH]; simpl; [discriminate|].
  destruct (String.eqb k' k) eqn:E.
  - intros [= ->]. reflexivity.
  - intros H. rewrite (IH H). reflexivity.
Qed.

(** C4: slot substitution without a matching slot, for a child whose
    structure is a mapping: when no node of the ancestor's structure
    carries a [slot] key whose value is a key of the child's structure,
    every node is looked at, and the outcome depends on the [slot] values
    alone.  When all of them are hashable, [replace_slots] returns every
    node as it was and [_process_template_slots] leaves the ancestor
    unchanged; the unmatched references raise nothing.  When one of them
    is a list or a dictionary, its look-up raises [TypeError]. *)
Theorem C4_unmatched_slots_noop
  (parent child child_structure : dict) (structure : value) :
  lookup parent "structure" = Some structure ->
  get child "structure" (VDict []) = VDict child_structure ->
  unmatched (VDict child_structure) structure = true ->
  (slots_hashable structure = true ->
   TemplateProcessor.replace_slots (VDict child_structure) structure
   = Ok structure
   /\ TemplateProcessor._process_template_slots parent child = Ok parent)
  /\ (slots_hashable structure = false ->
      TemplateProcessor.replace_slots (VDict child_structure) structure
      = Err TypeError
      /\ (truthy (get parent "template_slots" (VDict [])) = true ->
          TemplateProcessor._process_template_slots parent child
          = Err TypeError)).
Proof.
  intros Hs Hc Hu.
  pose proof (replace_slots_unmatched _ _ Hu) as Hr.
  unfold TemplateProcessor._process_template_slots. rewrite Hc, Hs, Hr.
  split; intros Hh; rewrite Hh; (split; [reflexivity|]).
  - destruct (negb (truthy (get parent "template_slots" (VDict []))));
      [reflexivity|].
    simpl. rewrite (set_lookup_same _ _ _ Hs). reflexivity.
  - intros ->. reflexivity.
Qed.

Lemma C4_unmatched_slots_noop_witness :
  (slots_hashable
     (VDict [("div", VDict [("slot", VStr "sidebar");
                            ("children", VList [VDict [("p", VStr "base")]])])])
   = true ->
   TemplateProcessor.replace_slots
     (VDict [("content", VDict [("p", VStr "child")])])
     (VDict [("div", VDict [("slot", VStr "sidebar");
                            ("children", VList [VDict [("p", VStr "base")]])])])
   = Ok (VDict [("div", VDict [("slot", VStr "sidebar");
                               ("children",
                                VList [VDict [("p", VStr "base")]])])])
   /\ TemplateProcessor._process_template_slots
        [("template_slots", VDict [("sidebar", VStr "aside")]);
         ("structure",
          VDict [("div", VDict [("slot", VStr "sidebar");
                                ("children",
                                 VList [VDict [("p", VStr "base")]])])])]
        child_without_slots
      = Ok [("template_slots", VDict [("sidebar", VStr "aside")]);
            ("structure",
             VDict [("div", VDict [("slot", VStr "sidebar");
                                   ("children",
                                    VList [VDict [("p", VStr "base")]])])])])
  /\ (slots_hashable
        (VDict [("div", VDict [("slot", VStr "sidebar");
                               ("children",
                                VList [VDict [("p", VStr "base")]])])])
      = false ->
      TemplateProcessor.replace_slots
        (VDict [("content", VDict [("p", VStr "child")])])
        (VDict [("div", VDict [("slot", VStr "sidebar");
                               ("children",
                                VList [VDict [("p", VStr "base")]])])])
      = Err TypeError
      /\ (truthy
            (get [("template_slots", VDict [("sidebar", VStr "aside")]);
                  ("structure",
                   VDict [("div", VDict [("slot", VStr "sidebar");
                                         ("children",
                                          VList [VDict [("p", VStr "base")]])])])]
                 "template_slots" (VDict [])) = true ->
          TemplateProcessor._process_template_slots
            [("template_slots", VDict [("sidebar", VStr "aside")]);
             ("structure",
              VDict [("div", VDict [("slot", VStr "sidebar");
                                    ("children",
                                     VList [VDict [("p", VStr "base")]])])])]
            child_without_slots
          = Err TypeError)).
Proof.
  apply (C4_unmatched_slots_noop
           [("template_slots", VDict [("sidebar", VStr "aside")]);
            ("structure",
             VDict [("div", VDict [("slot", VStr "sidebar");
                                   ("children",
                                    VList [VDict [("p", VStr "base")]])])])]
           child_without_slots
           [("content", VDict [("p", VStr "child")])]);
    reflexivity.
Defined.

(** A slot whose name is a list names no key of the child's structure, and
    it is an error all the same: its look-up raises [TypeError], so an
    unmatched slot reference is not always left as it is. *)
Lemma C4_list_slot_raises :
  unmatched (get child_without_slots "structure" (VDict []))
    (VDict [("div", VDict [("slot", VList [VStr "sidebar"])])]) = true
  /\ TemplateProcessor._process_template_slots parent_list_slot
       child_without_slots = Err TypeError
  /\ ~ (forall (parent child : dict) (structure : value),
          lookup parent "structure" = Some structure ->
          unmatched (get child "structure" (VDict [])) structure = true ->
          TemplateProcessor._process_template_slots parent child
          = Ok parent).
Proof.
  split; [reflexivity|]. split; [reflexivity|].
  intros H.
  specialize (H parent_list_slot child_without_slots
                (VDict [("div", VDict [("slot", VList [VStr "sidebar"])])])
                eq_refl eq_refl).
  discriminate.
Qed.

(** ** Inheritance along a chain that never ends *)

Section InheritanceFacts.

Import ManifestProcessor.

Variable load_manifest : value -> result value.
Variable describe : exn -> result string.

Lemma ancestor_add (i n : nat) (manifest : value) :
  ancestor load_manifest (i + n) manifest =
  match ancestor load_manifest i manifest with
  | Some a => ancestor load_manifest n a
  | None => None
  end.
Proof.
  revert manifest. induction i as [|i IH]; intros manifest; [reflexivity|].
  simpl. destruct (parent_of load_manifest manifest); [apply IH|reflexivity].
Qed.

Lemma ancestor_succ (i : nat) (manifest : value) :
  ancestor load_manifest (S i) manifest =
  match ancestor load_manifest i manifest with
  | Some a => parent_of load_manifest a
  | None => None
  end.
Proof.
  replace (S i) with (i + 1) by lia. rewrite ancestor_add.
  destruct (ancestor load_manifest i manifest) as [a|]; [|reflexivity].
  simpl. destruct (parent_of load_manifest a); reflexivity.
Qed.

Lemma ancestor_prefix (i n : nat) (manifest : value) :
  ancestor load_manifest (i + n) manifest <> None -> ancestor load_manifest i manifest <> None.
Proof.
  rewrite ancestor_add. destruct (ancestor load_manifest i manifest); congruence.
Qed.

(** Two manifests that extend the same reference have the same parent. *)
Lemma parent_of_same (a b reference : value) :
  extends_of a = Some reference -> extends_of b = Some reference ->
  parent_of load_manifest a = parent_of load_manifest b.
Proof.
  intros Ha Hb. unfold parent_of. rewrite Ha, Hb. reflexivity.
Qed.

(** A cyclic chain never ends: every ancestor load_manifest exists. *)
Lemma cyclic_endless (manifest : value) :
  cyclic load_manifest manifest ->
  forall n, ancestor load_manifest n manifest <> None.
Proof.
  intros (period & Hpos & i & below & above & reference & Hi & Hj & Hb & Ha).
  assert (Hstep : forall t, ancestor load_manifest (i + period + 1 + t) manifest
                            = ancestor load_manifest (i + 1 + t) manifest).
  { intros t.
    replace (i + period + 1 + t) with ((i + period) + (1 + t)) by lia.
    replace (i + 1 + t) with (i + (1 + t)) by lia.
    rewrite (ancestor_add (i + period) (1 + t)), (ancestor_add i (1 + t)).
    rewrite Hi, Hj. simpl.
    rewrite (parent_of_same below above reference Hb Ha). reflexivity. }
  intros n. induction n as [n IH] using lt_wf_ind.
  destruct (le_lt_dec n (i + period)) as [Hle|Hgt].
  - assert (Hn : i + period = n + (i + period - n)) by lia.
    apply (ancestor_prefix n (i + period - n)).
    rewrite <- Hn, Hj. discriminate.
  - assert (Hn : n = i + period + 1 + (n - (i + period + 1))) by lia.
    rewrite Hn, Hstep. apply IH. lia.
Qed.

(** Along a chain that never ends, [_process_inheritance] loads one
    ancestor per call until no call is left, and no call returns. *)
Lemma endless_exhausts_depth (depth : nat) (manifest : value) :
  (forall n, ancestor load_manifest n manifest <> None) ->
  fst (_process_inheritance load_manifest describe depth manifest)
  = references load_manifest depth manifest
  /\ List.length (references load_manifest depth manifest) = depth
  /\ exists e,
       snd (_process_inheritance load_manifest describe depth manifest)
       = Err e.
Proof.
  revert manifest. induction depth as [|depth IH]; intros manifest Hendless.
  - simpl. eauto.
  - pose proof (Hendless 1) as H1.
    assert (Hparent : exists parent,
               parent_of load_manifest manifest = Some parent).
    { simpl in H1. destruct (parent_of load_manifest manifest) as [p|];
        [eauto|congruence]. }
    destruct Hparent as [parent Hp].
    assert (Hend' : forall n, ancestor load_manifest n parent <> None).
    { intros n. specialize (Hendless (S n)). simpl in Hendless.
      rewrite Hp in Hendless. exact Hendless. }
    destruct (IH parent Hend') as (Hloads & Hlen & e' & Hrun).
    cbn [references]. rewrite Hp.
    unfold parent_of, extends_of in *.
    change (_process_inheritance load_manifest describe (S depth) manifest)
      with
      (match method_get manifest "metadata" (VDict []) with
       | Err e => ([], Err e)
       | Ok metadata =>
           match method_get metadata "extends" VNone with
           | Err e => ([], Err e)
           | Ok extends =>
               if negb (truthy extends) then ([], Ok manifest)
               else
                 match load_manifest extends with
                 | Err e =>
                     ([extends], Err (inheritance_error describe extends e))
                 | Ok parent_manifest =>
                     let '(loads, parent_processed) :=
                       _process_inheritance load_manifest describe depth
                         parent_manifest in
                     (extends :: loads,
                      try_except
                        (parent <- parent_processed ;;
                         match manifest, parent with
                         | VDict c, VDict p =>
                             merged <-
                               TemplateProcessor.process_template_inheritance
                                 c p ;;
                             Ok (VDict merged)
                         | _, _ => Err AttributeError
                         end)
                        (inheritance_error describe extends))
                 end
           end
       end).
    destruct (method_get manifest "metadata" (VDict [])) as [metadata|];
      [|congruence].
    destruct (method_get metadata "extends" VNone) as [extends|];
      [|congruence].
    destruct (truthy extends); [|congruence]. simpl negb. cbv iota.
    destruct (load_manifest extends) as [p|]; [|congruence].
    injection Hp as ->.
    destruct (_process_inheritance load_manifest describe depth parent)
      as [loads processed].
    simpl in Hloads, Hrun. subst loads processed. simpl.
    rewrite Hlen. eauto.
Qed.

End InheritanceFacts.

Lemma cyclic_A_B : cyclic_with load_A_B 2 manifest_A.
Proof.
  split; [lia|].
  exists 0, manifest_A, manifest_A, (VStr "B"). repeat split; reflexivity.
Qed.

(** C1: a cyclic [extends] chain: [_process_inheritance] keeps no record
    of the references it is resolving.  Whatever number of nested calls
    the interpreter allows, it asks the loader for the reference of the
    next ancestor at every one of them, so the loads are as many as the
    calls allowed, and it never returns a manifest.  What it raises in the
    end is the work of the handlers, which print the error caught at every
    level; that is not stated here. *)
Theorem C1_cyclic_chain_exhausts_call_depth
  (load_manifest : value -> result value) (describe : exn -> result string)
  (manifest : value) (depth : nat) :
  cyclic load_manifest manifest ->
  fst (ManifestProcessor._process_inheritance load_manifest describe depth
         manifest)
  = references load_manifest depth manifest
  /\ List.length (references load_manifest depth manifest) = depth
  /\ forall resolved,
       snd (ManifestProcessor._process_inheritance load_manifest describe
              depth manifest) <> Ok resolved.
Proof.
  intros Hc.
  destruct (endless_exhausts_depth load_manifest describe depth manifest
              (cyclic_endless load_manifest manifest Hc))
    as (Hloads & Hlen & e & Hrun).
  repeat split; [exact Hloads|exact Hlen|].
  intros resolved. rewrite Hrun. discriminate.
Qed.

Lemma C1_cyclic_chain_exhausts_call_depth_witness :
  fst (ManifestProcessor._process_inheritance load_A_B (fun _ => Ok "") 4
         manifest_A)
  = references load_A_B 4 manifest_A
  /\ List.length (references load_A_B 4 manifest_A) = 4
  /\ forall resolved,
       snd (ManifestProcessor._process_inheritance load_A_B (fun _ => Ok "")
              4 manifest_A) <> Ok resolved.
Proof.
  apply (C1_cyclic_chain_exhausts_call_depth load_A_B (fun _ => Ok "")
           manifest_A 4).
  exists 2. split; [lia|].
  exists 0, manifest_A, manifest_A, (VStr "B"). repeat split; reflexivity.
Defined.

(** For [A extends B], [B extends A] the references are loaded again while
    they are being resolved, and no bound that depends on the chain alone
    limits the number of loads. *)
Lemma C1_cycle_not_tracked :
  cyclic_with load_A_B 2 manifest_A
  /\ (forall describe,
        fst (ManifestProcessor._process_inheritance load_A_B describe 4
               manifest_A)
        = [VStr "B"; VStr "A"; VStr "B"; VStr "A"])
  /\ (forall describe,
        ~ (exists bound, forall depth,
             List.length
               (fst (ManifestProcessor._process_inheritance load_A_B describe
                       depth manifest_A)) <= bound)).
Proof.
  split; [exact cyclic_A_B|]. split; [reflexivity|].
  intros describe (bound & Hb).
  destruct (endless_exhausts_depth load_A_B describe (S bound) manifest_A)
    as (Hloads & Hlen & _).
  { apply cyclic_endless. exists 2. exact cyclic_A_B. }
  specialize (Hb (S bound)). rewrite Hloads, Hlen in Hb. lia.
Qed.

(** ** The validator *)

Section ValidatorFacts.

Import ManifestValidator.

Lemma app_singleton_nil {A} (l : list A) (a : A) : l +++ [a] = [] <-> False.
Proof. split; [destruct l; discriminate|tauto]. Qed.

Lemma add_error_nil (r : report) (msg : string) :
  fst (add_error r msg) = [] <-> False.
Proof. unfold add_error. simpl. apply app_singleton_nil. Qed.

Lemma style_errors (items : dict) (r : report) :
  fst (fold_left
         (fun r item =>
            match snd item with
            | VStr style_value =>
                add_warnings r (style_warnings (fst item) style_value)
            | _ => add_error r ("Style '" ++ fst item ++ "' must be a string")
            end) items r) = []
  <-> fst r = [] /\ string_values items = true.
Proof.
  revert r. induction items as [|[name v] rest IH]; intros r; simpl.
  - tauto.
  - rewrite IH. destruct v; simpl; rewrite ?app_singleton_nil;
      intuition discriminate.
Qed.

Lemma slot_errors (slots : dict) (r : report) :
  fst (fold_left
         (fun r slot =>
            if Regex.slot_name_match (fst slot) then r
            else add_error r ("Invalid template slot name: '"
                              ++ fst slot ++ "'"))
         slots r) = []
  <-> fst r = []
      /\ forallb (fun kv => Regex.slot_name_match (fst kv)) slots = true.
Proof.
  revert r. induction slots as [|[name v] rest IH]; intros r; simpl.
  - tauto.
  - rewrite IH. destruct (Regex.slot_name_match name); simpl;
      rewrite ?app_singleton_nil; intuition discriminate.
Qed.

Lemma validate_metadata_errors (m md : dict) (r : report) :
  get m "metadata" (VDict []) = VDict md ->
  exists r',
    _validate_metadata (VDict m) r = Ok r'
    /\ (fst r' = [] <->
        fst r = [] /\ title_nonempty (VDict m) = true
        /\ extends_ok (VDict m) = true).
Proof.
  intros Hmd. unfold _validate_metadata, title_nonempty, extends_ok. simpl.
  rewrite Hmd. simpl. unfold has_key.
  destruct (truthy (get md "title" VNone)) eqn:Ht;
    destruct (truthy (get md "description" VNone));
    destruct (lookup md "extends") as [extends|]; simpl;
    try (destruct extends as [| | |s| |]; try destruct (nonempty (strip s)));
    simpl; eexists; (split; [reflexivity|]); simpl;
    rewrite ?app_singleton_nil; intuition discriminate.
Qed.

Lemma validate_styles_errors (m : dict) (r : report) :
  exists r',
    _validate_styles (VDict m) r = Ok r'
    /\ (fst r' = [] <-> fst r = [] /\ styles_ok (VDict m) = true).
Proof.
  unfold _validate_styles, styles_ok. simpl.
  destruct (get m "styles" (VDict [])) as [| | | | |styles];
    eexists; (split; [reflexivity|]);
    rewrite ?style_errors, ?add_error_nil; intuition discriminate.
Qed.

Lemma validate_structure_errors (m : dict) (r : report) :
  exists r',
    _validate_structure (VDict m) r = Ok r'
    /\ (fst r' = [] <-> fst r = [] /\ structure_nonempty (VDict m) = true).
Proof.
  unfold _validate_structure, structure_nonempty. simpl.
  destruct (truthy (get m "structure" VNone)); simpl;
    eexists; (split; [reflexivity|]); simpl;
    rewrite ?app_singleton_nil; intuition discriminate.
Qed.

Lemma validate_template_inheritance_errors (m md slots : dict) (r : report) :
  get m "metadata" (VDict []) = VDict md ->
  get m "template_slots" (VDict []) = VDict slots ->
  exists r',
    _validate_template_inheritance (VDict m) r = Ok r'
    /\ (fst r' = [] <-> fst r = [] /\ slots_ok (VDict m) = true).
Proof.
  intros Hmd Hslots. unfold _validate_template_inheritance, slots_ok. simpl.
  rewrite Hmd, Hslots. simpl.
  eexists. split; [reflexivity|].
  rewrite slot_errors.
  destruct (has_key md "extends" && truthy (VDict slots)) eqn:E;
    cbn [truthy] in E; rewrite E; simpl; tauto.
Qed.

End ValidatorFacts.

(** C2: when [validate] returns no errors: on a manifest whose sections
    are mappings [validate] returns, and its error list is empty exactly
    when the schema check passes, the title is non-empty, the structure is
    present and non-empty, [extends] (when present) is a string with more
    than whitespace, every style is a string, and every template slot has
    a well-formed name. *)
Theorem C2_validate_no_errors_iff
  (schema_violation : value -> option string) (manifest : value) :
  well_shaped manifest = true ->
  exists errors warnings,
    ManifestValidator.validate schema_violation manifest
    = Ok (errors, warnings)
    /\ (errors = [] <->
        schema_violation manifest = None
        /\ title_nonempty manifest = true
        /\ structure_nonempty manifest = true
        /\ extends_ok manifest = true
        /\ styles_ok manifest = true
        /\ slots_ok manifest = true).
Proof.
  destruct manifest as [| | | | |m]; try discriminate.
  unfold well_shaped. intros H. apply andb_true_iff in H as [Hmd Hslots].
  destruct (get m "metadata" (VDict [])) as [| | | | |md] eqn:Emd;
    try discriminate.
  destruct (get m "template_slots" (VDict [])) as [| | | | |slots] eqn:Eslots;
    try discriminate.
  unfold ManifestValidator.validate.
  set (r0 := match schema_violation (VDict m) with
             | Some message =>
                 ManifestValidator.add_error ([], [])
                   ("Schema validation failed: " ++ message)
             | None => ([], [])
             end).
  assert (H0 : fst r0 = [] <-> schema_violation (VDict m) = None).
  { subst r0. destruct (schema_violation (VDict m)); simpl;
      intuition discriminate. }
  destruct (validate_metadata_errors m md r0 Emd) as (r1 & E1 & H1).
  destruct (validate_styles_errors m r1) as (r2 & E2 & H2).
  destruct (validate_structure_errors m r2) as (r3 & E3 & H3).
  destruct (validate_template_inheritance_errors m md slots r3 Emd Eslots)
    as (r4 & E4 & H4).
  rewrite E1. simpl. rewrite E2. simpl. rewrite E3. simpl. rewrite E4. simpl.
  destruct r4 as [errors warnings]. exists errors, warnings.
  split; [reflexivity|]. simpl in H4. tauto.
Qed.

Lemma C2_validate_no_errors_iff_witness :
  exists errors warnings,
    ManifestValidator.validate (fun _ => None) manifest_empty_extends
    = Ok (errors, warnings)
    /\ (errors = [] <->
        (fun _ : value => @None string) manifest_empty_extends = None
        /\ title_nonempty manifest_empty_extends = true
        /\ structure_nonempty manifest_empty_extends = true
        /\ extends_ok manifest_empty_extends = true
        /\ styles_ok manifest_empty_extends = true
        /\ slots_ok manifest_empty_extends = true).
Proof.
  apply (C2_validate_no_errors_iff (fun _ => None) manifest_empty_extends).
  reflexivity.
Defined.

(** A title and a structure are not enough: the manifest below conforms to
    the schema and has both, and [validate] reports its empty [extends]. *)
Lemma C2_title_and_structure_not_sufficient :
  default_schema_conforms manifest_empty_extends = true
  /\ ~ (forall (schema_violation : value -> option string) (manifest : value)
               (errors warnings : list string),
          schema_violation manifest = None ->
          default_schema_conforms manifest = true ->
          ManifestValidator.validate schema_violation manifest
          = Ok (errors, warnings) ->
          (errors = [] <->
           title_nonempty manifest = true
           /\ structure_nonempty manifest = true)).
Proof.
  split; [reflexivity|]. intros H.
  specialize (H (fun _ => None) manifest_empty_extends
                ["Template 'extends' must be a non-empty string"] []
                eq_refl eq_refl eq_refl).
  destruct H as [_ H]. discriminate H. split; reflexivity.
Qed.

(** ** The HTML converter *)

(** Steps of the loop that print a value or convert a child: the loop goes
    on with what they return. *)
Ltac returned :=
  repeat match goal with
         | |- context [HTMLConverter.text_content ?r ?v] =>
             destruct (HTMLConverter.text_content r v); [|discriminate]
         | |- context [HTMLConverter.py_str ?r ?v] =>
             destruct (HTMLConverter.py_str r v); [|discriminate]
         | |- context [bind (?convert ?v (S ?n)) _] =>
             destruct (convert v (S n)); [|discriminate]
         end;
  cbn [bind].

Section ConverterFacts.

Import HTMLConverter.

Lemma string_app_assoc (a b c : string) : (a ++ b) ++ c = a ++ (b ++ c).
Proof. induction a as [|x a IH]; simpl; [reflexivity|]. now rewrite IH. Qed.

Lemma join_cons (sep x : string) (l : list string) :
  l <> [] -> join sep (x :: l) = x ++ sep ++ join sep l.
Proof. destruct l; [congruence|reflexivity]. Qed.

Lemma join_last (sep : string) (l : list string) (last : string) :
  exists before, join sep (l +++ [last]) = before ++ last.
Proof.
  induction l as [|x l IH].
  - exists "". reflexivity.
  - destruct IH as [before IH].
    change ((x :: l) +++ [last]) with (x :: (l +++ [last])).
    rewrite join_cons by (destruct l; discriminate).
    rewrite IH. exists (x ++ sep ++ before).
    now rewrite !string_app_assoc.
Qed.

(** With content, an element is its start tag, something in between, and
    its closing tag, whatever the tag. *)
Lemma render_element_closed (indent : nat) (tag attr_str : string)
  (content : list string) :
  content <> [] ->
  exists inner,
    render_element indent tag attr_str content
    = (indent_str indent ++ "<" ++ tag ++ attr_str ++ ">")
      ++ inner ++ "</" ++ tag ++ ">".
Proof.
  intros Hne.
  assert (Hmulti : exists inner,
    join newline
      ((indent_str indent ++ "<" ++ tag ++ attr_str ++ ">")
         :: flat_map (fun item => if nonempty (strip item)
                                  then ["  " ++ indent_str indent ++ item]
                                  else []) content
         +++ [indent_str indent ++ "</" ++ tag ++ ">"])
    = (indent_str indent ++ "<" ++ tag ++ attr_str ++ ">")
      ++ inner ++ "</" ++ tag ++ ">").
  { set (items := flat_map _ content).
    destruct (join_last newline items (indent_str indent ++ "</" ++ tag ++ ">"))
      as [before Hb].
    exists (newline ++ before ++ indent_str indent).
    rewrite join_cons by (destruct items; discriminate).
    rewrite Hb. now rewrite !string_app_assoc. }
  unfold render_element.
  destruct content as [|single [|second more]]; [congruence| |exact Hmulti].
  destruct (negb (contains newline single)); [|exact Hmulti].
  exists single. reflexivity.
Qed.

Section Loop.

Variable py_repr : value -> result string.
Variable convert : value -> nat -> result string.
Variable styles : dict.
Variable indent : nat.

Lemma grows_refl (st : element_state) : grows st st.
Proof. unfold grows. tauto. Qed.

Lemma grows_trans (a b c : element_state) : grows a b -> grows b c -> grows a c.
Proof. unfold grows. tauto. Qed.

Lemma grows_add_content (st : element_state) (html : string) :
  grows st (add_content st html).
Proof.
  assert (H : collected st +++ [html] <> [])
    by (destruct (collected st); discriminate).
  unfold grows, add_content. simpl. tauto.
Qed.

Lemma grows_add_tagged (st : element_state) (key html : string) :
  grows st (add_content (set_tag st key) html).
Proof.
  assert (H : collected st +++ [html] <> [])
    by (destruct (collected st); discriminate).
  assert (H' : Some key <> None) by discriminate.
  unfold grows, add_content, set_tag. simpl. tauto.
Qed.

Lemma grows_set_attribute (st : element_state) (key : string) (v : value) :
  grows st (set_attribute st key v).
Proof. unfold grows, set_attribute. simpl. tauto. Qed.

Lemma convert_children_grows (l : list value) (st st' : element_state) :
  convert_children convert indent l st = Ok st' -> grows st st'.
Proof.
  revert st. induction l as [|child more IH]; intros st; simpl.
  - intros [= ->]. apply grows_refl.
  - destruct (convert child (S indent)) as [html|]; [|discriminate]. simpl.
    intros H. eapply grows_trans; [apply grows_add_content|apply IH, H].
Qed.

Lemma convert_item_grows (st st' : element_state) (key : string) (v : value) :
  convert_item py_repr convert styles indent st key v = Ok st' -> grows st st'.
Proof.
  unfold convert_item.
  destruct (member key ["text"; "content"]).
  { returned. intros [= <-]. apply grows_add_content. }
  destruct (String.eqb key "children").
  { destruct v; try apply convert_children_grows;
      returned; intros [= <-]; apply grows_add_content. }
  destruct (String.eqb key "style").
  { unfold style_item. destruct (in_dict v styles) as [[|]|]; simpl;
      try discriminate; destruct v; intros [= <-];
      apply grows_set_attribute. }
  destruct (member key attribute_keys).
  { returned. intros [= <-]. apply grows_set_attribute. }
  destruct (_is_html_element key).
  { destruct v; returned; intros [= <-]; apply grows_add_tagged. }
  intros [= <-]. apply grows_refl.
Qed.

Lemma collect_items_grows (d : dict) (st st' : element_state) :
  collect_items py_repr convert styles indent d st = Ok st' -> grows st st'.
Proof.
  revert st. induction d as [|[key v] rest IH]; intros st; simpl.
  - intros [= ->]. apply grows_refl.
  - destruct (convert_item py_repr convert styles indent st key v) as [st1|]
      eqn:E; [|discriminate]. simpl.
    intros H. eapply grows_trans; [eapply convert_item_grows, E|apply IH, H].
Qed.

(** The key of a void element is read as the tag of the node. *)
Lemma convert_item_void (st st' : element_state) (key : string) (v : value) :
  member key void_elements = true ->
  convert_item py_repr convert styles indent st key v = Ok st' ->
  tag_name st' <> None.
Proof.
  intros Hvoid.
  assert (Hkey : key = "img" \/ key = "br" \/ key = "hr" \/ key = "input"
                 \/ key = "meta" \/ key = "link").
  { unfold member, void_elements in Hvoid. simpl in Hvoid.
    repeat (apply orb_true_iff in Hvoid as [Hvoid|Hvoid];
            [apply String.eqb_eq in Hvoid; tauto|]).
    discriminate. }
  unfold convert_item.
  destruct Hkey as [-> | [-> | [-> | [-> | [-> | ->]]]]];
    cbn -[escape py_str]; destruct v; returned; intros [= <-]; discriminate.
Qed.

(** A node whose tag resolves to a void element has content. *)
Lemma void_tag_has_content (element : dict) (st : element_state) (tag : string) :
  collect_items py_repr convert styles indent element empty_state = Ok st ->
  resolve_tag element (tag_name st) = Ok tag ->
  member tag void_elements = true ->
  collected st <> [].
Proof.
  intros Hloop Htag Hvoid.
  pose proof (collect_items_grows _ _ _ Hloop) as (_ & _ & Hfound).
  destruct (tag_name st) as [found|] eqn:Et.
  - destruct Hfound as [H|H]; [discriminate| |exact H].
    simpl in H. congruence.
  - exfalso. unfold resolve_tag in Htag.
    destruct element as [|[first_key v] rest]; [discriminate|].
    destruct (_is_html_element first_key); injection Htag as <-;
      [|discriminate].
    simpl in Hloop.
    destruct (convert_item py_repr convert styles indent empty_state
                first_key v) as [st1|] eqn:E1; [|discriminate].
    simpl in Hloop.
    pose proof (convert_item_void _ _ _ _ Hvoid E1) as Hst1.
    pose proof (collect_items_grows _ _ _ Hloop) as (_ & Hkeep & _).
    apply Hkeep in Hst1. congruence.
Qed.

End Loop.

End ConverterFacts.

(** ** The scenario of the box *)

(** C5: the scenario: [process_manifest] puts the semicolon after the
    declaration of [box]; the head generated from the processed manifest
    holds [<title>T</title>] and the rule of [.box] with the declaration
    [color: red;] (one line for the selector, one for the declaration, one
    for the closing brace, which read [.box { color: red; }] once the
    whitespace is collapsed); the body holds the [div] of class [box] with
    the text [Hi]; and so does the document made of the two. *)
Theorem C5_scenario_document
  (py_repr : value -> result string)
  (load_manifest : value -> result value)
  (describe : exn -> result string)
  (schema_violation : value -> option string)
  (render : string -> dict -> result string)
  (depth : nat) (optimize minify : bool) :
  schema_violation scenario_manifest = None ->
  schema_violation scenario_processed = None ->
  ManifestProcessor.process_manifest load_manifest describe schema_violation render
    false (S depth) scenario_manifest [] true = Ok scenario_processed
  /\ exists head body,
       HTMLConverter._generate_head
         (HTMLConverter.default_options optimize minify)
         scenario_metadata scenario_styles [] = Ok head
       /\ HTMLConverter._generate_body py_repr scenario_structure
            scenario_styles = Ok body
       /\ contains "<title>T</title>" head = true
       /\ contains (".box {" ++ newline ++ "      color: red;" ++ newline
                    ++ "    }") head = true
       /\ contains ".box { color: red; }" (sub_ws_runs false head) = true
       /\ contains ("<div " ++ HTMLConverter.attr "class" "box" ++ ">Hi</div>")
            body = true
       /\ contains "<title>T</title>"
            (HTMLConverter._generate_document
               (HTMLConverter.default_options optimize minify) head body)
          = true
       /\ contains ".box { color: red; }"
            (sub_ws_runs false
               (HTMLConverter._generate_document
                  (HTMLConverter.default_options optimize minify) head body))
          = true
       /\ contains ("<div " ++ HTMLConverter.attr "class" "box" ++ ">Hi</div>")
            (HTMLConverter._generate_document
               (HTMLConverter.default_options optimize minify) head body)
          = true.
Proof.
  intros H1 H2. split.
  - assert (V1 : ManifestProcessor._validate_manifest schema_violation false
                   scenario_manifest = Ok tt).
    { unfold ManifestProcessor._validate_manifest, ManifestValidator.validate.
      rewrite H1. reflexivity. }
    assert (V2 : ManifestProcessor._validate_manifest schema_violation false
                   scenario_processed = Ok tt).
    { unfold ManifestProcessor._validate_manifest, ManifestValidator.validate.
      rewrite H2. reflexivity. }
    assert (S1 : StyleProcessor.process_styles scenario_manifest
                 = Ok scenario_processed) by reflexivity.
    assert (I1 : snd (ManifestProcessor._process_inheritance load_manifest describe
                        (S depth) scenario_manifest) = Ok scenario_manifest)
      by reflexivity.
    unfold ManifestProcessor.process_manifest.
    rewrite V1, I1. cbn [bind truthy]. rewrite S1. cbn [bind].
    rewrite V2. reflexivity.
  - eexists. eexists.
    split; [vm_compute; reflexivity|].
    split; [vm_compute; reflexivity|].
    repeat split; vm_compute; reflexivity.
Qed.

Lemma C5_scenario_document_witness :
  ManifestProcessor.process_manifest
    (fun _ => Err (LoaderError "no ancestors")) (fun _ => Ok "")
    (fun _ => None)
    (fun _ _ => Err (JinjaError "no templates"))
    false 1 scenario_manifest [] true = Ok scenario_processed
  /\ exists head body,
       HTMLConverter._generate_head
         (HTMLConverter.default_options true false)
         scenario_metadata scenario_styles [] = Ok head
       /\ HTMLConverter._generate_body (fun _ => Ok "") scenario_structure
            scenario_styles = Ok body
       /\ contains "<title>T</title>" head = true
       /\ contains (".box {" ++ newline ++ "      color: red;" ++ newline
                    ++ "    }") head = true
       /\ contains ".box { color: red; }" (sub_ws_runs false head) = true
       /\ contains ("<div " ++ HTMLConverter.attr "class" "box" ++ ">Hi</div>")
            body = true
       /\ contains "<title>T</title>"
            (HTMLConverter._generate_document
               (HTMLConverter.default_options true false) head body)
          = true
       /\ contains ".box { color: red; }"
            (sub_ws_runs false
               (HTMLConverter._generate_document
                  (HTMLConverter.default_options true false) head body))
          = true
       /\ contains ("<div " ++ HTMLConverter.attr "class" "box" ++ ">Hi</div>")
            (HTMLConverter._generate_document
               (HTMLConverter.default_options true false) head body)
          = true.
Proof.
  apply (C5_scenario_document (fun _ => Ok "")
           (fun _ => Err (LoaderError "no ancestors")) (fun _ => Ok "")
           (fun _ => None)
           (fun _ _ => Err (JinjaError "no templates")) 0 true false);
    reflexivity.
Defined.

(** ** Void elements *)

(** C6: the converter never writes a void element ([img], [br], [hr],
    [input], [meta], [link]) as its start tag alone.  The branch that
    would do so is taken only for a node without content, and a node whose
    tag is a void element always has content, because the key that names
    the tag adds its value to the content.  So the element is written with
    what it carries and with an end tag: a text given to it stands between
    the two tags, and an image that carries a text keeps it, inside a
    child element. *)
Theorem C6_void_element_gets_end_tag
  (py_repr : value -> result string) (styles : dict) (indent : nat) :
  (forall (element : dict) (st : HTMLConverter.element_state) (tag : string),
     HTMLConverter.collect_items py_repr
       (HTMLConverter._convert_structure_to_html py_repr styles) styles
       indent element HTMLConverter.empty_state = Ok st ->
     HTMLConverter.resolve_tag element (HTMLConverter.tag_name st) = Ok tag ->
     HTMLConverter.member tag HTMLConverter.void_elements = true ->
     HTMLConverter.collected st <> []
     /\ forall html,
          HTMLConverter._convert_element_to_html py_repr element styles indent
          = Ok html ->
          exists attr_str inner,
            HTMLConverter._format_attributes py_repr
              (HTMLConverter.attributes st) = Ok attr_str
            /\ html = HTMLConverter.render_element indent tag attr_str
                        (HTMLConverter.collected st)
            /\ html = (HTMLConverter.indent_str indent ++ "<" ++ tag
                       ++ attr_str ++ ">")
                      ++ inner ++ "</" ++ tag ++ ">")
  /\ (forall tag text : string,
        HTMLConverter.member tag HTMLConverter.void_elements = true ->
        contains newline (escape text) = false ->
        HTMLConverter._convert_element_to_html py_repr [(tag, VStr text)]
          styles indent
        = Ok (HTMLConverter.indent_str indent ++ "<" ++ tag ++ ">"
              ++ escape text ++ "</" ++ tag ++ ">"))
  /\ HTMLConverter._convert_element_to_html py_repr image_with_text styles 0
     = Ok ("<img>  <div " ++ HTMLConverter.attr "src" "a.png"
           ++ ">oops</div></img>").
Proof.
  split; [|split].
  - intros element st tag Hloop Htag Hvoid.
    pose proof (void_tag_has_content py_repr _ styles indent element st tag
                  Hloop Htag Hvoid) as Hne.
    split; [exact Hne|]. intros html.
    unfold HTMLConverter._convert_element_to_html,
      HTMLConverter.convert_element.
    rewrite Hloop. cbn [bind]. rewrite Htag. cbn [bind].
    destruct (HTMLConverter._format_attributes py_repr
                (HTMLConverter.attributes st)) as [attr_str|];
      [|discriminate].
    cbn [bind]. intros [= <-].
    destruct (render_element_closed indent tag attr_str
                (HTMLConverter.collected st) Hne) as [inner Hr].
    exists attr_str, inner. repeat split. exact Hr.
  - intros tag text Hvoid Hline.
    assert (Hkey : tag = "img" \/ tag = "br" \/ tag = "hr" \/ tag = "input"
                   \/ tag = "meta" \/ tag = "link").
    { unfold HTMLConverter.member, HTMLConverter.void_elements in Hvoid.
      simpl in Hvoid.
      repeat (apply orb_true_iff in Hvoid as [Hvoid|Hvoid];
              [apply String.eqb_eq in Hvoid; tauto|]).
      discriminate. }
    assert (Hbranch :
      HTMLConverter.member tag ["text"; "content"] = false
      /\ String.eqb tag "children" = false
      /\ String.eqb tag "style" = false
      /\ HTMLConverter.member tag HTMLConverter.attribute_keys = false
      /\ HTMLConverter._is_html_element tag = true).
    { destruct Hkey as [-> | [-> | [-> | [-> | [-> | ->]]]]];
        repeat split; reflexivity. }
    destruct Hbranch as (H1 & H2 & H3 & H4 & H5).
    unfold HTMLConverter._convert_element_to_html,
      HTMLConverter.convert_element.
    cbn [HTMLConverter.collect_items]. unfold HTMLConverter.convert_item.
    rewrite H1, H2, H3, H4, H5.
    cbn [bind HTMLConverter.py_str HTMLConverter.collect_items
         HTMLConverter.tag_name HTMLConverter.attributes
         HTMLConverter.collected HTMLConverter.add_content
         HTMLConverter.set_tag HTMLConverter.empty_state
         HTMLConverter.resolve_tag HTMLConverter._format_attributes app].
    unfold HTMLConverter.render_element. rewrite Hline. cbn [negb].
    rewrite !string_app_assoc. reflexivity.
  - reflexivity.
Qed.

(** ** Nodes without an element name *)

(** C7: a node with no key that names an element gets the tag [div] as
    long as it has a key at all; the empty mapping has no first key, and
    its conversion raises [StopIteration], which [convert] turns into a
    [ConversionError]. *)
Theorem C7_empty_mapping_node_fails
  (py_repr : value -> result string) (styles : dict) :
  (forall key v rest,
     HTMLConverter._is_html_element key = false ->
     HTMLConverter.resolve_tag ((key, v) :: rest) None = Ok "div")
  /\ HTMLConverter.resolve_tag [] None = Err StopIteration
  /\ HTMLConverter._convert_element_to_html py_repr [("div", VDict [])]
       styles 1 = Err StopIteration
  /\ HTMLConverter._generate_body py_repr (VDict [("div", VDict [])]) styles
     = Err StopIteration
  /\ HTMLConverter.convert py_repr
       (HTMLConverter.default_options false false)
       (extract_section "metadata") (extract_section "styles")
       (extract_section "imports")
       (fun code => Ok code) (fun code _ => Ok code)
       (fun _ _ => Ok "page.html") (fun _ => Ok [])
       (VDict [("metadata", VDict [("title", VStr "T")]);
               ("structure", VDict [("div", VDict [])])])
       VNone
     = Err (ConversionError "HTML conversion" StopIteration).
Proof.
  split.
  { intros key v rest H. simpl. rewrite H. reflexivity. }
  repeat split; reflexivity.
Qed.

(** ** The [style] key *)

(** C8: a [style] value that names a style becomes a [class] attribute
    with the kebab-case name; any other string becomes the [style]
    attribute as it is, and the attribute is written without escaping,
    while the attributes [class], [id], [src], [href], [alt] and [title]
    are escaped: a double quote in an inline style ends the attribute. *)
Theorem C8_inline_style_not_escaped (py_repr : value -> result string) :
  (forall styles st name,
     has_key styles name = true ->
     HTMLConverter.style_item styles st (VStr name)
     = Ok (HTMLConverter.set_attribute st "class"
             (VStr (lstrip_char "."
                      (HTMLConverter._format_css_selector name)))))
  /\ (forall styles st raw,
        has_key styles raw = false ->
        HTMLConverter.style_item styles st (VStr raw)
        = Ok (HTMLConverter.set_attribute st "style" (VStr raw)))
  /\ HTMLConverter._convert_element_to_html py_repr
       [("text", VStr "Hi"); ("style", VStr quoted_font)] [] 0
     = Ok ("<div " ++ HTMLConverter.attr "style" quoted_font ++ ">Hi</div>")
  /\ HTMLConverter._convert_element_to_html py_repr
       [("text", VStr "Hi"); ("title", VStr quoted_font)] [] 0
     = Ok ("<div " ++ HTMLConverter.attr "title" (escape quoted_font)
           ++ ">Hi</div>")
  /\ escape quoted_font = "font-family: &quot;Arial&quot;"
  /\ escape quoted_font <> quoted_font.
Proof.
  split.
  { intros styles st name H. unfold HTMLConverter.style_item. simpl.
    rewrite H. reflexivity. }
  split.
  { intros styles st raw H. unfold HTMLConverter.style_item. simpl.
    rewrite H. reflexivity. }
  repeat split; try reflexivity. discriminate.
Qed.

(** ** Exceptions of [convert] *)

Section ConvertFacts.

Import HTMLConverter.

Lemma generate_css_list_fails (styles : dict) (name : string)
  (first : value) (rest : list value) :
  In (name, VList (first :: rest)) styles ->
  exists e, _generate_css styles = Err e.
Proof.
  induction styles as [|[selector rules] more IH]; intros Hin; [destruct Hin|].
  simpl. destruct Hin as [[= -> ->]|Hin].
  - exists AttributeError. reflexivity.
  - destruct (_format_css_rules rules); simpl; [|eauto].
    destruct (IH Hin) as [e ->]. simpl. eauto.
Qed.

Lemma generate_head_list_fails (self : options) (metadata styles imports : dict)
  (name : string) (first : value) (rest : list value) :
  In (name, VList (first :: rest)) styles ->
  exists e, _generate_head self metadata styles imports = Err e.
Proof.
  intros Hin. destruct (generate_css_list_fails _ _ _ _ Hin) as [e He].
  unfold _generate_head.
  destruct (if include_meta_tags self then _ else _); simpl; [|eauto].
  destruct (escape_value _); simpl; [|eauto].
  destruct (iterate (get imports "styles" _)); simpl; [|eauto].
  destruct (mapM _ _); simpl; [|eauto].
  destruct (iterate (get imports "fonts" _)); simpl; [|eauto].
  destruct (mapM _ _); simpl; [|eauto].
  destruct styles; [destruct Hin|].
  cbn [truthy]. rewrite He. simpl. eauto.
Qed.

End ConvertFacts.

(** C3: whatever is raised inside [convert] leaves it as a
    [ConversionError]: [convert] returns a result or raises a
    [ConversionError] that carries the exception caught; in particular a
    style whose value is a non-empty list, which [_format_css_rules]
    cannot split, makes [convert] raise a [ConversionError]. *)
Theorem C3_convert_raises_only_conversion_error
  (py_repr : value -> result string) (self : HTMLConverter.options)
  (extract_metadata extract_styles extract_imports : value -> result dict)
  (base_optimize_code : string -> result string)
  (add_header_comment : string -> value -> result string)
  (generate_filename : value -> value -> result string)
  (walk : value -> result (list value))
  (manifest filename_option : value) :
  (forall e,
     HTMLConverter.convert py_repr self extract_metadata extract_styles
       extract_imports base_optimize_code add_header_comment
       generate_filename walk manifest filename_option = Err e ->
     exists cause, e = ConversionError "HTML conversion" cause)
  /\ (forall styles name first rest,
        extract_styles manifest = Ok styles ->
        In (name, VList (first :: rest)) styles ->
        exists cause,
          HTMLConverter.convert py_repr self extract_metadata extract_styles
            extract_imports base_optimize_code add_header_comment
            generate_filename walk manifest filename_option
          = Err (ConversionError "HTML conversion" cause)).
Proof.
  split.
  - intros e. unfold HTMLConverter.convert, try_except.
    destruct (HTMLConverter.convert_body _ _ _ _ _ _ _ _ _ _ _);
      [discriminate|].
    intros [= <-]. eexists. reflexivity.
  - intros styles name first rest Hstyles Hin.
    unfold HTMLConverter.convert, HTMLConverter.convert_body.
    destruct (extract_metadata manifest) as [metadata|];
      [|eexists; reflexivity].
    cbn [bind]. rewrite Hstyles. cbn [bind].
    destruct (extract_imports manifest) as [imports|];
      [|eexists; reflexivity].
    cbn [bind].
    destruct (method_get manifest "structure" (VDict []));
      [|eexists; reflexivity].
    cbn [bind].
    destruct (generate_head_list_fails self metadata styles imports
                name first rest Hin) as [e ->].
    eexists. reflexivity.
Qed.

Lemma C3_convert_raises_only_conversion_error_witness :
  exists cause,
    HTMLConverter.convert (fun _ => Ok "")
      (HTMLConverter.default_options false false)
      (extract_section "metadata") (extract_section "styles")
      (extract_section "imports")
      (fun code => Ok code) (fun code _ => Ok code)
      (fun _ _ => Ok "page.html") (fun _ => Ok [])
      manifest_list_style VNone
    = Err (ConversionError "HTML conversion" cause).
Proof.
  apply (proj2 (C3_convert_raises_only_conversion_error (fun _ => Ok "")
                  (HTMLConverter.default_options false false)
                  (extract_section "metadata") (extract_section "styles")
                  (extract_section "imports")
                  (fun code => Ok code) (fun code _ => Ok code)
                  (fun _ _ => Ok "page.html") (fun _ => Ok [])
                  manifest_list_style VNone)
           [("external", VList [VStr "a.css"; VStr "b.css"])]
           "external" (VStr "a.css") [VStr "b.css"]).
  - reflexivity.
  - left. reflexivity.
Defined.

(* ================================================================== *)
(** * Further properties *)
(* ================================================================== *)

(** ** Characters *)

Section Characters.

Lemma lower_char_idempotent (c : ascii) : lower_char (lower_char c) = lower_char c.
Proof. destruct c as [[] [] [] [] [] [] [] []]; reflexivity. Qed.

Lemma lower_char_not_capital (c : ascii) : is_ascii_upper (lower_char c) = false.
Proof. destruct c as [[] [] [] [] [] [] [] []]; reflexivity. Qed.

Lemma lower_char_dot (c : ascii) :
  Ascii.eqb (lower_char c) "." = Ascii.eqb c ".".
Proof. destruct c as [[] [] [] [] [] [] [] []]; reflexivity. Qed.

Lemma lower_char_hash (c : ascii) :
  Ascii.eqb (lower_char c) "#" = Ascii.eqb c "#".
Proof. destruct c as [[] [] [] [] [] [] [] []]; reflexivity. Qed.

Lemma escape_char_no_markup (c : ascii) : no_markup (escape_char c) = true.
Proof. destruct c as [[] [] [] [] [] [] [] []]; reflexivity. Qed.

Lemma no_markup_app (a b : string) :
  no_markup (a ++ b) = no_markup a && no_markup b.
Proof.
  induction a as [|c a IH]; simpl; [reflexivity|].
  rewrite IH. apply andb_assoc.
Qed.

Lemma escape_no_markup (s : string) : no_markup (escape s) = true.
Proof.
  induction s as [|c s IH]; simpl; [reflexivity|].
  rewrite no_markup_app, escape_char_no_markup, IH. reflexivity.
Qed.

Lemma lower_idempotent (s : string) : lower (lower s) = lower s.
Proof.
  induction s as [|c s IH]; simpl; [reflexivity|].
  rewrite lower_char_idempotent, IH. reflexivity.
Qed.

Lemma lower_no_capital (s : string) : no_capital (lower s) = true.
Proof.
  induction s as [|c s IH]; simpl; [reflexivity|].
  rewrite lower_char_not_capital, IH. reflexivity.
Qed.

Lemma camel_to_kebab_no_capital (s : string) :
  no_capital s = true -> HTMLConverter.camel_to_kebab s = s.
Proof.
  induction s as [|c s IH]; [reflexivity|].
  intros H. simpl in H. apply andb_true_iff in H as [Hc Hs].
  simpl. destruct s as [|d s']; [reflexivity|].
  assert (Hd : is_ascii_upper d = false).
  { simpl in Hs. apply andb_true_iff in Hs as [Hd _].
    now apply negb_true_iff in Hd. }
  rewrite Hd, andb_false_r. rewrite (IH Hs). reflexivity.
Qed.

End Characters.

(** ** Escaped text and attributes *)

(** X1: a string leaf of the structure, and a string under the key [text]
    or [content], reaches the page without any of the characters [<], [>],
    double quote and single quote. *)
Theorem X1_text_is_escaped
  (py_repr : value -> result string) (styles : dict) (s : string) (indent : nat) :
  (exists html,
     HTMLConverter._convert_structure_to_html py_repr styles (VStr s) indent
     = Ok html /\ no_markup html = true)
  /\ (exists text,
        HTMLConverter.text_content py_repr (VStr s) = Ok text
        /\ no_markup text = true).
Proof.
  split; exists (escape s); (split; [reflexivity|apply escape_no_markup]).
Qed.

(** X2: for a key among [class], [id], [src], [href], [alt] and [title]
    the loop prints the value with [str]: when that returns a text, the
    attribute stored under the key is the escaped text, a string without
    [<], [>] and quotes, which cannot end the attribute it is written
    into; when it raises (for an integer of more than 4300 digits, or a
    list or dictionary that holds one), the loop raises the same error
    and stores nothing. *)
Theorem X2_attributes_are_escaped
  (py_repr : value -> result string) (convert : value -> nat -> result string)
  (styles : dict) (indent : nat) (st : HTMLConverter.element_state)
  (key : string) (v : value) :
  HTMLConverter.member key HTMLConverter.attribute_keys = true ->
  match HTMLConverter.py_str py_repr v with
  | Ok printed =>
      HTMLConverter.convert_item py_repr convert styles indent st key v
      = Ok (HTMLConverter.set_attribute st key (VStr (escape printed)))
      /\ no_markup (escape printed) = true
      /\ lookup (HTMLConverter.attributes
                   (HTMLConverter.set_attribute st key
                      (VStr (escape printed)))) key
         = Some (VStr (escape printed))
  | Err e =>
      HTMLConverter.convert_item py_repr convert styles indent st key v
      = Err e
  end.
Proof.
  intros Hkey.
  assert (H : key = "class" \/ key = "id" \/ key = "src" \/ key = "href"
              \/ key = "alt" \/ key = "title").
  { unfold HTMLConverter.member, HTMLConverter.attribute_keys in Hkey.
    simpl in Hkey.
    repeat (apply orb_true_iff in Hkey as [Hkey|Hkey];
            [apply String.eqb_eq in Hkey; tauto|]).
    discriminate. }
  assert (Hstep :
    HTMLConverter.convert_item py_repr convert styles indent st key v
    = (text <- HTMLConverter.py_str py_repr v ;;
       Ok (HTMLConverter.set_attribute st key (VStr (escape text))))).
  { destruct H as [-> | [-> | [-> | [-> | [-> | ->]]]]]; reflexivity. }
  rewrite Hstep.
  destruct (HTMLConverter.py_str py_repr v) as [printed|e]; [|reflexivity].
  split; [reflexivity|split; [apply escape_no_markup|apply lookup_set_same]].
Qed.

Lemma X2_attributes_are_escaped_witness :
  HTMLConverter.convert_item (fun _ => Ok "") (fun _ _ => Err TypeError) [] 0
    HTMLConverter.empty_state "title" (VStr quoted_font)
  = Ok (HTMLConverter.set_attribute HTMLConverter.empty_state "title"
          (VStr (escape quoted_font)))
  /\ no_markup (escape quoted_font) = true
  /\ lookup (HTMLConverter.attributes
               (HTMLConverter.set_attribute HTMLConverter.empty_state
                  "title" (VStr (escape quoted_font)))) "title"
     = Some (VStr (escape quoted_font)).
Proof.
  exact (X2_attributes_are_escaped (fun _ => Ok "") (fun _ _ => Err TypeError)
           [] 0 HTMLConverter.empty_state "title" (VStr quoted_font)
           eq_refl).
Defined.

(** ** Selectors *)

Section Selectors.

Import HTMLConverter.

Lemma selector_shape (selector : string) :
  exists kebab,
    kebab = lower (camel_to_kebab selector)
    /\ no_capital kebab = true
    /\ (_format_css_selector selector = kebab
        \/ _format_css_selector selector = "." ++ kebab)
    /\ (startswith_char "." (_format_css_selector selector) = true
        \/ startswith_char "#" (_format_css_selector selector) = true).
Proof.
  exists (lower (camel_to_kebab selector)).
  split; [reflexivity|]. split; [apply lower_no_capital|].
  unfold _format_css_selector.
  destruct (startswith_char "." (lower (camel_to_kebab selector))) eqn:Ed;
    simpl; [tauto|].
  destruct (startswith_char "#" (lower (camel_to_kebab selector))) eqn:Eh;
    simpl; tauto.
Qed.

Lemma kebab_first (c : ascii) (r : string) :
  exists rest, lower (camel_to_kebab (String c r)) = String (lower_char c) rest.
Proof.
  simpl. destruct r as [|d r']; [eexists; reflexivity|].
  destruct ((is_ascii_lower c || is_ascii_digit c) && is_ascii_upper d);
    eexists; reflexivity.
Qed.

End Selectors.

(** X3: formatting a selector always gives a name that starts with [.] or
    [#] and has no ASCII capital, and formatting it again changes
    nothing. *)
Theorem X3_selector_formatting_idempotent (selector : string) :
  (startswith_char "." (HTMLConverter._format_css_selector selector) = true
   \/ startswith_char "#" (HTMLConverter._format_css_selector selector) = true)
  /\ no_capital (HTMLConverter._format_css_selector selector) = true
  /\ HTMLConverter._format_css_selector
       (HTMLConverter._format_css_selector selector)
     = HTMLConverter._format_css_selector selector.
Proof.
  destruct (selector_shape selector) as (kebab & Hk & Hcap & Hform & Hstart).
  assert (Hkl : lower kebab = kebab)
    by (rewrite Hk; apply lower_idempotent).
  set (once := HTMLConverter._format_css_selector selector) in *.
  assert (Hcap' : no_capital once = true).
  { destruct Hform as [-> | ->]; [exact Hcap|]. simpl. exact Hcap. }
  assert (Hlow : lower once = once).
  { destruct Hform as [-> | ->]; [exact Hkl|]. simpl. now rewrite Hkl. }
  split; [exact Hstart|]. split; [exact Hcap'|].
  unfold HTMLConverter._format_css_selector.
  rewrite (camel_to_kebab_no_capital once Hcap'), Hlow.
  destruct Hstart as [-> | H]; [reflexivity|].
  rewrite H. rewrite andb_false_r. reflexivity.
Qed.

(** The class written for a style name is its selector without the dot. *)
Lemma selector_of_class (name : string) :
  startswith_char "." name = false ->
  startswith_char "#" name = false ->
  HTMLConverter._format_css_selector name
  = "." ++ lstrip_char "." (HTMLConverter._format_css_selector name).
Proof.
  intros Hdot Hhash. destruct name as [|c r].
  - reflexivity.
  - destruct (kebab_first c r) as [rest Hk].
    unfold HTMLConverter._format_css_selector. rewrite Hk.
    simpl in Hdot, Hhash. simpl.
    rewrite lower_char_dot, lower_char_hash, Hdot, Hhash. simpl.
    rewrite lower_char_dot, Hdot. reflexivity.
Qed.

(** ** Style sheets *)

Section StyleSheets.

Import HTMLConverter.

Lemma format_css_rules_readable (rules : value) :
  (exists lines, _format_css_rules rules = Ok lines)
  <-> readable_rules rules = true.
Proof.
  unfold _format_css_rules, readable_rules.
  destruct rules as [|b|z|s|l|d]; simpl;
    [|destruct b|destruct (z =? 0)%Z|destruct (nonempty s)|destruct l
     |destruct d];
    simpl;
    (split;
     [intros [lines H]; first [discriminate|reflexivity]
     |intros H; first [discriminate|eauto]]).
Qed.

Lemma append_empty (s : string) : s ++ "" = s.
Proof. induction s as [|c s IH]; simpl; [reflexivity|now rewrite IH]. Qed.

(** A piece without semicolon is read into the current piece. *)
Lemma split_acc_plain (cur a rest : string) :
  no_semicolon a = true ->
  split_acc ";" cur (a ++ rest) = split_acc ";" (cur ++ a) rest.
Proof.
  intros Ha. revert cur. induction a as [|c a IH]; intros cur; simpl.
  - now rewrite append_empty.
  - simpl in Ha. apply andb_true_iff in Ha as [Hc Ha].
    unfold Regex.is_char in Hc. apply negb_true_iff in Hc. rewrite Hc.
    rewrite (IH Ha). f_equal.
    rewrite string_app_assoc. reflexivity.
Qed.

(** What was read before the split goes in front of the first piece. *)
Lemma split_acc_cur (cur s : string) :
  split_acc ";" cur s
  = match split_acc ";" "" s with
    | p :: ps => (cur ++ p) :: ps
    | [] => []
    end.
Proof.
  revert cur. induction s as [|c s IH]; intros cur; simpl.
  - now rewrite append_empty.
  - destruct (Ascii.eqb c ";").
    + now rewrite append_empty.
    + rewrite (IH (cur ++ String c "")), (IH (String c "")).
      destruct (split_acc ";" "" s); [reflexivity|].
      now rewrite string_app_assoc.
Qed.

Lemma endswith_no_semicolon (s : string) :
  no_semicolon s = true -> endswith_char ";" s = false.
Proof.
  induction s as [|c s IH]; [reflexivity|].
  simpl. intros H. apply andb_true_iff in H as [Hc Hs].
  unfold Regex.is_char in Hc. apply negb_true_iff in Hc.
  destruct s; [exact Hc|apply IH, Hs].
Qed.

Lemma plain_address_no_semicolon (u : string) :
  plain_address u = true -> no_semicolon u = true.
Proof.
  unfold plain_address. intros H.
  apply andb_true_iff in H as [H _]. apply andb_true_iff in H as [H _].
  apply andb_true_iff in H as [_ H]. exact H.
Qed.

(** The pieces of the joined addresses: the first as it is, the others
    behind one space. *)
Lemma split_joined (u : string) (rest : list string) :
  forallb plain_address (u :: rest) = true ->
  split ";" (join "; " (u :: rest)) = u :: map (fun v => " " ++ v) rest.
Proof.
  revert u. induction rest as [|v rest IH]; intros u H.
  - simpl in H. rewrite andb_true_r in H.
    apply plain_address_no_semicolon in H.
    simpl. unfold split. rewrite <- (append_empty u) at 1.
    rewrite split_acc_plain by exact H. reflexivity.
  - change (forallb plain_address (u :: v :: rest))
      with (plain_address u && forallb plain_address (v :: rest)) in H.
    apply andb_true_iff in H as [Hu Hrest].
    specialize (IH v Hrest). unfold split in IH.
    apply plain_address_no_semicolon in Hu.
    rewrite join_cons by discriminate.
    unfold split. rewrite split_acc_plain by exact Hu.
    change ("; " ++ join "; " (v :: rest))
      with (String ";" (String " " (join "; " (v :: rest)))).
    cbn [split_acc Ascii.eqb Bool.eqb]. cbn [append].
    f_equal. rewrite split_acc_cur, IH. reflexivity.
Qed.

Lemma strip_spaced (v : string) :
  plain_address v = true -> strip (" " ++ v) = v /\ strip v = v.
Proof.
  unfold plain_address. intros H.
  apply andb_true_iff in H as [H He]. apply andb_true_iff in H as [H Hs].
  apply negb_true_iff in He, Hs.
  split; [|apply strip_fixed; assumption].
  unfold strip. simpl. rewrite (lstrip_fixed v Hs). apply rstrip_fixed, He.
Qed.

End StyleSheets.

(** X5: [_generate_css] returns its lines exactly when every value of the
    style map is a string or counts as false (an empty list, [None], zero);
    any other value makes it raise. *)
Theorem X5_generate_css_succeeds_iff (styles : dict) :
  (exists lines, HTMLConverter._generate_css styles = Ok lines)
  <-> forallb (fun kv => readable_rules (snd kv)) styles = true.
Proof.
  induction styles as [|[selector rules] rest IH]; simpl.
  - split; eauto.
  - rewrite andb_true_iff, <- IH, <- format_css_rules_readable.
    split.
    + intros [lines H].
      destruct (HTMLConverter._format_css_rules rules); [|discriminate].
      simpl in H.
      destruct (HTMLConverter._generate_css rest); [|discriminate].
      eauto.
    + intros [[l1 ->] [l2 ->]]. simpl. eauto.
Qed.

Lemma X5_generate_css_succeeds_iff_witness :
  exists lines,
    HTMLConverter._generate_css
      [("card", VStr "color: red"); ("spare", VList [])] = Ok lines.
Proof.
  apply (proj2 (X5_generate_css_succeeds_iff
                  [("card", VStr "color: red"); ("spare", VList [])])).
  reflexivity.
Defined.

(** X6: the addresses of external stylesheets that the generator joins
    with [; ] are read back by [_format_css_rules] one per rule, each with
    a semicolon at its end, provided no address is empty, holds a
    semicolon, or has whitespace at either end. *)
Theorem X6_joined_addresses_read_back (external_urls : list string) :
  forallb plain_address external_urls = true ->
  HTMLConverter._format_css_rules
    (VStr (SimpleManifestGenerator.external_styles external_urls))
  = Ok (map (fun u => u ++ ";") external_urls).
Proof.
  unfold SimpleManifestGenerator.external_styles.
  destruct external_urls as [|u rest]; [reflexivity|].
  intros H. pose proof (split_joined u rest H) as Hsplit.
  unfold HTMLConverter._format_css_rules.
  assert (Ht : truthy (VStr (join "; " (u :: rest))) = true).
  { simpl in H. apply andb_true_iff in H as [Hu _].
    unfold plain_address in Hu.
    apply andb_true_iff in Hu as [Hu _]. apply andb_true_iff in Hu as [Hu _].
    apply andb_true_iff in Hu as [Hn _].
    destruct u; [discriminate|].
    destruct rest; reflexivity. }
  rewrite Ht. cbn [negb]. rewrite Hsplit. f_equal.
  change (forallb plain_address (u :: rest))
    with (plain_address u && forallb plain_address rest) in H.
  apply andb_true_iff in H as [Hu Hrest].
  match goal with |- flat_map ?f _ = _ => set (F := f) end.
  assert (piece : forall p v, plain_address v = true -> strip p = v ->
                              F p = [v ++ ";"]).
  { intros p v Hv Hp. subst F. cbv beta zeta. rewrite Hp.
    unfold plain_address in Hv.
    apply andb_true_iff in Hv as [Hv _]. apply andb_true_iff in Hv as [Hv _].
    apply andb_true_iff in Hv as [Hn Hs].
    rewrite Hn, (endswith_no_semicolon v Hs). reflexivity. }
  cbn [flat_map map].
  rewrite (piece u u Hu (proj2 (strip_spaced u Hu))).
  cbn [app]. f_equal. clear Hsplit Ht.
  induction rest as [|v rest IH]; [reflexivity|].
  simpl in Hrest. apply andb_true_iff in Hrest as [Hv Hrest].
  cbn [flat_map map].
  rewrite (piece (" " ++ v) v Hv (proj1 (strip_spaced v Hv))).
  cbn [app]. f_equal. apply IH, Hrest.
Qed.

Lemma X6_joined_addresses_read_back_witness :
  HTMLConverter._format_css_rules
    (VStr (SimpleManifestGenerator.external_styles
             ["https://example.com/a.css"; "https://example.com/b.css"]))
  = Ok (map (fun u => u ++ ";")
          ["https://example.com/a.css"; "https://example.com/b.css"]).
Proof.
  apply (X6_joined_addresses_read_back
           ["https://example.com/a.css"; "https://example.com/b.css"]).
  reflexivity.
Defined.

(** ** Dictionaries, continued *)

Section MoreDictionaries.

Lemma lookup_set_other (d : dict) (k k' : string) (v : value) :
  k <> k' -> lookup (set d k v) k' = lookup d k'.
Proof.
  intros Hne. induction d as [|[k0 v0] r IH]; simpl.
  - destruct (String.eqb k k') eqn:E; [apply String.eqb_eq in E; congruence|].
    reflexivity.
  - destruct (String.eqb k0 k) eqn:E; simpl.
    + apply String.eqb_eq in E. subst k0.
      destruct (String.eqb k k') eqn:E'; [apply String.eqb_eq in E'; congruence|].
      reflexivity.
    + destruct (String.eqb k0 k'); [reflexivity|exact IH].
Qed.

Lemma lookup_absent (d : dict) (k : string) :
  ~ In k (map fst d) -> lookup d k = None.
Proof.
  induction d as [|[k0 v0] r IH]; simpl; [reflexivity|].
  intros H. destruct (String.eqb k0 k) eqn:E.
  - apply String.eqb_eq in E. tauto.
  - apply IH. tauto.
Qed.

Lemma lookup_present (d : dict) (k : string) (v : value) :
  lookup d k = Some v -> In k (map fst d).
Proof.
  induction d as [|[k0 v0] r IH]; simpl; [discriminate|].
  destruct (String.eqb k0 k) eqn:E.
  - apply String.eqb_eq in E. tauto.
  - intros H. right. apply IH, H.
Qed.

Lemma keys_set (d : dict) (k : string) (v : value) :
  map fst (set d k v)
  = if has_key d k then map fst d else (map fst d +++ [k]).
Proof.
  unfold has_key. induction d as [|[k0 v0] r IH]; simpl; [reflexivity|].
  destruct (String.eqb k0 k) eqn:E; simpl; [reflexivity|].
  rewrite IH. destruct (lookup r k); reflexivity.
Qed.

Lemma distinct_keys_set (d : dict) (k : string) (v : value) :
  distinct_keys d -> distinct_keys (set d k v).
Proof.
  unfold distinct_keys. intros H. rewrite keys_set. unfold has_key.
  destruct (lookup d k) eqn:E; [exact H|].
  assert (Hk : ~ In k (map fst d)).
  { intros Hin. clear H. induction d as [|[k0 v0] r IH]; [destruct Hin|].
    simpl in E, Hin. destruct (String.eqb k0 k) eqn:E0; [discriminate|].
    destruct Hin as [->|Hin]; [rewrite String.eqb_refl in E0; discriminate|].
    apply IH; assumption. }
  clear E. induction (map fst d) as [|x l IH]; simpl.
  - constructor; [tauto|constructor].
  - inversion H as [|? ? Hx Hl]; subst. constructor.
    + rewrite in_app_iff. simpl. simpl in Hk. intuition.
    + apply IH; [exact Hl|]. simpl in Hk. tauto.
Qed.

(** [d.update(other)] followed by a lookup. *)
Lemma update_lookup (d other : dict) (k : string) :
  distinct_keys other ->
  lookup (update d other) k = overridden d other k.
Proof.
  unfold update, overridden, distinct_keys.
  revert d. induction other as [|[k0 v0] rest IH]; intros d H; [reflexivity|].
  simpl in H. inversion H as [|? ? Hk0 Hrest]; subst.
  simpl. rewrite (IH _ Hrest).
  destruct (String.eqb k0 k) eqn:E.
  - apply String.eqb_eq in E. subst k0.
    rewrite (lookup_absent rest k Hk0). apply lookup_set_same.
  - assert (k0 <> k) by (intros ->; rewrite String.eqb_refl in E; discriminate).
    rewrite lookup_set_other by assumption. reflexivity.
Qed.

End MoreDictionaries.

(** ** One attribute per name *)

Section Attributes.

Import HTMLConverter.

Variable py_repr : value -> result string.
Variable convert : value -> nat -> result string.
Variable styles : dict.
Variable indent : nat.

Lemma convert_children_attributes (l : list value) (st st' : element_state) :
  convert_children convert indent l st = Ok st' ->
  attributes st' = attributes st.
Proof.
  revert st. induction l as [|child more IH]; intros st; simpl.
  - now intros [= ->].
  - destruct (convert child (S indent)); [|discriminate]. simpl.
    intros H. apply IH in H. exact H.
Qed.

Lemma convert_item_distinct (st st' : element_state) (key : string) (v : value) :
  distinct_keys (attributes st) ->
  convert_item py_repr convert styles indent st key v = Ok st' ->
  distinct_keys (attributes st').
Proof.
  intros Hd. unfold convert_item.
  destruct (member key ["text"; "content"]).
  { returned. now intros [= <-]. }
  destruct (String.eqb key "children").
  { destruct v; try (intros H; apply convert_children_attributes in H;
                     now rewrite H);
      returned; now intros [= <-]. }
  destruct (String.eqb key "style").
  { unfold style_item. destruct (in_dict v styles) as [[|]|]; simpl;
      try discriminate; destruct v; intros [= <-];
      apply distinct_keys_set, Hd. }
  destruct (member key attribute_keys).
  { returned. intros [= <-]. apply distinct_keys_set, Hd. }
  destruct (_is_html_element key).
  { destruct v; returned; now intros [= <-]. }
  now intros [= <-].
Qed.

Lemma collect_items_distinct (d : dict) (st st' : element_state) :
  distinct_keys (attributes st) ->
  collect_items py_repr convert styles indent d st = Ok st' ->
  distinct_keys (attributes st').
Proof.
  revert st. induction d as [|[key v] rest IH]; intros st Hd; simpl.
  - now intros [= <-].
  - destruct (convert_item py_repr convert styles indent st key v) as [st1|]
      eqn:E; [|discriminate]. simpl.
    apply IH. eapply convert_item_distinct; eassumption.
Qed.

End Attributes.

(** X7: the attributes collected for an element have distinct names, so
    the start tag never repeats an attribute: when a named [style] and a
    [class] key meet in one node, the later one replaces the earlier. *)
Theorem X7_attributes_are_distinct
  (py_repr : value -> result string) (styles element : dict) (indent : nat)
  (st : HTMLConverter.element_state) :
  HTMLConverter.collect_items py_repr
    (HTMLConverter._convert_structure_to_html py_repr styles) styles indent
    element HTMLConverter.empty_state = Ok st ->
  distinct_keys (HTMLConverter.attributes st).
Proof.
  apply collect_items_distinct. constructor.
Qed.

Lemma X7_attributes_are_distinct_witness :
  distinct_keys
    (HTMLConverter.attributes
       {| HTMLConverter.tag_name := None;
          HTMLConverter.attributes := [("class", VStr "wide")];
          HTMLConverter.collected := ["Hi"] |}).
Proof.
  apply (X7_attributes_are_distinct (fun _ => Ok "")
           [("box", VStr "color: red;")]
           [("style", VStr "box"); ("text", VStr "Hi"); ("class", VStr "wide")]
           0).
  reflexivity.
Defined.

(** ** The class of a named style *)

Section NamedStyle.

Import HTMLConverter.

Variable py_repr : value -> result string.
Variable convert : value -> nat -> result string.
Variable styles : dict.
Variable indent : nat.

Lemma lookup_some_present (d : dict) (k : string) :
  In k (map fst d) -> lookup d k <> None.
Proof.
  induction d as [|[k0 v0] r IH]; simpl; [tauto|].
  destruct (String.eqb k0 k) eqn:E; [discriminate|].
  intros [H|H]; [|apply IH, H].
  subst k0. rewrite String.eqb_refl in E. discriminate.
Qed.

(** A key other than [style] and [class] leaves the class alone. *)
Lemma convert_item_class (st st' : element_state) (key : string) (v : value) :
  key <> "style" -> key <> "class" ->
  convert_item py_repr convert styles indent st key v = Ok st' ->
  lookup (attributes st') "class" = lookup (attributes st) "class".
Proof.
  intros Hstyle Hclass. unfold convert_item.
  apply String.eqb_neq in Hstyle. rewrite Hstyle.
  destruct (member key ["text"; "content"]).
  { returned. now intros [= <-]. }
  destruct (String.eqb key "children").
  { destruct v; try (intros H; apply convert_children_attributes in H;
                     now rewrite H);
      returned; now intros [= <-]. }
  destruct (member key attribute_keys).
  { returned. intros [= <-]. simpl. apply lookup_set_other, Hclass. }
  destruct (_is_html_element key).
  { destruct v; returned; now intros [= <-]. }
  now intros [= <-].
Qed.

Lemma collect_items_class (d : dict) (st st' : element_state) :
  ~ In "style" (map fst d) -> ~ In "class" (map fst d) ->
  collect_items py_repr convert styles indent d st = Ok st' ->
  lookup (attributes st') "class" = lookup (attributes st) "class".
Proof.
  revert st. induction d as [|[key v] rest IH]; intros st Hs Hc; simpl.
  - now intros [= <-].
  - simpl in Hs, Hc.
    destruct (convert_item py_repr convert styles indent st key v) as [st1|]
      eqn:E; [|discriminate].
    cbn [bind]. intros H.
    rewrite (IH st1 ltac:(tauto) ltac:(tauto) H).
    apply (convert_item_class _ _ key v); auto.
Qed.

Lemma collect_items_named_style (d : dict) (st st' : element_state)
  (name : string) :
  distinct_keys d ->
  lookup d "style" = Some (VStr name) ->
  lookup d "class" = None ->
  has_key styles name = true ->
  collect_items py_repr convert styles indent d st = Ok st' ->
  lookup (attributes st') "class"
  = Some (VStr (lstrip_char "." (_format_css_selector name))).
Proof.
  unfold distinct_keys. revert st.
  induction d as [|[key v] rest IH]; intros st Hd Hs Hc Hk; [discriminate|].
  simpl in Hd. inversion Hd as [|? ? Hkey Hrest]; subst.
  simpl in Hs, Hc. cbn [collect_items].
  destruct (String.eqb key "class") eqn:Eclass; [discriminate|].
  destruct (String.eqb key "style") eqn:Estyle.
  - apply String.eqb_eq in Estyle. subst key. injection Hs as ->.
    assert (Hstep :
      convert_item py_repr convert styles indent st "style" (VStr name)
      = Ok (set_attribute st "class"
              (VStr (lstrip_char "." (_format_css_selector name))))).
    { unfold convert_item, style_item. cbn [member existsb String.eqb
        Ascii.eqb Bool.eqb orb in_dict bind]. rewrite Hk. reflexivity. }
    rewrite Hstep. cbn [bind]. intros H.
    assert (Hnoclass : ~ In "class" (map fst rest)).
    { intros Hin. apply lookup_some_present in Hin. congruence. }
    rewrite (collect_items_class rest _ _ Hkey Hnoclass H). simpl.
    apply lookup_set_same.
  - destruct (convert_item py_repr convert styles indent st key v) as [st1|];
      [|discriminate].
    cbn [bind]. apply IH; auto.
Qed.

End NamedStyle.

(** X4: an element with a [style] key that names a style of the map, and
    without a [class] key, gets a [class] attribute, and for a name that
    starts with neither [.] nor [#] the text of that attribute is the
    selector that [_generate_css] writes for the name, without the
    leading dot. *)
Theorem X4_class_matches_selector
  (py_repr : value -> result string) (styles element : dict) (indent : nat)
  (st : HTMLConverter.element_state) (name : string) :
  HTMLConverter.collect_items py_repr
    (HTMLConverter._convert_structure_to_html py_repr styles) styles indent
    element HTMLConverter.empty_state = Ok st ->
  distinct_keys element ->
  lookup element "style" = Some (VStr name) ->
  lookup element "class" = None ->
  has_key styles name = true ->
  startswith_char "." name = false ->
  startswith_char "#" name = false ->
  exists css_class,
    lookup (HTMLConverter.attributes st) "class" = Some (VStr css_class)
    /\ HTMLConverter._format_css_selector name = "." ++ css_class.
Proof.
  intros Hloop Hd Hs Hc Hk Hdot Hhash.
  exists (lstrip_char "." (HTMLConverter._format_css_selector name)).
  split.
  - apply (collect_items_named_style py_repr _ styles indent element _ st
             name Hd Hs Hc Hk Hloop).
  - apply selector_of_class; assumption.
Qed.

Lemma X4_class_matches_selector_witness :
  exists css_class,
    lookup
      (HTMLConverter.attributes
         {| HTMLConverter.tag_name := None;
            HTMLConverter.attributes := [("class", VStr "main-header")];
            HTMLConverter.collected := ["Hi"] |}) "class"
    = Some (VStr css_class)
    /\ HTMLConverter._format_css_selector "mainHeader" = "." ++ css_class.
Proof.
  apply (X4_class_matches_selector (fun _ => Ok "")
           [("mainHeader", VStr "color: red;")]
           [("style", VStr "mainHeader"); ("text", VStr "Hi")] 0
           {| HTMLConverter.tag_name := None;
              HTMLConverter.attributes := [("class", VStr "main-header")];
              HTMLConverter.collected := ["Hi"] |} "mainHeader");
    try reflexivity.
  repeat constructor; simpl; intuition discriminate.
Defined.

(** ** Merging structures and sections *)

Section Merging.

Import TemplateProcessor.

(** The loop of [merge_element] over the items of the child. *)
Lemma merge_items_lookup (c p : dict) (k : string) :
  distinct_keys c ->
  lookup
    ((fix each (items : dict) (merged : dict) : dict :=
        match items with
        | [] => merged
        | (key, value) :: rest =>
            each rest
              (match lookup merged key, value with
               | Some (VDict _ as mine), VDict _ =>
                   set merged key (merge_element mine value)
               | _, _ => set merged key value
               end)
        end) c p) k
  = match lookup c k with
    | Some theirs => Some (merged_value (lookup p k) theirs)
    | None => lookup p k
    end.
Proof.
  unfold distinct_keys. revert p.
  induction c as [|[key value] rest IH]; intros p H; [reflexivity|].
  simpl in H. inversion H as [|? ? Hkey Hrest]; subst.
  cbn -[merge_element]. rewrite (IH _ Hrest).
  destruct (String.eqb key k) eqn:E.
  - apply String.eqb_eq in E. subst key.
    rewrite (lookup_absent rest k Hkey). unfold merged_value.
    destruct (lookup p k) as [[| | | | |m]|]; try apply lookup_set_same.
    destruct value; apply lookup_set_same.
  - assert (Hne : key <> k)
      by (intros ->; rewrite String.eqb_refl in E; discriminate).
    assert (Hsame : forall v, lookup (set p key v) k = lookup p k)
      by (intros v; apply lookup_set_other, Hne).
    destruct (lookup p key) as [[| | | | |m]|]; try destruct value;
      rewrite Hsame; reflexivity.
Qed.

Lemma merge_section_other (result child : dict) (section k : string)
  (merged : dict) :
  merge_section result child section = Ok merged ->
  section <> k ->
  lookup merged k = lookup result k.
Proof.
  unfold merge_section. intros H Hne.
  destruct (lookup child section) as [theirs|]; [|now injection H as <-].
  destruct (get result section (VDict [])); try discriminate.
  destruct (update_from _ theirs); [|discriminate]. cbn [bind] in H.
  injection H as <-. apply lookup_set_other, Hne.
Qed.

Lemma merge_section_same (result child : dict) (section : string)
  (theirs : value) (merged : dict) :
  merge_section result child section = Ok merged ->
  lookup child section = Some theirs ->
  exists mine updated,
    mapping_at result section = Some mine
    /\ update_from mine theirs = Ok updated
    /\ lookup merged section = Some (VDict updated).
Proof.
  unfold merge_section, mapping_at. intros H Hc. rewrite Hc in H.
  destruct (get result section (VDict [])) as [| | | | |mine];
    try discriminate.
  destruct (update_from mine theirs) as [updated|] eqn:Eu; [|discriminate].
  cbn [bind] in H. injection H as <-. exists mine, updated.
  split; [reflexivity|]. split; [exact Eu|apply lookup_set_same].
Qed.

(** [update] with a dictionary whose keys are distinct. *)
Lemma update_from_mapping (mine pairs updated : dict) :
  update_from mine (VDict pairs) = Ok updated ->
  distinct_keys pairs ->
  forall k, lookup updated k = overridden mine pairs k.
Proof.
  intros [= <-] Hd k. apply update_lookup, Hd.
Qed.

Lemma process_template_slots_other (parent child result : dict) (k : string) :
  _process_template_slots parent child = Ok result ->
  k <> "structure" ->
  lookup result k = lookup parent k.
Proof.
  unfold _process_template_slots. intros H Hne.
  destruct (negb (truthy (get parent "template_slots" (VDict []))));
    [now injection H as <-|].
  destruct (lookup parent "structure"); [|discriminate].
  destruct (replace_slots _ _); [|discriminate].
  injection H as <-. apply lookup_set_other. congruence.
Qed.

(** The metadata of the merged manifest. *)
Lemma inheritance_metadata (child parent result : dict) (theirs : value) :
  process_template_inheritance child parent = Ok result ->
  lookup child "metadata" = Some theirs ->
  exists mine updated,
    mapping_at parent "metadata" = Some mine
    /\ update_from mine theirs = Ok updated
    /\ lookup result "metadata" = Some (VDict updated).
Proof.
  unfold process_template_inheritance. intros H Hc.
  destruct (merge_section parent child "metadata") as [r1|] eqn:E1;
    [|discriminate].
  cbn [bind] in H.
  destruct (merge_section r1 child "styles") as [r2|] eqn:E2; [|discriminate].
  cbn [bind] in H.
  destruct (_process_template_slots r2 child) as [r3|] eqn:E3; [|discriminate].
  cbn [bind] in H.
  destruct (merge_section r3 child "imports") as [r4|] eqn:E4; [|discriminate].
  cbn [bind] in H.
  destruct (merge_section r4 child "interactions") as [r5|] eqn:E5;
    [|discriminate].
  cbn [bind] in H.
  destruct (_merge_structures _ _) as [structure|]; [|discriminate].
  injection H as <-.
  destruct (merge_section_same _ _ _ _ _ E1 Hc) as (mine & updated & Hm & Hu & Hl).
  exists mine, updated. split; [exact Hm|]. split; [exact Hu|].
  rewrite lookup_set_other by discriminate.
  rewrite (merge_section_other _ _ _ "metadata" _ E5) by discriminate.
  rewrite (merge_section_other _ _ _ "metadata" _ E4) by discriminate.
  rewrite (process_template_slots_other _ _ _ "metadata" E3) by discriminate.
  rewrite (merge_section_other _ _ _ "metadata" _ E2) by discriminate.
  exact Hl.
Qed.

(** The styles of the merged manifest. *)
Lemma inheritance_styles (child parent result : dict) (theirs : value) :
  process_template_inheritance child parent = Ok result ->
  lookup child "styles" = Some theirs ->
  exists mine updated,
    mapping_at parent "styles" = Some mine
    /\ update_from mine theirs = Ok updated
    /\ lookup result "styles" = Some (VDict updated).
Proof.
  unfold process_template_inheritance. intros H Hc.
  destruct (merge_section parent child "metadata") as [r1|] eqn:E1;
    [|discriminate].
  cbn [bind] in H.
  destruct (merge_section r1 child "styles") as [r2|] eqn:E2; [|discriminate].
  cbn [bind] in H.
  destruct (_process_template_slots r2 child) as [r3|] eqn:E3; [|discriminate].
  cbn [bind] in H.
  destruct (merge_section r3 child "imports") as [r4|] eqn:E4; [|discriminate].
  cbn [bind] in H.
  destruct (merge_section r4 child "interactions") as [r5|] eqn:E5;
    [|discriminate].
  cbn [bind] in H.
  destruct (_merge_structures _ _) as [structure|]; [|discriminate].
  injection H as <-.
  destruct (merge_section_same _ _ _ _ _ E2 Hc) as (mine & updated & Hm & Hu & Hl).
  exists mine, updated. split.
  { unfold mapping_at, get in *.
    rewrite (merge_section_other _ _ _ "styles" _ E1) in Hm by discriminate.
    exact Hm. }
  split; [exact Hu|].
  rewrite lookup_set_other by discriminate.
  rewrite (merge_section_other _ _ _ "styles" _ E5) by discriminate.
  rewrite (merge_section_other _ _ _ "styles" _ E4) by discriminate.
  rewrite (process_template_slots_other _ _ _ "styles" E3) by discriminate.
  exact Hl.
Qed.

End Merging.

(** X8: merging a child structure over a parent structure, both mappings:
    a key of the child gets the child's value, merged with the parent's
    when both are mappings, and every other key keeps the parent's
    value. *)
Theorem X8_merge_element_child_wins (p c : dict) (k : string) :
  distinct_keys c ->
  exists merged,
    TemplateProcessor.merge_element (VDict p) (VDict c) = VDict merged
    /\ lookup merged k
       = match lookup c k with
         | Some theirs => Some (merged_value (lookup p k) theirs)
         | None => lookup p k
         end.
Proof.
  intros H. eexists. split; [reflexivity|].
  apply merge_items_lookup, H.
Qed.

Lemma X8_merge_element_child_wins_witness :
  exists merged,
    TemplateProcessor.merge_element
      (VDict [("main", VDict [("p", VStr "base")]); ("footer", VStr "f")])
      (VDict [("main", VDict [("h1", VStr "child")])])
    = VDict merged
    /\ lookup merged "main"
       = match lookup [("main", VDict [("h1", VStr "child")])] "main" with
         | Some theirs =>
             Some (merged_value
                     (lookup [("main", VDict [("p", VStr "base")]);
                              ("footer", VStr "f")] "main") theirs)
         | None =>
             lookup [("main", VDict [("p", VStr "base")]);
                     ("footer", VStr "f")] "main"
         end.
Proof.
  apply (X8_merge_element_child_wins
           [("main", VDict [("p", VStr "base")]); ("footer", VStr "f")]
           [("main", VDict [("h1", VStr "child")])] "main").
  repeat constructor; simpl; tauto.
Defined.

(** X9: when [process_template_inheritance] returns, the metadata and the
    styles of the result are those of the parent (an empty mapping when
    the parent has none) updated with what the child has in that section.
    For a section the child gives as a mapping, under a key of the child
    stands the child's value and under any other key the parent's; an
    empty list and an empty string are accepted and change nothing. *)
Theorem X9_inheritance_child_overrides
  (child parent result : dict) (section : string) (theirs : value) :
  section = "metadata" \/ section = "styles" ->
  TemplateProcessor.process_template_inheritance child parent = Ok result ->
  lookup child section = Some theirs ->
  exists mine merged,
    mapping_at parent section = Some mine
    /\ update_from mine theirs = Ok merged
    /\ lookup result section = Some (VDict merged)
    /\ (forall pairs,
          theirs = VDict pairs -> distinct_keys pairs ->
          forall k, lookup merged k = overridden mine pairs k)
    /\ (theirs = VList [] \/ theirs = VStr "" -> merged = mine).
Proof.
  intros Hs H Hc.
  assert (Hm : exists mine merged,
             mapping_at parent section = Some mine
             /\ update_from mine theirs = Ok merged
             /\ lookup result section = Some (VDict merged)).
  { destruct Hs as [-> | ->].
    - apply (inheritance_metadata _ _ _ _ H Hc).
    - apply (inheritance_styles _ _ _ _ H Hc). }
  destruct Hm as (mine & merged & Hm & Hu & Hl).
  exists mine, merged. repeat split; try assumption.
  - intros pairs -> Hd. apply (update_from_mapping _ _ _ Hu Hd).
  - intros [-> | ->]; now injection Hu as <-.
Qed.

Lemma X9_inheritance_child_overrides_witness :
  exists mine merged,
    mapping_at base_with_slot "metadata" = Some mine
    /\ update_from mine
         (VDict [("title", VStr "Child"); ("extends", VStr "base")])
       = Ok merged
    /\ lookup child_merged_into_base "metadata" = Some (VDict merged)
    /\ (forall pairs,
          VDict [("title", VStr "Child"); ("extends", VStr "base")]
          = VDict pairs ->
          distinct_keys pairs ->
          forall k, lookup merged k = overridden mine pairs k)
    /\ (VDict [("title", VStr "Child"); ("extends", VStr "base")] = VList []
        \/ VDict [("title", VStr "Child"); ("extends", VStr "base")] = VStr ""
        -> merged = mine).
Proof.
  apply (X9_inheritance_child_overrides child_of_base base_with_slot
           child_merged_into_base "metadata"
           (VDict [("title", VStr "Child"); ("extends", VStr "base")])).
  - left. reflexivity.
  - reflexivity.
  - reflexivity.
Defined.

(** ** What resolution leaves in the metadata *)

Section Resolution.

Import ManifestProcessor.

Variable load_manifest : value -> result value.
Variable describe : exn -> result string.

(** The steps of a call that follows a reference and returns. *)
Lemma process_inheritance_returns (depth : nat) (manifest : value)
  (loads : list value) (resolved reference : value) :
  _process_inheritance load_manifest describe depth manifest = (loads, Ok resolved) ->
  extends_of manifest = Some reference ->
  exists c md p merged,
    manifest = VDict c
    /\ get c "metadata" (VDict []) = VDict md
    /\ get md "extends" VNone = reference
    /\ truthy reference = true
    /\ TemplateProcessor.process_template_inheritance c p = Ok merged
    /\ resolved = VDict merged.
Proof.
  destruct depth as [|depth]; [discriminate|].
  unfold extends_of. simpl.
  destruct manifest as [| | | | |c]; try discriminate. simpl.
  destruct (get c "metadata" (VDict [])) as [| | | | |md] eqn:Emd;
    try discriminate.
  simpl. destruct (truthy (get md "extends" VNone)) eqn:Et; [|discriminate].
  simpl. intros H [= Hr].
  destruct (load_manifest (get md "extends" VNone)) as [parent|];
    [|discriminate].
  destruct (_process_inheritance load_manifest describe depth parent)
    as [loads' [processed|]]; [|discriminate].
  simpl in H. destruct processed as [| | | | |p]; try discriminate.
  destruct (TemplateProcessor.process_template_inheritance c p) as [merged|]
    eqn:Em; [|discriminate].
  simpl in H. injection H as _ <-. subst reference.
  exists c, md, p, merged. repeat split; auto.
Qed.

End Resolution.

(** X10: a manifest resolved against its parent still names the parent:
    the [extends] reference of the child is in the metadata of the result,
    so processing the result again starts the resolution again. *)
Theorem X10_resolved_manifest_keeps_extends
  (load_manifest : value -> result value) (describe : exn -> result string)
  (depth : nat) (manifest : dict)
  (loads : list value) (resolved reference : value) :
  ManifestProcessor._process_inheritance load_manifest describe depth (VDict manifest)
  = (loads, Ok resolved) ->
  extends_of (VDict manifest) = Some reference ->
  (forall md, lookup manifest "metadata" = Some (VDict md) -> distinct_keys md) ->
  extends_of resolved = Some reference.
Proof.
  intros Hrun Hext Hd.
  destruct (process_inheritance_returns _ _ _ _ _ _ _ Hrun Hext)
    as (c & md & p & merged & [= <-] & Hmd & Href & Ht & Hm & ->).
  assert (Hl : lookup manifest "metadata" = Some (VDict md)).
  { unfold get in Hmd. destruct (lookup manifest "metadata") as [v|].
    - now subst v.
    - injection Hmd as <-. simpl in Href. subst reference. discriminate. }
  destruct (inheritance_metadata _ _ _ _ Hm Hl)
    as (mine & updated & _ & Hu & Hres).
  pose proof (update_from_mapping _ _ _ Hu (Hd md Hl)) as Hk.
  assert (He : lookup md "extends" = Some reference).
  { unfold get in Href. destruct (lookup md "extends") as [v|];
      [now subst v|]. subst reference. discriminate. }
  unfold extends_of. simpl. unfold get. rewrite Hres. simpl.
  unfold get. rewrite Hk. unfold overridden. rewrite He, Ht. reflexivity.
Qed.

Lemma X10_resolved_manifest_keeps_extends_witness :
  extends_of (VDict child_merged_into_base) = Some (VStr "base").
Proof.
  apply (X10_resolved_manifest_keeps_extends load_base (fun _ => Ok "") 2
           child_of_base
           [VStr "base"] (VDict child_merged_into_base) (VStr "base")).
  - reflexivity.
  - reflexivity.
  - intros md [= <-]. repeat constructor; simpl; intuition discriminate.
Defined.

(** ** Merging manifests and style maps *)

Section MergeTools.

Import ManifestTools.

Lemma copy_other_keys_section (child merged : dict) (k : string) :
  HTMLConverter.member k merged_sections = true ->
  lookup (copy_other_keys child merged) k = lookup merged k.
Proof.
  intros Hk. unfold copy_other_keys. revert merged.
  induction child as [|[k0 v0] rest IH]; intros merged; [reflexivity|].
  cbn [fold_left fst snd].
  destruct (HTMLConverter.member k0 merged_sections) eqn:E.
  - apply IH.
  - rewrite IH. apply lookup_set_other. intros ->. congruence.
Qed.

Lemma copy_other_keys_lookup (child merged : dict) (k : string) :
  distinct_keys child ->
  HTMLConverter.member k merged_sections = false ->
  lookup (copy_other_keys child merged) k = overridden merged child k.
Proof.
  unfold copy_other_keys, overridden, distinct_keys. intros Hd Hk.
  revert merged. induction child as [|[k0 v0] rest IH]; intros merged;
    [reflexivity|].
  simpl in Hd. inversion Hd as [|? ? Hk0 Hrest]; subst.
  cbn [fold_left fst snd lookup].
  rewrite (IH Hrest).
  destruct (String.eqb k0 k) eqn:E.
  - apply String.eqb_eq in E. subst k0. rewrite Hk.
    rewrite (lookup_absent rest k Hk0). apply lookup_set_same.
  - assert (k0 <> k) by (intros ->; rewrite String.eqb_refl in E; discriminate).
    destruct (HTMLConverter.member k0 merged_sections);
      rewrite ?lookup_set_other by assumption; reflexivity.
Qed.

Lemma extend_lookup (py_repr : value -> string) (base child : dict) (k : string) :
  distinct_keys child ->
  lookup (fold_left (fun merged kv =>
                       extend_style py_repr merged (fst kv) (snd kv))
                    child base) k
  = match lookup child k with
    | Some theirs => Some (extended_value py_repr (lookup base k) theirs)
    | None => lookup base k
    end.
Proof.
  unfold distinct_keys. revert base.
  induction child as [|[k0 v0] rest IH]; intros base Hd; [reflexivity|].
  simpl in Hd. inversion Hd as [|? ? Hk0 Hrest]; subst. simpl.
  rewrite (IH _ Hrest). unfold extend_style.
  destruct (String.eqb k0 k) eqn:E.
  - apply String.eqb_eq in E. subst k0.
    rewrite (lookup_absent rest k Hk0). unfold extended_value.
    destruct (lookup base k); apply lookup_set_same.
  - assert (k0 <> k) by (intros ->; rewrite String.eqb_refl in E; discriminate).
    destruct (lookup base k0); rewrite lookup_set_other by assumption;
      reflexivity.
Qed.

End MergeTools.

(** X11: [merge_manifests] gives the structure of the child when the child
    has one, else that of the base, and under every key outside the four
    merged sections the child's value when the child has the key, else the
    base's. *)
Theorem X11_merge_manifests_child_wins (base child merged : dict) :
  distinct_keys child ->
  ManifestTools.merge_manifests base child = Ok merged ->
  lookup merged "structure" = overridden base child "structure"
  /\ forall k,
       HTMLConverter.member k ManifestTools.merged_sections = false ->
       lookup merged k = overridden base child k.
Proof.
  unfold ManifestTools.merge_manifests. intros Hd H.
  destruct (TemplateProcessor.merge_section base child "metadata")
    as [r1|] eqn:E1; [|discriminate].
  cbn [bind] in H.
  destruct (TemplateProcessor.merge_section r1 child "template_vars")
    as [r2|] eqn:E2; [|discriminate].
  cbn [bind] in H.
  destruct (TemplateProcessor.merge_section r2 child "styles")
    as [r3|] eqn:E3; [|discriminate].
  cbn [bind] in H. injection H as <-.
  assert (Hr3 : forall k,
            k <> "metadata" -> k <> "template_vars" -> k <> "styles" ->
            lookup r3 k = lookup base k).
  { intros k H1 H2 H3.
    rewrite (merge_section_other _ _ _ k _ E3) by congruence.
    rewrite (merge_section_other _ _ _ k _ E2) by congruence.
    apply (merge_section_other _ _ _ k _ E1). congruence. }
  split.
  - rewrite copy_other_keys_section by reflexivity. unfold overridden.
    destruct (lookup child "structure").
    + apply lookup_set_same.
    + apply Hr3; discriminate.
  - intros k Hk. rewrite copy_other_keys_lookup by assumption.
    unfold overridden. destruct (lookup child k); [reflexivity|].
    assert (Hks : k <> "structure") by (intros ->; discriminate).
    assert (Hrest : lookup r3 k = lookup base k)
      by (apply Hr3; intros ->; discriminate).
    destruct (lookup child "structure");
      rewrite ?lookup_set_other by congruence; exact Hrest.
Qed.

Lemma X11_merge_manifests_child_wins_witness :
  lookup
    [("metadata",
      VDict [("title", VStr "Child"); ("author", VStr "A");
             ("extends", VStr "base")]);
     ("template_slots", VDict [("content", VStr "main")]);
     ("structure", VDict [("content", VDict [("p", VStr "hi")])])]
    "structure"
  = overridden base_with_slot child_of_base "structure"
  /\ forall k,
       HTMLConverter.member k ManifestTools.merged_sections = false ->
       lookup
         [("metadata",
           VDict [("title", VStr "Child"); ("author", VStr "A");
                  ("extends", VStr "base")]);
          ("template_slots", VDict [("content", VStr "main")]);
          ("structure", VDict [("content", VDict [("p", VStr "hi")])])]
         k
       = overridden base_with_slot child_of_base k.
Proof.
  apply (X11_merge_manifests_child_wins base_with_slot child_of_base).
  - repeat constructor; simpl; intuition discriminate.
  - reflexivity.
Defined.

(** X12: [merge_styles] with the strategy [override] gives the child's
    style where the child has the name and the base's elsewhere; with
    [extend] a name both have gets the base's text, a semicolon and the
    child's text; any other strategy raises [ValueError]. *)
Theorem X12_merge_styles_strategies
  (py_repr : value -> string) (base child : dict) :
  distinct_keys child ->
  (exists merged,
     ManifestTools.merge_styles py_repr base child "override" = inr merged
     /\ forall k, lookup merged k = overridden base child k)
  /\ (exists merged,
        ManifestTools.merge_styles py_repr base child "extend" = inr merged
        /\ forall k,
             lookup merged k
             = match lookup child k with
               | Some theirs =>
                   Some (extended_value py_repr (lookup base k) theirs)
               | None => lookup base k
               end)
  /\ (forall strategy,
        strategy <> "override" -> strategy <> "extend" ->
        ManifestTools.merge_styles py_repr base child strategy
        = inl (ManifestTools.UnknownStrategy strategy)).
Proof.
  intros Hd. split; [|split].
  - eexists. split; [reflexivity|]. intros k. apply update_lookup, Hd.
  - eexists. split; [reflexivity|]. intros k. apply extend_lookup, Hd.
  - intros strategy H1 H2. unfold ManifestTools.merge_styles.
    destruct (String.eqb strategy "override") eqn:E1;
      [apply String.eqb_eq in E1; congruence|].
    destruct (String.eqb strategy "extend") eqn:E2;
      [apply String.eqb_eq in E2; congruence|].
    reflexivity.
Qed.

Lemma X12_merge_styles_strategies_witness :
  exists merged,
    ManifestTools.merge_styles (fun _ => "")
      [("box", VStr "color: red"); ("wide", VStr "width: 100%")]
      [("box", VStr "margin: 0")] "extend" = inr merged
    /\ forall k,
         lookup merged k
         = match lookup [("box", VStr "margin: 0")] k with
           | Some theirs =>
               Some (extended_value (fun _ => "")
                       (lookup [("box", VStr "color: red");
                                ("wide", VStr "width: 100%")] k)
                       theirs)
           | None =>
               lookup [("box", VStr "color: red");
                       ("wide", VStr "width: 100%")] k
           end.
Proof.
  apply (X12_merge_styles_strategies (fun _ => "")
           [("box", VStr "color: red"); ("wide", VStr "width: 100%")]
           [("box", VStr "margin: 0")]).
  repeat constructor; simpl; intuition discriminate.
Defined.

(** ** Strict validation *)

Section Warnings.

Import ManifestValidator.

Lemma extends_warnings_refl (r : report) : extends_warnings r r.
Proof. exists []. now rewrite app_nil_r. Qed.

Lemma extends_warnings_trans (a b c : report) :
  extends_warnings a b -> extends_warnings b c -> extends_warnings a c.
Proof.
  intros [x Hx] [y Hy]. exists (x +++ y). now rewrite Hy, Hx, app_assoc.
Qed.

Lemma extends_warnings_error (r : report) (msg : string) :
  extends_warnings r (add_error r msg).
Proof. exists []. simpl. now rewrite app_nil_r. Qed.

Lemma extends_warnings_add (r : report) (msgs : list string) :
  extends_warnings r (add_warnings r msgs).
Proof. exists msgs. reflexivity. Qed.

Lemma validate_metadata_warnings (manifest : value) (r r' : report) :
  _validate_metadata manifest r = Ok r' ->
  extends_warnings r r'
  /\ (truthy (section (section manifest "metadata" (VDict []))
                "description" VNone) = false ->
      snd r' <> []).
Proof.
  unfold _validate_metadata.
  destruct manifest as [| | | | |m]; try discriminate. simpl.
  destruct (get m "metadata" (VDict [])) as [| | | | |md]; try discriminate.
  simpl.
  set (r1 := if negb (truthy (get md "title" VNone))
             then add_error r "Metadata must include a title" else r).
  assert (H1 : extends_warnings r r1)
    by (subst r1; destruct (negb (truthy (get md "title" VNone)));
        [apply extends_warnings_error|apply extends_warnings_refl]).
  clearbody r1.
  set (r2 := if negb (truthy (get md "description" VNone))
             then add_warning r1 "Consider adding a description to metadata"
             else r1).
  assert (H2 : extends_warnings r1 r2).
  { subst r2. destruct (negb (truthy (get md "description" VNone)));
      [|apply extends_warnings_refl].
    exists ["Consider adding a description to metadata"]. reflexivity. }
  assert (H3 : truthy (get md "description" VNone) = false -> snd r2 <> []).
  { intros Hd. subst r2. rewrite Hd. simpl. destruct (snd r1); discriminate. }
  assert (H4 : forall msg, snd (add_error r2 msg) = snd r2) by reflexivity.
  clearbody r2. intros H.
  assert (Hr : r' = r2 \/ exists msg, r' = add_error r2 msg).
  { destruct (has_key md "extends").
    - destruct (lookup md "extends") as [extends|]; [|discriminate].
      cbn [bind] in H. injection H as <-.
      match goal with |- context [if ?b then _ else _] => destruct b end;
        eauto.
    - injection H as <-. auto. }
  split.
  - eapply extends_warnings_trans; [exact H1|].
    eapply extends_warnings_trans; [exact H2|].
    destruct Hr as [-> | [msg ->]];
      [apply extends_warnings_refl|apply extends_warnings_error].
  - intros Hd. destruct Hr as [-> | [msg ->]]; [|rewrite H4]; apply H3, Hd.
Qed.

Lemma validate_styles_warnings (manifest : value) (r r' : report) :
  _validate_styles manifest r = Ok r' -> extends_warnings r r'.
Proof.
  unfold _validate_styles.
  destruct (method_get manifest "styles" (VDict [])) as [styles|];
    [|discriminate].
  simpl. destruct styles as [| | | | |items];
    try (intros [= <-]; apply extends_warnings_error).
  intros [= <-]. revert r.
  induction items as [|[name v] rest IH]; intros r;
    [apply extends_warnings_refl|].
  simpl. eapply extends_warnings_trans; [|apply IH].
  destruct v; try apply extends_warnings_error. apply extends_warnings_add.
Qed.

Lemma validate_structure_warnings (manifest : value) (r r' : report) :
  _validate_structure manifest r = Ok r' -> extends_warnings r r'.
Proof.
  unfold _validate_structure.
  destruct (method_get manifest "structure" VNone) as [structure|];
    [|discriminate].
  simpl. destruct (negb (truthy structure)); intros [= <-];
    [apply extends_warnings_error|apply extends_warnings_add].
Qed.

Lemma validate_template_inheritance_warnings (manifest : value)
  (r r' : report) :
  _validate_template_inheritance manifest r = Ok r' -> extends_warnings r r'.
Proof.
  unfold _validate_template_inheritance.
  destruct (method_get manifest "metadata" (VDict [])) as [metadata|];
    [|discriminate].
  simpl.
  destruct (method_get manifest "template_slots" (VDict [])) as [slots|];
    [|discriminate].
  simpl.
  destruct (contains_value (VStr "extends") metadata) as [has|];
    [|discriminate].
  simpl. destruct slots as [| | | | |items]; try discriminate.
  intros [= <-].
  match goal with
  | |- extends_warnings _ (fold_left _ _ ?start) => set (r1 := start)
  end.
  assert (H1 : extends_warnings r r1).
  { subst r1.
    match goal with |- context [if ?b then _ else _] => destruct b end;
      [|apply extends_warnings_refl].
    eexists. reflexivity. }
  eapply extends_warnings_trans; [exact H1|]. clearbody r1. clear H1.
  revert r1. induction items as [|[name v] rest IH]; intros r1;
    [apply extends_warnings_refl|].
  simpl. eapply extends_warnings_trans; [|apply IH].
  destruct (Regex.slot_name_match name);
    [apply extends_warnings_refl|apply extends_warnings_error].
Qed.

(** A manifest without a description leaves [validate] with a warning. *)
Lemma validate_warns_without_description
  (schema_violation : value -> option string) (manifest : value)
  (errors warnings : list string) :
  validate schema_violation manifest = Ok (errors, warnings) ->
  truthy (section (section manifest "metadata" (VDict []))
            "description" VNone) = false ->
  warnings <> [].
Proof.
  unfold validate. intros H Hd.
  destruct (_validate_metadata manifest _) as [r1|] eqn:E1; [|discriminate].
  cbn [bind] in H.
  destruct (_validate_styles manifest r1) as [r2|] eqn:E2; [|discriminate].
  cbn [bind] in H.
  destruct (_validate_structure manifest r2) as [r3|] eqn:E3; [|discriminate].
  cbn [bind] in H.
  destruct (_validate_template_inheritance manifest r3) as [r4|] eqn:E4;
    [|discriminate].
  cbn [bind] in H. injection H as ->.
  destruct (validate_metadata_warnings _ _ _ E1) as [_ H1].
  specialize (H1 Hd).
  destruct (validate_styles_warnings _ _ _ E2) as [x2 H2].
  destruct (validate_structure_warnings _ _ _ E3) as [x3 H3].
  destruct (validate_template_inheritance_warnings _ _ _ E4) as [x4 H4].
  simpl in H4. rewrite H4, H3, H2.
  destruct (snd r1); [congruence|discriminate].
Qed.

End Warnings.

(** X13: strict validation is stricter: whatever the plain mode rejects
    the strict mode rejects, and a manifest whose metadata has no
    description (or an empty one) is always rejected in strict mode,
    because it always earns a warning. *)
Theorem X13_strict_validation_rejects_more
  (schema_violation : value -> option string) (manifest : value) :
  (forall e,
     ManifestProcessor._validate_manifest schema_violation false manifest
     = Err e ->
     exists e',
       ManifestProcessor._validate_manifest schema_violation true manifest
       = Err e')
  /\ (truthy (section (section manifest "metadata" (VDict []))
                "description" VNone) = false ->
      exists e',
        ManifestProcessor._validate_manifest schema_violation true manifest
        = Err e').
Proof.
  unfold ManifestProcessor._validate_manifest.
  destruct (ManifestValidator.validate schema_violation manifest)
    as [[errors warnings]|e0] eqn:E; cbn [bind].
  - split.
    + intros e H. destruct errors as [|x errors]; [discriminate|].
      destruct warnings; eexists; reflexivity.
    + intros Hd.
      pose proof (validate_warns_without_description _ _ _ _ E Hd) as Hw.
      destruct warnings as [|w warnings]; [congruence|].
      destruct errors; eexists; reflexivity.
  - split; eauto.
Qed.

Lemma X13_strict_validation_rejects_more_witness :
  exists e',
    ManifestProcessor._validate_manifest (fun _ => None) true scenario_manifest
    = Err e'.
Proof.
  apply (proj2 (X13_strict_validation_rejects_more (fun _ => None)
                  scenario_manifest)).
  reflexivity.
Defined.

(** ** Processing twice *)

Section Reprocessing.

Import StyleProcessor.

Lemma process_items_again (styles processed : dict) :
  process_items styles = Ok processed ->
  process_items processed = Ok processed
  /\ (styles <> [] -> processed <> []).
Proof.
  revert processed.
  induction styles as [|[name css] rest IH]; intros processed; simpl.
  - intros [= <-]. auto.
  - destruct css; try discriminate. simpl.
    destruct (process_items rest) as [ps|]; [|discriminate]. simpl.
    intros [= <-]. destruct (IH ps eq_refl) as [H _].
    simpl. rewrite H. simpl. rewrite normalize_css_idempotent.
    split; [reflexivity|discriminate].
Qed.

(** Whenever [process_styles] returns, it returns what it leaves alone. *)
Lemma process_styles_again (manifest processed : value) :
  process_styles manifest = Ok processed ->
  process_styles processed = Ok processed.
Proof.
  unfold process_styles.
  destruct manifest as [| | | | |m]; try discriminate. simpl.
  destruct (truthy (get m "styles" (VDict []))) eqn:Et; simpl.
  - destruct (get m "styles" (VDict [])) as [| | | | |items] eqn:Es;
      try discriminate.
    destruct (process_items items) as [ps|] eqn:Ep; [|discriminate].
    simpl. intros [= <-]. simpl. rewrite get_set_same.
    destruct (process_items_again _ _ Ep) as [H Hne].
    destruct items as [|item items]; [discriminate|].
    destruct ps as [|p ps]; [exfalso; apply Hne; [discriminate|reflexivity]|].
    cbn [truthy negb]. rewrite H. simpl. now rewrite set_set_same.
  - intros [= <-]. simpl. rewrite Et. reflexivity.
Qed.

Lemma process_styles_metadata (manifest processed : value) :
  process_styles manifest = Ok processed ->
  method_get processed "metadata" (VDict [])
  = method_get manifest "metadata" (VDict []).
Proof.
  unfold process_styles.
  destruct manifest as [| | | | |m]; try discriminate. simpl.
  destruct (negb (truthy (get m "styles" (VDict [])))).
  - now intros [= <-].
  - destruct (get m "styles" (VDict [])); try discriminate.
    destruct (process_items _); [|discriminate]. simpl. intros [= <-].
    simpl. unfold get. rewrite lookup_set_other by discriminate. reflexivity.
Qed.

(** A call that follows no reference returns its argument, if it can
    read the metadata at all. *)
Lemma inheritance_without_extends (load_manifest : value -> result value)
  (describe : exn -> result string) (depth : nat) (manifest resolved : value) :
  extends_of manifest = None ->
  snd (ManifestProcessor._process_inheritance load_manifest describe depth manifest)
  = Ok resolved ->
  resolved = manifest
  /\ exists metadata extends,
       method_get manifest "metadata" (VDict []) = Ok metadata
       /\ method_get metadata "extends" VNone = Ok extends
       /\ truthy extends = false.
Proof.
  destruct depth as [|depth]; [discriminate|].
  unfold extends_of. simpl.
  destruct (method_get manifest "metadata" (VDict [])) as [md|];
    [|discriminate].
  destruct (method_get md "extends" VNone) as [ext|] eqn:Ee; [|discriminate].
  destruct (truthy ext) eqn:Et; [discriminate|].
  simpl. intros _ [= <-]. split; [reflexivity|].
  exists md, ext. repeat split; auto.
Qed.

Lemma inheritance_returns_argument (load_manifest : value -> result value)
  (describe : exn -> result string) (depth : nat) (manifest metadata extends : value) :
  method_get manifest "metadata" (VDict []) = Ok metadata ->
  method_get metadata "extends" VNone = Ok extends ->
  truthy extends = false ->
  snd (ManifestProcessor._process_inheritance load_manifest describe (S depth) manifest)
  = Ok manifest.
Proof. intros H1 H2 H3. simpl. rewrite H1, H2, H3. reflexivity. Qed.

End Reprocessing.

(** X14: a manifest that extends nothing is processed once and for all:
    when [process_manifest], called without context, returns a manifest,
    the same call on that manifest returns it unchanged. *)
Theorem X14_processing_is_idempotent_without_extends
  (load_manifest : value -> result value)
  (describe : exn -> result string)
  (schema_violation : value -> option string)
  (render : string -> dict -> result string)
  (strict_validation validate : bool) (depth : nat)
  (manifest processed : value) :
  extends_of manifest = None ->
  ManifestProcessor.process_manifest load_manifest describe schema_violation render
    strict_validation depth manifest [] validate = Ok processed ->
  ManifestProcessor.process_manifest load_manifest describe schema_violation render
    strict_validation depth processed [] validate = Ok processed.
Proof.
  intros Hext. unfold ManifestProcessor.process_manifest.
  destruct (if validate then _ else Ok tt) as [[]|]; [|discriminate].
  cbn [bind].
  destruct (snd (ManifestProcessor._process_inheritance load_manifest describe depth
                   manifest)) as [resolved|] eqn:Er; [|discriminate].
  destruct (inheritance_without_extends _ _ _ _ _ Hext Er)
    as (-> & md & ext & H1 & H2 & H3).
  destruct depth as [|depth]; [discriminate|].
  cbn [bind truthy].
  destruct (StyleProcessor.process_styles manifest) as [styled|] eqn:Es;
    [|discriminate].
  cbn [bind].
  destruct (if validate then _ else Ok tt) as [[]|] eqn:Ev; [|discriminate].
  cbn [bind]. intros [= <-]. rewrite Ev. cbn [bind].
  rewrite <- (process_styles_metadata _ _ Es) in H1.
  rewrite (inheritance_returns_argument _ _ _ _ _ _ H1 H2 H3).
  cbn [bind truthy].
  rewrite (process_styles_again _ _ Es). cbn [bind]. rewrite Ev. reflexivity.
Qed.

Lemma X14_processing_is_idempotent_without_extends_witness :
  ManifestProcessor.process_manifest
    (fun _ => Err (LoaderError "no ancestors")) (fun _ => Ok "")
    (fun _ => None)
    (fun _ _ => Err (JinjaError "no templates"))
    false 1 scenario_processed [] true = Ok scenario_processed.
Proof.
  apply (X14_processing_is_idempotent_without_extends
           (fun _ => Err (LoaderError "no ancestors")) (fun _ => Ok "")
           (fun _ => None)
           (fun _ _ => Err (JinjaError "no templates"))
           false true 1 scenario_manifest scenario_processed);
    reflexivity.
Defined.

(** ** Chains that end *)

(** X15: along a chain of [n] references that ends in a manifest that
    extends nothing, a resolution with more than [n] calls to spare asks
    the loader for exactly those [n] references, each once, child
    first. *)
Theorem X15_finite_chain_loads_each_reference_once
  (load_manifest : value -> result value) (describe : exn -> result string)
  (n depth : nat)
  (manifest last : value) :
  ancestor load_manifest n manifest = Some last ->
  extends_of last = None ->
  n < depth ->
  fst (ManifestProcessor._process_inheritance load_manifest describe depth manifest)
  = references load_manifest n manifest
  /\ List.length (references load_manifest n manifest) = n.
Proof.
  revert depth manifest. induction n as [|n IH]; intros depth manifest.
  - intros [= ->] Hlast Hd. destruct depth as [|depth]; [lia|].
    split; [|reflexivity]. unfold extends_of in Hlast. simpl.
    destruct (method_get last "metadata" (VDict [])) as [md|]; [|reflexivity].
    destruct (method_get md "extends" VNone) as [ext|]; [|reflexivity].
    destruct (truthy ext); [discriminate|reflexivity].
  - simpl. intros Hanc Hlast Hd. destruct depth as [|depth]; [lia|].
    destruct (parent_of load_manifest manifest) as [parent|] eqn:Ep;
      [|discriminate].
    destruct (IH depth parent Hanc Hlast ltac:(lia)) as [Hloads Hlen].
    unfold parent_of in Ep. unfold extends_of in *.
    change (ManifestProcessor._process_inheritance load_manifest describe (S depth)
              manifest)
      with
      (match method_get manifest "metadata" (VDict []) with
       | Err e => ([], Err e)
       | Ok metadata =>
           match method_get metadata "extends" VNone with
           | Err e => ([], Err e)
           | Ok extends =>
               if negb (truthy extends) then ([], Ok manifest)
               else
                 match load_manifest extends with
                 | Err e =>
                     ([extends],
                      Err (ManifestProcessor.inheritance_error describe extends e))
                 | Ok parent_manifest =>
                     let '(loads, parent_processed) :=
                       ManifestProcessor._process_inheritance load_manifest describe
                         depth parent_manifest in
                     (extends :: loads,
                      try_except
                        (parent <- parent_processed ;;
                         match manifest, parent with
                         | VDict c, VDict p =>
                             merged <-
                               TemplateProcessor.process_template_inheritance
                                 c p ;;
                             Ok (VDict merged)
                         | _, _ => Err AttributeError
                         end)
                        (ManifestProcessor.inheritance_error describe extends))
                 end
           end
       end).
    destruct (method_get manifest "metadata" (VDict [])) as [md|];
      [|discriminate].
    destruct (method_get md "extends" VNone) as [ext|]; [|discriminate].
    destruct (truthy ext); [|discriminate]. cbn [negb].
    destruct (load_manifest ext) as [p|]; [|discriminate].
    injection Ep as ->.
    destruct (ManifestProcessor._process_inheritance load_manifest describe depth
                parent) as [loads processed].
    simpl in Hloads. subst loads. simpl. split; [reflexivity|].
    now rewrite Hlen.
Qed.

Lemma X15_finite_chain_loads_each_reference_once_witness :
  fst (ManifestProcessor._process_inheritance load_base (fun _ => Ok "") 5
         (VDict child_of_base))
  = references load_base 1 (VDict child_of_base)
  /\ List.length (references load_base 1 (VDict child_of_base)) = 1.
Proof.
  apply (X15_finite_chain_loads_each_reference_once load_base (fun _ => Ok "") 1 5
           (VDict child_of_base) (VDict base_with_slot)).
  - reflexivity.
  - reflexivity.
  - lia.
Defined.

(** ** The shape of a substituted manifest *)

(** X16: variable substitution changes strings only: what it returns has
    the kind of the argument at every place, the same keys in the same
    order, the same lists item for item, and the same scalars other than
    strings, whatever the template engine renders. *)
Theorem X16_substitution_keeps_shape
  (render : string -> dict -> result string) (context : dict)
  (v v' : value) :
  TemplateProcessor.substitute_in_value render context v = Ok v' ->
  same_shape v v' = true.
Proof.
  revert v'.
  induction v as [|b|z|s|l IH|d IH] using value_induction; intros v'.
  - intros [= <-]. reflexivity.
  - intros [= <-]. simpl. apply Bool.eqb_reflx.
  - intros [= <-]. simpl. apply Z.eqb_refl.
  - simpl. destruct (contains "{{" s && contains "}}" s).
    + destruct (try_except _ _); [|discriminate]. now intros [= <-].
    + now intros [= <-].
  - simpl.
    set (each := fix each (l : list value) : result (list value) :=
                   match l with
                   | [] => Ok []
                   | item :: rest =>
                       item' <- TemplateProcessor.substitute_in_value
                                  render context item ;;
                       rest' <- each rest ;;
                       Ok (item' :: rest')
                   end).
    destruct (each l) as [l'|] eqn:E; [|discriminate].
    simpl. intros [= <-]. simpl.
    revert l' E. induction IH as [|item rest Hi _ IHrest]; intros l'.
    + simpl. now intros [= <-].
    + simpl.
      destruct (TemplateProcessor.substitute_in_value render context item)
        as [item'|] eqn:Ei; [|discriminate].
      simpl. destruct (each rest) as [rest'|] eqn:Er; [|discriminate].
      simpl. intros [= <-]. rewrite (Hi _ eq_refl). simpl.
      apply IHrest. reflexivity.
  - simpl.
    set (each := fix each (d : dict) : result dict :=
                   match d with
                   | [] => Ok []
                   | (k, v) :: rest =>
                       v' <- TemplateProcessor.substitute_in_value
                               render context v ;;
                       rest' <- each rest ;;
                       Ok ((k, v') :: rest')
                   end).
    destruct (each d) as [d'|] eqn:E; [|discriminate].
    simpl. intros [= <-]. simpl.
    revert d' E. induction IH as [|[k v] rest Hi _ IHrest]; intros d'.
    + simpl. now intros [= <-].
    + simpl.
      destruct (TemplateProcessor.substitute_in_value render context v)
        as [w|] eqn:Ei; [|discriminate].
      simpl. destruct (each rest) as [rest'|] eqn:Er; [|discriminate].
      simpl. intros [= <-]. rewrite String.eqb_refl.
      simpl in Hi. rewrite (Hi _ Ei). simpl.
      apply IHrest. reflexivity.
Qed.

Lemma X16_substitution_keeps_shape_witness :
  same_shape
    (VDict [("title", VStr "Hello {{ name }}"); ("n", VInt 3)])
    (VDict [("title", VStr "rendered"); ("n", VInt 3)]) = true.
Proof.
  apply (X16_substitution_keeps_shape (fun _ _ => Ok "rendered") []).
  reflexivity.
Defined.

(** ** Minification *)

Section Minification.

Import HTMLConverter.

Lemma visible_app (a b : string) : visible (a ++ b) = visible a ++ visible b.
Proof.
  induction a as [|c a IH]; simpl; [reflexivity|].
  destruct (isspace c); simpl; now rewrite IH.
Qed.

Lemma squeeze_tags_visible (pending : option string) (s : string) :
  match pending with
  | Some ws => visible ws = ""
  | None => True
  end ->
  visible (squeeze_tags pending s) = visible s.
Proof.
  revert pending. induction s as [|c s IH]; intros pending Hp.
  - destruct pending; [exact Hp|reflexivity].
  - assert (Hplain :
      visible (if Regex.is_char ">" c
               then String c (squeeze_tags (Some "") s)
               else String c (squeeze_tags None s))
      = visible (String c s)).
    { destruct (Regex.is_char ">" c) eqn:E; simpl;
        destruct (isspace c); rewrite IH; simpl; auto. }
    cbn [squeeze_tags]. destruct pending as [ws|]; [|exact Hplain].
    destruct (isspace c) eqn:Es.
    + rewrite IH.
      * simpl. now rewrite Es.
      * rewrite visible_app, Hp. simpl. now rewrite Es.
    + destruct (Regex.is_char "<" c && nonempty ws).
      * simpl. rewrite Es, IH; auto.
      * rewrite visible_app, Hp. exact Hplain.
Qed.

Lemma strip_comments_plain (fuel : nat) (s : string) :
  contains "<!--" s = false -> strip_comments fuel s = s.
Proof.
  revert s. induction fuel as [|fuel IH]; intros s H; [reflexivity|].
  destruct s as [|c s]; [reflexivity|].
  cbn [strip_comments]. cbn [contains] in H.
  apply orb_false_iff in H as [Hp Hc].
  rewrite Hp. cbn [andb]. now rewrite (IH s Hc).
Qed.

End Minification.

(** X17: collapsing the whitespace between tags never touches a character
    that is not whitespace: the visible characters of the result are those
    of the document, in the same order. *)
Theorem X17_squeeze_tags_keeps_visible_text (code : string) :
  visible (HTMLConverter.squeeze_tags None code) = visible code.
Proof. apply squeeze_tags_visible. exact I. Qed.

(** X18: minification leaves alone what it has no reason to touch: a
    document without the opener of a comment goes through the removal of
    comments unchanged, and when [minify] is off [optimize_code] is the
    optimisation of the base class alone. *)
Theorem X18_comment_free_document_unchanged
  (self : HTMLConverter.options)
  (base_optimize_code : string -> result string) (code : string) :
  contains "<!--" code = false ->
  HTMLConverter.strip_comments (S (String.length code)) code = code
  /\ (HTMLConverter.optimize_output self = true ->
      HTMLConverter.minify self = false ->
      HTMLConverter.optimize_code self base_optimize_code code
      = base_optimize_code code).
Proof.
  intros H. split; [apply strip_comments_plain, H|].
  intros Ho Hm. unfold HTMLConverter.optimize_code. rewrite Ho, Hm. simpl.
  destruct (base_optimize_code code); reflexivity.
Qed.

Lemma X18_comment_free_document_unchanged_witness :
  HTMLConverter.strip_comments (S (String.length "<p>a < b</p>"))
    "<p>a < b</p>" = "<p>a < b</p>"
  /\ (HTMLConverter.optimize_output
        (HTMLConverter.default_options true false) = true ->
      HTMLConverter.minify (HTMLConverter.default_options true false)
      = false ->
      HTMLConverter.optimize_code (HTMLConverter.default_options true false)
        (fun code => Ok code) "<p>a < b</p>"
      = (fun code : string => Ok code) "<p>a < b</p>").
Proof.
  apply (X18_comment_free_document_unchanged
           (HTMLConverter.default_options true false) (fun code => Ok code)
           "<p>a < b</p>").
  reflexivity.
Defined.

(** ** Normalised style sheets *)

Section Normalisation.

Import ManifestTools.

Lemma settled_filter (keep : string -> bool) (l : list string) :
  settled l = true -> settled (filter keep l) = true.
Proof.
  induction l as [|p l IH]; simpl; [reflexivity|].
  intros H. apply andb_true_iff in H as [Hp Hl].
  destruct (keep p); simpl; [|now apply IH].
  rewrite (IH Hl), andb_true_r.
  rewrite forallb_forall in *. intros q Hq.
  apply Hp. apply filter_In in Hq. tauto.
Qed.

Lemma settled_last (l : list string) (q : string) :
  settled l = true ->
  forallb (fun p => negb (declares (property_name q) p)) l = true ->
  settled (l +++ [q]) = true.
Proof.
  induction l as [|p l IH]; simpl; [reflexivity|].
  intros H Hq. apply andb_true_iff in H as [Hp Hl].
  apply andb_true_iff in Hq as [Hqp Hql].
  rewrite (IH Hl Hql), andb_true_r, forallb_app, Hp. simpl.
  now rewrite Hqp.
Qed.

Lemma forallb_filter_same (keep : string -> bool) (l : list string) :
  forallb keep (filter keep l) = true.
Proof.
  induction l as [|p l IH]; simpl; [reflexivity|].
  destruct (keep p) eqn:E; simpl; [now rewrite E|exact IH].
Qed.

Lemma forallb_filter (f keep : string -> bool) (l : list string) :
  forallb f l = true -> forallb f (filter keep l) = true.
Proof.
  induction l as [|p l IH]; simpl; [reflexivity|].
  intros H. apply andb_true_iff in H as [Hp Hl].
  destruct (keep p); simpl; [now rewrite Hp, IH|now apply IH].
Qed.

Lemma add_property_settled (properties : list string) (prop : string) :
  settled properties = true /\ forallb nonempty properties = true ->
  settled (add_property properties prop) = true
  /\ forallb nonempty (add_property properties prop) = true.
Proof.
  intros [Hs Hn]. unfold add_property.
  destruct (nonempty (strip prop)) eqn:E; [|tauto]. split.
  - apply settled_last; [now apply settled_filter|].
    apply forallb_filter_same.
  - rewrite forallb_app. simpl. rewrite E, andb_true_r.
    now apply forallb_filter.
Qed.

Lemma fold_add_property_settled (pieces properties : list string) :
  settled properties = true /\ forallb nonempty properties = true ->
  settled (fold_left add_property pieces properties) = true
  /\ forallb nonempty (fold_left add_property pieces properties) = true.
Proof.
  revert properties. induction pieces as [|prop pieces IH]; intros properties.
  - trivial.
  - intros H. simpl. apply IH. now apply add_property_settled.
Qed.

End Normalisation.

(** ** The complexity of a structure *)

Section Complexity.

Import WhyMLProcessor.

Lemma count_elements_bounds (obj : value) (depth : nat) :
  depth <= snd (count_elements obj depth)
  /\ snd (count_elements obj depth) <= depth + fst (count_elements obj depth).
Proof.
  revert depth.
  induction obj as [| | | |l IH|d IH] using value_induction; intros depth;
    try (simpl; lia).
  - cbn [count_elements].
    match goal with
    | |- context [?f l 0 depth] => set (each := f)
    end.
    assert (H : forall count max_depth,
               depth <= max_depth <= depth + count ->
               depth <= snd (each l count max_depth)
               /\ snd (each l count max_depth)
                  <= depth + fst (each l count max_depth)).
    { induction IH as [|item rest Hi _ IHrest]; intros count max_depth Hb.
      - simpl. lia.
      - specialize (Hi depth).
        destruct item; cbn -[count_elements];
          try (apply IHrest; exact Hb);
          match goal with
          | |- context [count_elements ?v depth] =>
              destruct (count_elements v depth) as [c m]
          end; simpl in Hi; apply IHrest; lia. }
    apply H. lia.
  - cbn [count_elements].
    match goal with
    | |- context [?f d 1 depth] => set (each := f)
    end.
    assert (H : forall count max_depth,
               1 <= count -> depth <= max_depth <= depth + count ->
               depth <= snd (each d count max_depth)
               /\ snd (each d count max_depth)
                  <= depth + fst (each d count max_depth)).
    { induction IH as [|[k v] rest Hi _ IHrest]; intros count max_depth Hc Hb.
      - simpl. lia.
      - simpl in Hi. specialize (Hi (S depth)).
        destruct v; cbn -[count_elements];
          try (apply IHrest; assumption);
          match goal with
          | |- context [count_elements ?v (S depth)] =>
              destruct (count_elements v (S depth)) as [c m]
          end; simpl in Hi; apply IHrest; lia. }
    apply H; lia.
Qed.

End Complexity.

(** X20: the figures of [_analyze_structure_complexity] are consistent:
    counting from a depth, the greatest depth is at least that depth and
    exceeds it by no more than the number of mappings counted, so the
    nesting depth reported for a manifest is at most its element count and
    the score lies between the count and the count times its successor. *)
Theorem X20_nesting_depth_at_most_element_count (manifest : dict) :
  let '(element_count, max_depth, score) :=
    WhyMLProcessor._analyze_structure_complexity manifest in
  max_depth <= element_count
  /\ element_count <= score <= element_count * (element_count + 1).
Proof.
  unfold WhyMLProcessor._analyze_structure_complexity.
  pose proof (count_elements_bounds (get manifest "structure" (VDict [])) 0)
    as H.
  destruct (WhyMLProcessor.count_elements _ 0) as [c m]. simpl in H. nia.
Qed.

(** ** Names of elements *)

Section Names.

Import HTMLConverter.

Variable py_repr : value -> result string.
Variable convert : value -> nat -> result string.
Variable styles : dict.
Variable indent : nat.

Lemma member_included (name : string) (some all : list string) :
  forallb (fun t => member t all) some = true ->
  member name some = true -> member name all = true.
Proof.
  intros Hall H. unfold member in H. apply existsb_exists in H as [t [Ht E]].
  apply String.eqb_eq in E. subst t.
  rewrite forallb_forall in Hall. apply Hall, Ht.
Qed.

Lemma convert_children_tag (l : list value) (st st' : element_state) :
  convert_children convert indent l st = Ok st' -> tag_name st' = tag_name st.
Proof.
  revert st. induction l as [|child more IH]; intros st; simpl.
  - now intros [= ->].
  - destruct (convert child (S indent)); [|discriminate]. simpl.
    intros H. apply IH in H. exact H.
Qed.

Lemma convert_item_tag (st st' : element_state) (key : string) (v : value) :
  _is_html_element key = false ->
  convert_item py_repr convert styles indent st key v = Ok st' ->
  tag_name st' = tag_name st.
Proof.
  intros Hk. unfold convert_item. rewrite Hk.
  destruct (member key ["text"; "content"]).
  { returned. now intros [= <-]. }
  destruct (String.eqb key "children").
  { destruct v; try (apply convert_children_tag);
      returned; now intros [= <-]. }
  destruct (String.eqb key "style").
  { unfold style_item. destruct (in_dict v styles) as [[|]|]; simpl;
      try discriminate; destruct v; now intros [= <-]. }
  destruct (member key attribute_keys); returned; now intros [= <-].
Qed.

Lemma collect_items_tag (d : dict) (st st' : element_state) :
  names_no_element d = true ->
  collect_items py_repr convert styles indent d st = Ok st' ->
  tag_name st' = tag_name st.
Proof.
  revert st. induction d as [|[key v] rest IH]; intros st; simpl.
  - now intros _ [= <-].
  - intros H. apply andb_true_iff in H as [Hk Hrest].
    apply negb_true_iff in Hk.
    destruct (convert_item py_repr convert styles indent st key v) as [st1|]
      eqn:E; [|discriminate]. simpl.
    intros H. apply (IH _ Hrest) in H. rewrite H.
    eapply convert_item_tag; eassumption.
Qed.

Lemma render_div (attr_str : string) (content : list string) :
  div_element indent (render_element indent "div" attr_str content).
Proof.
  destruct content as [|single more] eqn:E.
  - exists attr_str, "". simpl. now rewrite !string_app_assoc.
  - rewrite <- E.
    destruct (render_element_closed indent "div" attr_str content)
      as [inner H]; [now rewrite E|].
    exists attr_str, inner. rewrite H. now rewrite !string_app_assoc.
Qed.

Lemma element_without_name (element : dict) (html : string) :
  names_no_element element = true ->
  convert_element py_repr convert styles indent element = Ok html ->
  div_element indent html.
Proof.
  intros Hn. unfold convert_element.
  destruct (collect_items py_repr convert styles indent element empty_state)
    as [st|] eqn:E; [|discriminate].
  apply (collect_items_tag _ _ _ Hn) in E. cbn [bind]. rewrite E.
  destruct element as [|[first_key v] rest]; [discriminate|].
  simpl in Hn. apply andb_true_iff in Hn as [Hk _].
  apply negb_true_iff in Hk. simpl. rewrite Hk. cbn [bind].
  destruct (_format_attributes py_repr (attributes st)) as [attr_str|];
    [|discriminate].
  cbn [bind]. intros [= <-]. apply render_div.
Qed.

End Names.

(** X21: the two lists of element names agree in one direction: a tag
    that [validate_structure] accepts is a name that the converter takes
    for an element, in whatever case it is written. *)
Theorem X21_valid_tag_is_element_name (tag_name : string) :
  ManifestTools._is_valid_html_tag tag_name = true ->
  HTMLConverter._is_html_element tag_name = true.
Proof.
  unfold ManifestTools._is_valid_html_tag, HTMLConverter._is_html_element.
  apply member_included. reflexivity.
Qed.

Lemma X21_valid_tag_is_element_name_witness :
  HTMLConverter._is_html_element "TBody" = true.
Proof.
  apply (X21_valid_tag_is_element_name "TBody"). reflexivity.
Defined.

(** X22: an element none of whose keys is the name of an HTML element is
    written as a [div], whatever its other keys hold: a key such as [tag]
    or [type] is never read for the name of the element. *)
Theorem X22_element_without_name_is_div
  (py_repr : value -> result string) (element styles : dict) (indent : nat)
  (html : string) :
  names_no_element element = true ->
  HTMLConverter._convert_element_to_html py_repr element styles indent
  = Ok html ->
  div_element indent html.
Proof. apply element_without_name. Qed.

Lemma X22_element_without_name_is_div_witness :
  div_element 1 "  <div>Hello</div>".
Proof.
  apply (X22_element_without_name_is_div (fun _ => Ok "")
           [("type", VStr "heading"); ("tag", VStr "h1");
            ("text", VStr "Hello")]
           [] 1).
  - reflexivity.
  - reflexivity.
Defined.

(** X23: each of the dictionaries that the manifest generator writes for a
    heading, a paragraph, an image and a link is converted without an
    error, and to a [div]: the generator names the element under the key
    [tag], which the converter does not read. *)
Theorem X23_generated_elements_become_div
  (py_repr : value -> result string) (styles : dict) (indent : nat)
  (level : Z) (text src alt href : string) :
  Forall
    (fun element =>
       exists html,
         HTMLConverter._convert_element_to_html py_repr element styles indent
         = Ok html
         /\ div_element indent html)
    [SimpleManifestGenerator.heading level text;
     SimpleManifestGenerator.paragraph text;
     SimpleManifestGenerator.image src alt;
     SimpleManifestGenerator.link href text].
Proof.
  repeat constructor; eexists; (split; [reflexivity|apply render_div]).
Qed.

(** ** Normalising twice *)

Section NormalisingTwice.

Import ManifestTools.

Lemma spaceless_app (a b : string) :
  spaceless (a ++ b) = spaceless a && spaceless b.
Proof.
  induction a as [|c a IH]; simpl; [reflexivity|].
  now rewrite IH, andb_assoc.
Qed.

Lemma spaceless_single_spaced (w : string) :
  spaceless w = true -> single_spaced w = true.
Proof.
  induction w as [|c w IH]; simpl; [reflexivity|].
  intros H. apply andb_true_iff in H as [Hc Hw].
  now rewrite Hc, (IH Hw).
Qed.

Lemma spaceless_starts (w : string) : spaceless w = true -> starts_ws w = false.
Proof.
  destruct w as [|c w]; simpl; [reflexivity|].
  intros H. apply andb_true_iff in H as [Hc _]. now apply negb_true_iff.
Qed.

Lemma spaceless_ends (w : string) : spaceless w = true -> ends_ws w = false.
Proof.
  induction w as [|c w IH]; [reflexivity|].
  intros H. simpl in H. apply andb_true_iff in H as [Hc Hw].
  simpl. destruct w; [now apply negb_true_iff|apply IH, Hw].
Qed.

Lemma starts_ws_app (a b : string) :
  a <> "" -> starts_ws (a ++ b) = starts_ws a.
Proof. destruct a; [congruence|reflexivity]. Qed.

Lemma ends_ws_app (a b : string) : b <> "" -> ends_ws (a ++ b) = ends_ws b.
Proof.
  intros Hb. induction a as [|c a IH]; [reflexivity|].
  change (String c a ++ b) with (String c (a ++ b)).
  rewrite ends_ws_cons; [exact IH|].
  destruct a; [exact Hb|discriminate].
Qed.

Lemma single_spaced_left (a b : string) :
  single_spaced (a ++ b) = true -> single_spaced a = true.
Proof.
  induction a as [|c a IH]; [reflexivity|].
  simpl. intros H. apply andb_true_iff in H as [Hc Hr].
  rewrite (IH Hr), andb_true_r.
  destruct a as [|d a]; [|exact Hc].
  simpl. destruct (negb (isspace c)); [reflexivity|].
  simpl in Hc. apply andb_true_iff in Hc as [Hc _]. now rewrite Hc.
Qed.

Lemma single_spaced_right (a b : string) :
  single_spaced (a ++ b) = true -> single_spaced b = true.
Proof.
  induction a as [|c a IH]; [trivial|].
  simpl. intros H. apply andb_true_iff in H as [_ Hr]. apply IH, Hr.
Qed.

Lemma single_spaced_app (a b : string) :
  single_spaced a = true -> single_spaced b = true ->
  ends_ws a && starts_ws b = false ->
  single_spaced (a ++ b) = true.
Proof.
  induction a as [|c a IH]; [trivial|].
  intros Ha Hb Hab. simpl in Ha. apply andb_true_iff in Ha as [Hc Ha].
  destruct a as [|d a].
  - simpl in *. rewrite Hb, andb_true_r.
    destruct (isspace c); [|reflexivity]. simpl in *.
    rewrite andb_true_r in Hc. now rewrite Hc, Hab.
  - change (single_spaced (String c (String d a ++ b)) = true).
    cbn [single_spaced]. rewrite (IH Ha Hb Hab).
    rewrite andb_true_r. exact Hc.
Qed.

Lemma no_semicolon_app (a b : string) :
  no_semicolon (a ++ b) = no_semicolon a && no_semicolon b.
Proof.
  induction a as [|c a IH]; simpl; [reflexivity|].
  now rewrite IH, andb_assoc.
Qed.

Lemma lstrip_kept (s : string) :
  (single_spaced s = true -> single_spaced (lstrip s) = true)
  /\ (no_semicolon s = true -> no_semicolon (lstrip s) = true).
Proof.
  induction s as [|c s [IH1 IH2]]; [split; trivial|].
  split; intros H; simpl; destruct (isspace c) eqn:E; try exact H;
    simpl in H; apply andb_true_iff in H as [_ Hs]; auto.
Qed.

Lemma rstrip_kept (s : string) :
  (single_spaced s = true -> single_spaced (rstrip s) = true)
  /\ (no_semicolon s = true -> no_semicolon (rstrip s) = true).
Proof.
  induction s as [|c s [IH1 IH2]]; [split; trivial|].
  split; intros H; simpl in H; apply andb_true_iff in H as [Hc Hs]; simpl.
  - specialize (IH1 Hs).
    assert (Hn : negb (isspace c)
                 || (Ascii.eqb c " " && negb (starts_ws (rstrip s))) = true).
    { destruct (negb (isspace c)); [reflexivity|]. simpl in *.
      apply andb_true_iff in Hc as [Hc Hn]. rewrite Hc. simpl.
      apply negb_true_iff in Hn. now rewrite (starts_ws_rstrip s Hn). }
    destruct (rstrip s) as [|d r].
    + destruct (isspace c) eqn:Ec; simpl; [reflexivity|]. now rewrite Ec.
    + simpl. simpl in Hn, IH1. now rewrite Hn, IH1.
  - specialize (IH2 Hs).
    destruct (rstrip s) as [|d r].
    + destruct (isspace c); simpl; [reflexivity|]. now rewrite Hc.
    + simpl. simpl in IH2. now rewrite Hc, IH2.
Qed.

Lemma strip_kept (piece : string) :
  single_spaced piece = true -> no_semicolon piece = true ->
  nonempty (strip piece) = true ->
  kept_property (strip piece) = true.
Proof.
  intros Hs Hn He. unfold kept_property, plain_address, strip in *.
  rewrite He. simpl.
  rewrite (proj2 (rstrip_kept _) (proj2 (lstrip_kept _) Hn)).
  rewrite (proj1 (rstrip_kept _) (proj1 (lstrip_kept _) Hs)).
  rewrite ends_ws_rstrip, starts_ws_rstrip by apply starts_ws_lstrip.
  reflexivity.
Qed.

Lemma words_acc_spaceless (s cur : string) :
  spaceless cur = true ->
  forallb (fun w => nonempty w && spaceless w) (words_acc cur s) = true.
Proof.
  revert cur. induction s as [|c s IH]; intros cur Hcur; simpl.
  - destruct cur; [reflexivity|]. simpl. simpl in Hcur. now rewrite Hcur.
  - destruct (isspace c) eqn:E.
    + destruct (nonempty cur) eqn:En; [|now apply IH].
      simpl. rewrite En, Hcur. simpl. now apply IH.
    + apply IH. rewrite spaceless_app, Hcur. simpl. now rewrite E.
Qed.

Lemma join_words_single_spaced (ws : list string) :
  forallb (fun w => nonempty w && spaceless w) ws = true ->
  single_spaced (join " " ws) = true /\ starts_ws (join " " ws) = false.
Proof.
  induction ws as [|w ws IH]; [split; reflexivity|].
  intros H. cbn [forallb] in H. apply andb_true_iff in H as [Hw Hws].
  apply andb_true_iff in Hw as [Hne Hw].
  destruct (IH Hws) as [Js Jst].
  destruct ws as [|w' ws].
  - split; [now apply spaceless_single_spaced|now apply spaceless_starts].
  - rewrite join_cons by discriminate.
    set (J := join " " (w' :: ws)) in *.
    split.
    + apply single_spaced_app.
      * now apply spaceless_single_spaced.
      * simpl. now rewrite Js, Jst.
      * now rewrite (spaceless_ends w Hw).
    + rewrite starts_ws_app by (destruct w; discriminate).
      now apply spaceless_starts.
Qed.

Lemma split_acc_kept (s cur : string) :
  single_spaced (cur ++ s) = true -> no_semicolon cur = true ->
  forallb (fun p => single_spaced p && no_semicolon p) (split_acc ";" cur s)
  = true.
Proof.
  revert cur. induction s as [|c s IH]; intros cur Hs Hn; simpl.
  - rewrite append_empty in Hs. now rewrite Hs, Hn.
  - destruct (Ascii.eqb c ";") eqn:E.
    + simpl. rewrite (single_spaced_left _ _ Hs), Hn. simpl.
      apply IH; [|reflexivity]. simpl.
      apply single_spaced_right in Hs. simpl in Hs.
      apply andb_true_iff in Hs as [_ Hs]. exact Hs.
    + apply IH.
      * now rewrite string_app_assoc.
      * rewrite no_semicolon_app, Hn. simpl. unfold Regex.is_char.
        now rewrite E.
Qed.

Lemma add_property_kept (properties : list string) (piece : string) :
  single_spaced piece = true -> no_semicolon piece = true ->
  forallb kept_property properties = true ->
  forallb kept_property (add_property properties piece) = true.
Proof.
  intros Hs Hn Hk. unfold add_property.
  destruct (nonempty (strip piece)) eqn:E; [|exact Hk].
  rewrite forallb_app. simpl. rewrite (strip_kept piece Hs Hn E).
  rewrite andb_true_r. now apply forallb_filter.
Qed.

Lemma fold_add_property_kept (pieces properties : list string) :
  forallb (fun p => single_spaced p && no_semicolon p) pieces = true ->
  forallb kept_property properties = true ->
  forallb kept_property (fold_left add_property pieces properties) = true.
Proof.
  revert properties. induction pieces as [|piece pieces IH];
    intros properties Hp Hk; [exact Hk|].
  simpl in Hp. apply andb_true_iff in Hp as [Hpiece Hp].
  apply andb_true_iff in Hpiece as [Hs Hn].
  simpl. apply (IH _ Hp). now apply add_property_kept.
Qed.

Lemma normalized_properties_kept (css : string) :
  forallb kept_property (normalized_properties css) = true.
Proof.
  unfold normalized_properties. apply fold_add_property_kept; [|reflexivity].
  unfold split. apply split_acc_kept; [|reflexivity].
  apply (proj1 (join_words_single_spaced _ (words_acc_spaceless css "" eq_refl))).
Qed.

(** A string whose whitespace is single spaces between other characters
    is the join of its words. *)
Lemma join_words_acc (s cur : string) :
  single_spaced s = true -> ends_ws s = false ->
  (starts_ws s = true -> nonempty cur = true) ->
  join " " (words_acc cur s) = cur ++ s.
Proof.
  revert cur. induction s as [|c s IH]; intros cur Hs He Hcur.
  - simpl. rewrite append_empty. destruct cur; reflexivity.
  - simpl in Hs. apply andb_true_iff in Hs as [Hc Hs].
    assert (He' : ends_ws s = false).
    { destruct s; [reflexivity|exact He]. }
    simpl. destruct (isspace c) eqn:E.
    + simpl in Hc. apply andb_true_iff in Hc as [Hc Hn].
      apply Ascii.eqb_eq in Hc. subst c. apply negb_true_iff in Hn.
      rewrite (Hcur eq_refl).
      assert (Hr : join " " (words_acc "" s) = s).
      { apply (IH ""); auto. rewrite Hn. discriminate. }
      destruct s as [|d s]; [simpl in He; discriminate|].
      rewrite join_cons; [now rewrite Hr|].
      intros Hnil. rewrite Hnil in Hr. discriminate.
    + rewrite IH; auto.
      * now rewrite string_app_assoc.
      * intros _. destruct cur; reflexivity.
Qed.

Lemma joined_properties (ps : list string) :
  ps <> [] -> forallb kept_property ps = true ->
  single_spaced (join "; " ps) = true
  /\ starts_ws (join "; " ps) = false
  /\ ends_ws (join "; " ps) = false
  /\ join "; " ps <> "".
Proof.
  induction ps as [|p ps IH]; [congruence|]. intros _ H.
  cbn [forallb] in H. apply andb_true_iff in H as [Hp Hps].
  unfold kept_property, plain_address in Hp.
  apply andb_true_iff in Hp as [Hp Hsp]. apply andb_true_iff in Hp as [Hp He].
  apply andb_true_iff in Hp as [Hp Hst]. apply andb_true_iff in Hp as [Hne _].
  apply negb_true_iff in He, Hst.
  destruct ps as [|q ps].
  - simpl. repeat split; auto. destruct p; discriminate.
  - destruct (IH ltac:(discriminate) Hps) as [Js [Jst [Je Jne]]].
    rewrite join_cons by discriminate.
    set (J := join "; " (q :: ps)) in *.
    assert (Hsep : single_spaced ("; " ++ J) = true).
    { simpl. now rewrite Js, Jst. }
    repeat split.
    + apply single_spaced_app; auto. now rewrite He.
    + rewrite starts_ws_app by (destruct p; discriminate). exact Hst.
    + rewrite ends_ws_app by discriminate.
      change ("; " ++ J) with (String ";" (String " " J)).
      rewrite !ends_ws_cons; auto. discriminate.
    + destruct p; discriminate.
Qed.

Lemma settled_head (acc rest : list string) (q : string) :
  settled (acc +++ q :: rest) = true ->
  forallb (fun a => negb (declares (property_name q) a)) acc = true.
Proof.
  induction acc as [|a acc IH]; [reflexivity|].
  simpl. intros H. apply andb_true_iff in H as [Ha Hacc].
  rewrite (IH Hacc), andb_true_r.
  rewrite forallb_app in Ha. apply andb_true_iff in Ha as [_ Ha].
  simpl in Ha. apply andb_true_iff in Ha as [Ha _]. exact Ha.
Qed.

Lemma filter_all (keep : string -> bool) (l : list string) :
  forallb keep l = true -> filter keep l = l.
Proof.
  induction l as [|p l IH]; simpl; [reflexivity|].
  intros H. apply andb_true_iff in H as [Hp Hl].
  now rewrite Hp, (IH Hl).
Qed.

Lemma fold_add_property_settled_pieces (pieces acc : list string) :
  forallb (fun q => nonempty (strip q)) pieces = true ->
  settled (acc +++ map strip pieces) = true ->
  fold_left add_property pieces acc = acc +++ map strip pieces.
Proof.
  revert acc. induction pieces as [|q pieces IH]; intros acc Hne Hs.
  - simpl. now rewrite app_nil_r.
  - simpl in Hne. apply andb_true_iff in Hne as [Hq Hne].
    cbn [fold_left map]. unfold add_property at 2. rewrite Hq.
    cbn [map] in Hs. rewrite (filter_all _ _ (settled_head _ _ _ Hs)).
    rewrite IH; auto; rewrite <- app_assoc; [reflexivity|exact Hs].
Qed.

Lemma map_strip_spaced (ps : list string) :
  forallb kept_property ps = true ->
  map strip (map (fun v => " " ++ v) ps) = ps
  /\ forallb (fun q => nonempty (strip q)) (map (fun v => " " ++ v) ps) = true.
Proof.
  induction ps as [|p ps IH]; [split; reflexivity|].
  intros H. cbn [forallb] in H. apply andb_true_iff in H as [Hp Hps].
  unfold kept_property in Hp. apply andb_true_iff in Hp as [Hp _].
  destruct (IH Hps) as [IH1 IH2]. cbn [map forallb].
  rewrite (proj1 (strip_spaced p Hp)), IH1, IH2.
  unfold plain_address in Hp.
  apply andb_true_iff in Hp as [Hp _]. apply andb_true_iff in Hp as [Hp _].
  apply andb_true_iff in Hp as [Hp _]. now rewrite Hp.
Qed.

Lemma kept_plain (ps : list string) :
  forallb kept_property ps = true -> forallb plain_address ps = true.
Proof.
  induction ps as [|p ps IH]; [reflexivity|].
  simpl. intros H. apply andb_true_iff in H as [Hp Hps].
  unfold kept_property in Hp. apply andb_true_iff in Hp as [Hp _].
  now rewrite Hp, IH.
Qed.

Lemma normalized_properties_again (ps : list string) :
  forallb kept_property ps = true -> settled ps = true ->
  normalized_properties (join "; " ps) = ps.
Proof.
  intros Hk Hs. destruct ps as [|p ps]; [reflexivity|].
  destruct (joined_properties (p :: ps) ltac:(discriminate) Hk)
    as [Js [Jst [Je _]]].
  unfold normalized_properties, words.
  rewrite join_words_acc; auto; [|rewrite Jst; discriminate].
  cbn [append]. rewrite split_joined by now apply kept_plain.
  cbn [forallb] in Hk. apply andb_true_iff in Hk as [Hp Hps].
  destruct (map_strip_spaced ps Hps) as [Hm Hn].
  unfold kept_property in Hp. apply andb_true_iff in Hp as [Hp _].
  destruct (strip_spaced p Hp) as [_ Hstrip].
  rewrite fold_add_property_settled_pieces.
  - cbn [map app]. now rewrite Hstrip, Hm.
  - cbn [forallb]. rewrite Hstrip, Hn. unfold plain_address in Hp.
    apply andb_true_iff in Hp as [Hp _]. apply andb_true_iff in Hp as [Hp _].
    apply andb_true_iff in Hp as [Hp _]. now rewrite Hp.
  - cbn [map app]. now rewrite Hstrip, Hm.
Qed.

Lemma normalize_css_again (css : string) :
  _normalize_css (_normalize_css css) = _normalize_css css.
Proof.
  unfold _normalize_css at 1 3. f_equal.
  apply normalized_properties_again.
  - apply normalized_properties_kept.
  - unfold normalized_properties.
    apply fold_add_property_settled. split; reflexivity.
Qed.

Lemma settled_later (l : list string) (i j : nat) (p q : string) :
  settled l = true -> i < j ->
  nth_error l i = Some p -> nth_error l j = Some q ->
  declares (property_name q) p = false.
Proof.
  revert i j. induction l as [|x l IH]; intros i j Hs Hij Hp Hq.
  - destruct i; discriminate.
  - simpl in Hs. apply andb_true_iff in Hs as [Hx Hl].
    destruct j as [|j]; [lia|]. simpl in Hq.
    destruct i as [|i].
    + injection Hp as ->. rewrite forallb_forall in Hx.
      apply negb_true_iff. apply Hx. apply (nth_error_In _ _ Hq).
    + simpl in Hp. apply (IH i j Hl ltac:(lia) Hp Hq).
Qed.

(** Of two kept properties the earlier one, when it has the colon directly
    after its name, has another name than the later one. *)
Lemma kept_names_differ (l : list string) (i j : nat) (p q : string) :
  settled l = true -> forallb kept_property l = true -> i < j ->
  nth_error l i = Some p -> nth_error l j = Some q ->
  prefix (property_name p ++ ":") p = true ->
  property_name p <> property_name q.
Proof.
  intros Hs Hk Hij Hp Hq Htight Hsame.
  pose proof (settled_later l i j p q Hs Hij Hp Hq) as Hd.
  rewrite forallb_forall in Hk.
  pose proof (Hk p (nth_error_In _ _ Hp)) as Hkp.
  unfold kept_property in Hkp. apply andb_true_iff in Hkp as [Hplain _].
  destruct (strip_spaced p Hplain) as [_ Hstrip].
  unfold declares in Hd. rewrite Hstrip, <- Hsame, Htight in Hd.
  discriminate.
Qed.

End NormalisingTwice.

(** X19: in the list of properties that [_normalize_css] joins, no
    property is empty and none starts with the name of a later property
    followed by a colon, which is how the loop recognises an earlier
    declaration of a name.  So a property that has the colon directly
    after its name is never followed by a property of the same name: of
    such declarations only the last is kept. *)
Theorem X19_normalized_properties_named_once (css : string) :
  settled (ManifestTools.normalized_properties css) = true
  /\ forallb nonempty (ManifestTools.normalized_properties css) = true
  /\ forall (i j : nat) (p q : string),
       i < j ->
       nth_error (ManifestTools.normalized_properties css) i = Some p ->
       nth_error (ManifestTools.normalized_properties css) j = Some q ->
       prefix (ManifestTools.property_name p ++ ":") p = true ->
       ManifestTools.property_name p <> ManifestTools.property_name q.
Proof.
  assert (Hs : settled (ManifestTools.normalized_properties css) = true
               /\ forallb nonempty (ManifestTools.normalized_properties css)
                  = true).
  { unfold ManifestTools.normalized_properties.
    apply fold_add_property_settled. split; reflexivity. }
  destruct Hs as [Hs Hn]. repeat split; [exact Hs|exact Hn|].
  intros i j p q. apply kept_names_differ; [exact Hs|].
  apply normalized_properties_kept.
Qed.

Lemma X19_normalized_properties_named_once_witness :
  ManifestTools.property_name "margin: 0"
  <> ManifestTools.property_name "color: blue".
Proof.
  apply (proj2 (proj2 (X19_normalized_properties_named_once
                         "color: red ;  margin: 0;color: blue"))
           0 1 "margin: 0" "color: blue"); [lia|reflexivity..].
Defined.

(** X24: [_normalize_css] is idempotent: a style that has been
    normalised is returned as it is, character for character. *)
Theorem X24_normalize_css_idempotent (css : string) :
  ManifestTools._normalize_css (ManifestTools._normalize_css css)
  = ManifestTools._normalize_css css.
Proof. apply normalize_css_again. Qed.

(** X25: [optimize_styles] keeps the names of the styles in their order,
    and optimising what it returned changes nothing. *)
Theorem X25_optimize_styles_idempotent (styles optimized : dict) :
  ManifestTools.optimize_styles styles = Ok optimized ->
  map fst optimized = map fst styles
  /\ ManifestTools.optimize_styles optimized = Ok optimized.
Proof.
  revert optimized. induction styles as [|[name css] rest IH]; intros optimized.
  - intros [= <-]. split; reflexivity.
  - simpl. destruct css; try discriminate. cbn [bind].
    destruct (ManifestTools.optimize_styles rest) as [rest'|]; [|discriminate].
    cbn [bind]. intros [= <-]. destruct (IH rest' eq_refl) as [Hk Hr].
    simpl. rewrite Hk, Hr. cbn [bind]. rewrite normalize_css_again.
    split; reflexivity.
Qed.

Lemma X25_optimize_styles_idempotent_witness :
  map fst [("card", VStr "margin: 0; color: blue")]
  = map fst [("card", VStr "color: red ;  margin: 0;color: blue")]
  /\ ManifestTools.optimize_styles [("card", VStr "margin: 0; color: blue")]
     = Ok [("card", VStr "margin: 0; color: blue")].
Proof.
  apply (X25_optimize_styles_idempotent
           [("card", VStr "color: red ;  margin: 0;color: blue")]).
  reflexivity.
Defined.

(** ** Keys taken for tags *)

Section KeysAsTags.

Import ManifestTools.

Lemma reserved_key_not_tag (k : string) :
  ManifestValidator.reserved_key k = true -> _is_valid_html_tag k = false.
Proof.
  unfold ManifestValidator.reserved_key. intros H.
  apply existsb_exists in H as [r [Hr E]]. apply String.eqb_eq in E.
  subst r. simpl in Hr.
  destruct Hr as [<- | [<- | [<- | [<- | [<- | []]]]]]; reflexivity.
Qed.

Lemma invalid_key_reported (d : dict) (k path : string) :
  has_key d k = true -> _is_valid_html_tag k = false ->
  In ("Invalid HTML tag '" ++ k ++ "' at " ++ path)
     (validate_tags (VDict d) path).
Proof.
  intros Hk Hv. unfold has_key in Hk.
  destruct (lookup d k) as [v|] eqn:E; [clear Hk|discriminate].
  apply lookup_present in E. cbn [validate_tags].
  induction d as [|[tag_name tag_content] rest IH]; [destruct E|].
  apply in_or_app. destruct E as [E | E].
  - left. apply in_or_app. left. simpl in E. subst tag_name.
    rewrite Hv. now left.
  - right. apply IH, E.
Qed.

End KeysAsTags.

(** X26: [validate_structure] takes every key of a mapping for a tag: a
    node that has [text], [children], [style], [class] or [id] beside its
    tag, as the converter reads them and the validator lets them pass, is
    reported with an invalid tag of that name. *)
Theorem X26_reserved_keys_are_reported (structure : dict) (key : string) :
  has_key structure key = true ->
  ManifestValidator.reserved_key key = true ->
  In ("Invalid HTML tag '" ++ key ++ "' at root")
     (ManifestTools.validate_structure (VDict structure)).
Proof.
  intros Hk Hr. apply invalid_key_reported; [exact Hk|].
  apply reserved_key_not_tag, Hr.
Qed.

Lemma X26_reserved_keys_are_reported_witness :
  In "Invalid HTML tag 'text' at root"
     (ManifestTools.validate_structure
        (VDict [("p", VDict []); ("text", VStr "Hello")])).
Proof.
  apply (X26_reserved_keys_are_reported
           [("p", VDict []); ("text", VStr "Hello")] "text").
  - reflexivity.
  - reflexivity.
Defined.
